(** * The sqlite3 driver for Go: connection, statement and cursor protocol

    A shallow embedding of the driver (package [sqlite3]) and the statements
    about it.  The SQLite library is an external collaborator: it is
    modelled as an arbitrary state machine ([Engine]) that answers each C
    call, and every driver function runs in a monad that threads the
    engine's state, records the C calls it makes together with their
    answers, and can panic the way the Go code can. *)

From Stdlib Require Import ZArith String List Lia.
From stdpp Require Import base decidable option list gmap strings.

Open Scope Z_scope.

(** ** Go and C data *)

(** A C pointer ([*C.sqlite3], [*C.sqlite3_stmt]); [nil] is the null
    pointer. *)
Definition Handle := Z.
Definition nil_handle : Handle := 0.

(** Go's [int] and C's [int] are both 32 bits wide here; [C_int] is the
    conversion [C.int(x)], which keeps the low 32 bits. *)
Definition C_int (x : Z) : Z := (x + 2 ^ 31) mod 2 ^ 32 - 2 ^ 31.

(** [os.Error] values.  [DriverError] and [SystemError] are the driver's two
    error types; [ForeignError] stands for an error produced by another
    package ([http], [strconv], [db]).  A nil [os.Error] is [None]. *)
Inductive Error :=
| DriverError (message : string)
| SystemError (basic extended : Z) (message : string)
| ForeignError (message : string).

(** One value of a [...] parameter list as [reflect] shows it: a string, or
    a value of any other type. *)
Inductive Value :=
| StringValue (s : string)
| OtherValue.

(** A row as [[]interface{}]: one text per column ([nil] is the empty
    list). *)
Definition Row := list string.

(** ** Constants of the driver *)

Definition OpenReadOnly : Z := 0x00000001.
Definition OpenReadWrite : Z := 0x00000002.
Definition OpenCreate : Z := 0x00000004.
Definition OpenNoMutex : Z := 0x00008000.
Definition OpenFullMutex : Z := 0x00010000.
Definition OpenSharedCache : Z := 0x00020000.
Definition OpenPrivateCache : Z := 0x00040000.

Definition defaultTimeoutMilliseconds : Z := 16 * 1000.

(** The status constants [StatusOk], [StatusRow] and [StatusDone] are used by
    every function of the driver but declared in a file that is not among
    the sources; they are taken as parameters. *)
Class StatusCodes := {
  StatusOk : Z;
  StatusRow : Z;
  StatusDone : Z
}.

(** ** The engine *)

(** The C calls the driver makes. *)
Inductive Call :=
| sqlite3_open_v2 (name : string) (flags : Z) (vfs : option string)
| sqlite3_busy_timeout (db : Handle) (ms : Z)
| sqlite3_extended_result_codes (db : Handle) (onoff : Z)
| sqlite3_close (db : Handle)
| sqlite3_errcode (db : Handle)
| sqlite3_errmsg (db : Handle)
| sqlite3_prepare_v2 (db : Handle) (sql : string)
| sqlite3_finalize (stmt : Handle)
| sqlite3_bind_parameter_count (stmt : Handle)
| wsq_bind_text (stmt : Handle) (i : Z) (text : string) (n : Z)
| sqlite3_step (stmt : Handle)
| sqlite3_reset (stmt : Handle)
| sqlite3_clear_bindings (stmt : Handle)
| sqlite3_column_count (stmt : Handle)
| wsq_column_text (stmt : Handle) (column : Z)
| wsq_column_name (stmt : Handle) (column : Z)
| sqlOpen (name : string) (flags : Z) (vfs : string)
| sqlBusyTimeout (db : Handle) (ms : Z)
| sqlExtendedResultCodes (db : Handle) (on : bool).

(** What a C call answers. *)
Inductive Answer :=
| RInt (n : Z)
| RText (s : string)
| RHandle (h : Handle) (rc : Z).

Record Event := Ev { ev_call : Call; ev_answer : Answer }.

(** The engine: a state of type [E] and, for each C call, the answer and the
    next state.  [sqlite3_open_v2] and [sqlite3_prepare_v2] answer the handle
    they store through their out-parameter together with the status. *)
Class Engine (E : Type) := {
  e_open_v2 : string -> Z -> option string -> E -> (Handle * Z) * E;
  e_busy_timeout : Handle -> Z -> E -> Z * E;
  e_extended_result_codes : Handle -> Z -> E -> Z * E;
  e_close : Handle -> E -> Z * E;
  e_errcode : Handle -> E -> Z * E;
  e_errmsg : Handle -> E -> string * E;
  e_prepare_v2 : Handle -> string -> E -> (Handle * Z) * E;
  e_finalize : Handle -> E -> Z * E;
  e_bind_parameter_count : Handle -> E -> Z * E;
  e_bind_text : Handle -> Z -> string -> Z -> E -> Z * E;
  e_step : Handle -> E -> Z * E;
  e_reset : Handle -> E -> Z * E;
  e_clear_bindings : Handle -> E -> Z * E;
  e_column_count : Handle -> E -> Z * E;
  e_column_text : Handle -> Z -> E -> string * E;
  e_column_name : Handle -> Z -> E -> string * E;
  e_sqlOpen : string -> Z -> string -> E -> (Handle * Z) * E;
  e_sqlBusyTimeout : Handle -> Z -> E -> Z * E;
  e_sqlExtendedResultCodes : Handle -> bool -> E -> Z * E
}.

(** ** The monad of driver code *)

(** A run ends with a value or with a Go panic. *)
Inductive Outcome (A : Type) :=
| Ret (a : A)
| Panic (reason : string).
Arguments Ret {A} a.
Arguments Panic {A} reason.

(** A computation takes the engine's state and gives its result, the
    engine's next state and the C calls it made, oldest first. *)
Definition M (E A : Type) : Type := E -> Outcome A * E * list Event.

#[global] Instance M_ret {E} : MRet (M E) :=
  fun A a e => (Ret a, e, []).

#[global] Instance M_bind {E} : MBind (M E) :=
  fun A B k m e =>
    match m e with
    | (Ret a, e1, t1) => let '(r, e2, t2) := k a e1 in (r, e2, t1 ++ t2)
    | (Panic s, e1, t1) => (Panic s, e1, t1)
    end.

Definition panic {E A} (reason : string) : M E A :=
  fun e => (Panic reason, e, []).

Definition c_call {E A} (c : Call) (ans : A -> Answer) (f : E -> A * E) : M E A :=
  fun e => let '(a, e') := f e in (Ret a, e', [Ev c (ans a)]).

(** The events of a run. *)
Definition events {E A} (r : Outcome A * E * list Event) : list Event := r.2.

Definition RHandle' (p : Handle * Z) : Answer := RHandle p.1 p.2.

(** ** Driver types *)

(** [Connection], [Statement], [Cursor] and [ClassicResultSet] are used
    through pointers in the source; only the cursor and the result set are
    ever updated, and the functions that update them return the new
    value. *)
Record Connection := { Connection_handle : Handle }.

Record Statement := {
  Statement_handle : Handle;
  Statement_connection : Connection
}.

Record Cursor := {
  Cursor_statement : Statement;
  Cursor_connection : Connection;
  result : bool
}.

Record ClassicResultSet := {
  ClassicResultSet_statement : Statement;
  ClassicResultSet_connection : Connection;
  more : bool
}.

(** The [Result] struct handed out by [ClassicResultSet.Fetch]. *)
Record Result := { data : Row; error : option Error }.

(** A [db.Statement] is this driver's [*Statement] or some other
    implementation of the interface. *)
Inductive db_Statement :=
| sqlite3_Statement (s : Statement)
| foreign_Statement.

(** The fields of [http.URL] the driver reads. *)
Record URL := { Scheme : string; Path : string; RawQuery : string }.

(** Functions of other packages ([http], [db], [strconv]) called by
    [parseConnInfo]; none of them is among the sources, so they are
    parameters.  Each returns its value and its [os.Error]. *)
Class Library := {
  http_ParseURL : string -> URL * option Error;
  db_ParseQueryURL : string -> gmap string string * option Error;
  strconv_Atoi : string -> Z * option Error
}.

Section Driver.
Context {E : Type} `{!Engine E} `{!StatusCodes} `{!Library}.

(** *** The C calls, as Go sees them *)

Definition C_sqlite3_open_v2 (name : string) (flags : Z) (vfs : option string)
  : M E (Handle * Z) :=
  c_call (sqlite3_open_v2 name flags vfs) RHandle' (e_open_v2 name flags vfs).
Definition C_sqlite3_busy_timeout (db : Handle) (ms : Z) : M E Z :=
  c_call (sqlite3_busy_timeout db ms) RInt (e_busy_timeout db ms).
Definition C_sqlite3_extended_result_codes (db : Handle) (onoff : Z) : M E Z :=
  c_call (sqlite3_extended_result_codes db onoff) RInt
         (e_extended_result_codes db onoff).
Definition C_sqlite3_close (db : Handle) : M E Z :=
  c_call (sqlite3_close db) RInt (e_close db).
Definition C_sqlite3_errcode (db : Handle) : M E Z :=
  c_call (sqlite3_errcode db) RInt (e_errcode db).
Definition C_sqlite3_errmsg (db : Handle) : M E string :=
  c_call (sqlite3_errmsg db) RText (e_errmsg db).
Definition C_sqlite3_prepare_v2 (db : Handle) (sql : string) : M E (Handle * Z) :=
  c_call (sqlite3_prepare_v2 db sql) RHandle' (e_prepare_v2 db sql).
Definition C_sqlite3_finalize (stmt : Handle) : M E Z :=
  c_call (sqlite3_finalize stmt) RInt (e_finalize stmt).
Definition C_sqlite3_bind_parameter_count (stmt : Handle) : M E Z :=
  c_call (sqlite3_bind_parameter_count stmt) RInt (e_bind_parameter_count stmt).
Definition C_wsq_bind_text (stmt : Handle) (i : Z) (text : string) (n : Z) : M E Z :=
  c_call (wsq_bind_text stmt i text n) RInt (e_bind_text stmt i text n).
Definition C_sqlite3_step (stmt : Handle) : M E Z :=
  c_call (sqlite3_step stmt) RInt (e_step stmt).
Definition C_sqlite3_reset (stmt : Handle) : M E Z :=
  c_call (sqlite3_reset stmt) RInt (e_reset stmt).
Definition C_sqlite3_clear_bindings (stmt : Handle) : M E Z :=
  c_call (sqlite3_clear_bindings stmt) RInt (e_clear_bindings stmt).
Definition C_sqlite3_column_count (stmt : Handle) : M E Z :=
  c_call (sqlite3_column_count stmt) RInt (e_column_count stmt).
Definition C_wsq_column_text (stmt : Handle) (column : Z) : M E string :=
  c_call (wsq_column_text stmt column) RText (e_column_text stmt column).
Definition C_wsq_column_name (stmt : Handle) (column : Z) : M E string :=
  c_call (wsq_column_name stmt column) RText (e_column_name stmt column).

(** *** Connections *)

(** [func (self *Connection) error() (error os.Error)] *)
Definition Connection_error (self : Connection) : M E Error :=
  extended ← C_sqlite3_errcode (Connection_handle self);
  let basic := Z.land extended 0xff in
  message ← C_sqlite3_errmsg (Connection_handle self);
  mret (SystemError basic extended message).

(** [func (self *Connection) Close() (error os.Error)] *)
Definition Connection_Close (self : Connection) : M E (option Error) :=
  rc ← C_sqlite3_close (Connection_handle self);
  if decide (rc ≠ StatusOk) then
    err ← Connection_error self; mret (Some err)
  else mret None.

(** [func parseConnInfo(str string) (name string, flags int, vfs *string,
    error os.Error)] *)
Definition parseConnInfo (str : string)
  : string * Z * option string * option Error :=
  let '(url, err) := http_ParseURL str in
  if err is Some _ then ("", 0, None, err) else
  if bool_decide (0 < String.length (Scheme url))%nat
     && bool_decide (Scheme url ≠ "sqlite3") then
    ("", 0, None,
     Some (DriverError ("Open: unknown scheme " +:+ Scheme url +:+ " expected sqlite3")))
  else
  if decide (String.length (Path url) = 0)%nat then
    ("", 0, None, Some (DriverError "Open: no path or database name"))
  else
  let name := Path url in
  if decide (0 < String.length (RawQuery url))%nat then
    let '(options, e) := db_ParseQueryURL (RawQuery url) in
    if e is Some _ then (name, 0, None, e) else
    let '(flags, err) :=
      match options !! "flags" with
      | Some rflags => strconv_Atoi rflags
      | None => (0, None)
      end in
    if err is Some _ then (name, flags, None, err) else
    (name, flags, options !! "vfs", None)
  else (name, 0, None, None).

(** [func open(url string) (connection db.Connection, error os.Error)] *)
Definition open (url : string) : M E (option Connection * option Error) :=
  let '(name, flags, vfs, err) := parseConnInfo url in
  if err is Some _ then mret (None, err) else
  let flags := Z.ldiff flags OpenNoMutex in
  let flags := Z.lor flags OpenFullMutex in
  '(h, rc) ← C_sqlite3_open_v2 name (C_int flags) vfs;
  let conn := {| Connection_handle := h |} in
  if decide (rc ≠ StatusOk) then
    err ← Connection_error conn;
    _ ← (if decide (Connection_handle conn ≠ nil_handle)
         then Connection_Close conn else mret None);
    mret (None, Some err)
  else
  rc ← C_sqlite3_busy_timeout (Connection_handle conn) defaultTimeoutMilliseconds;
  if decide (rc ≠ StatusOk) then
    err ← Connection_error conn;
    _ ← Connection_Close conn;
    mret (None, Some err)
  else
  rc ← C_sqlite3_extended_result_codes (Connection_handle conn) (C_int 1);
  if decide (rc ≠ StatusOk) then
    err ← Connection_error conn;
    _ ← Connection_Close conn;
    mret (None, Some err)
  else mret (Some conn, None).

(** [func (self *Connection) Prepare(query string) (statement db.Statement,
    error os.Error)] *)
Definition Connection_Prepare (self : Connection) (query : string)
  : M E (option Statement * option Error) :=
  '(h, rc) ← C_sqlite3_prepare_v2 (Connection_handle self) query;
  let s := {| Statement_handle := h; Statement_connection := self |} in
  if decide (rc ≠ StatusOk) then
    err ← Connection_error self;
    _ ← (if decide (Statement_handle s ≠ nil_handle)
         then C_sqlite3_finalize (Statement_handle s) else mret 0);
    mret (None, Some err)
  else mret (Some s, None).

(** *** Statements *)

(** [func (self *Statement) clear() (error os.Error)] *)
Definition Statement_clear (self : Statement) : M E (option Error) :=
  let failed : M E (option Error) :=
    err ← Connection_error (Statement_connection self); mret (Some err) in
  rc ← C_sqlite3_reset (Statement_handle self);
  if decide (rc = StatusOk) then
    rc ← C_sqlite3_clear_bindings (Statement_handle self);
    if decide (rc = StatusOk) then mret None else failed
  else failed.

(** [func (self *Statement) Close() (error os.Error)] *)
Definition Statement_Close (self : Statement) : M E (option Error) :=
  rc ← C_sqlite3_finalize (Statement_handle self);
  if decide (rc ≠ StatusOk) then
    err ← Connection_error (Statement_connection self); mret (Some err)
  else mret None.

(** *** Executing a statement *)

(** The text of a parameter: the type assertion of [v] to a
    [reflect.StringValue] pointer, followed by [Get()]; the assertion
    panics on a value that is not a string. *)
Definition StringValue_Get (v : Value) : M E string :=
  match v with
  | StringValue q => mret q
  | OtherValue => panic "interface conversion: not a *reflect.StringValue"
  end.

(** The loop [for k, v := range pa] of [ExecuteClassic], from index [k]
    on; it answers the error with which the function returns early, if
    any. *)
Fixpoint bind_parameters (self : Connection) (s : Statement) (k : Z)
         (pa : list Value) : M E (option Error) :=
  match pa with
  | [] => mret None
  | v :: pa' =>
    q ← StringValue_Get v;
    rc ← C_wsq_bind_text (Statement_handle s) (C_int (k + 1)) q (C_int (-1));
    if decide (rc ≠ StatusOk) then
      err ← Connection_error self;
      _ ← Statement_clear s;
      mret (Some err)
    else bind_parameters self s (k + 1) pa'
  end.

(** [func (self *Connection) ExecuteClassic(statement db.Statement,
    parameters ...) (rset db.ClassicResultSet, error os.Error)];
    [parameters] is the list of the fields of the [...] struct, which is
    what [struct2array] computes. *)
Definition Connection_ExecuteClassic (self : Connection) (statement : db_Statement)
           (parameters : list Value)
  : M E (option ClassicResultSet * option Error) :=
  match statement with
  | foreign_Statement =>
    mret (None, Some (DriverError "Execute: Not an sqlite3 statement!"))
  | sqlite3_Statement s =>
    n ← C_sqlite3_bind_parameter_count (Statement_handle s);
    if decide (Z.of_nat (length parameters) ≠ n) then
      mret (None, Some (DriverError "Execute: Number of parameters doesn't match!"))
    else
    let pa := parameters in
    failed ← bind_parameters self s 0 pa;
    if failed is Some _ then mret (None, failed) else
    rc ← C_sqlite3_step (Statement_handle s);
    err ← (if decide (rc ≠ StatusDone ∧ rc ≠ StatusRow)
           then err ← Connection_error self; mret (Some err)
           else mret None);
    if decide (rc = StatusRow) then
      let rs := {| ClassicResultSet_statement := s;
                   ClassicResultSet_connection := self;
                   more := true |} in
      mret (Some rs, err)
    else
      _ ← Statement_clear s;
      mret (None, err)
  end.

(** *** Cursors *)

(** [func (self *Cursor) MoreResults() bool] *)
Definition Cursor_MoreResults (self : Cursor) : bool := result self.

(** The loop [for i := 0; i < nColumns; i++ { data[i] = column text }],
    from column [i] on, with [fuel] columns left. *)
Fixpoint column_texts (stmt : Handle) (fuel : nat) (i : Z) (data : Row)
  : M E Row :=
  match fuel with
  | O => mret data
  | S fuel' =>
    text ← C_wsq_column_text stmt (C_int i);
    column_texts stmt fuel' (i + 1) (<[Z.to_nat i := text]> data)
  end.

(** [func (self *Cursor) FetchOne() (data []interface{}, error os.Error)];
    the cursor after the call is returned with the results. *)
Definition Cursor_FetchOne (self : Cursor) : M E (Cursor * Row * option Error) :=
  if negb (result self) then
    mret (self, [], Some (DriverError "FetchOne: No results to fetch!"))
  else
  let stmt := Statement_handle (Cursor_statement self) in
  nColumns ← C_sqlite3_column_count stmt;
  if decide (nColumns ≤ 0) then
    mret (self, [], Some (DriverError "FetchOne: No columns in result!"))
  else
  data ← column_texts stmt (Z.to_nat nColumns) 0 (replicate (Z.to_nat nColumns) "");
  rc ← C_sqlite3_step stmt;
  err ← (if decide (rc ≠ StatusDone ∧ rc ≠ StatusRow)
         then err ← Connection_error (Cursor_connection self); mret (Some err)
         else mret None);
  if decide (rc = StatusDone) then
    let self := {| Cursor_statement := Cursor_statement self;
                   Cursor_connection := Cursor_connection self;
                   result := false |} in
    _ ← Statement_clear (Cursor_statement self);
    mret (self, data, err)
  else mret (self, data, err).

(** The loop [for l < count] of [FetchMany]; [d] is the slice being
    filled, [l] the number of rows stored, [e] the last error. *)
Fixpoint FetchMany_loop (fuel : nat) (count l : nat) (d : list Row)
         (e : option Error) (self : Cursor)
  : M E (Cursor * list Row * nat * option Error) :=
  match fuel with
  | O => mret (self, d, l, e)
  | S fuel' =>
    if decide (l < count)%nat then
      '(self, row, e) ← Cursor_FetchOne self;
      let d := <[l := row]> d in
      if e is None then FetchMany_loop fuel' count (l + 1)%nat d e self
      else mret (self, d, l, e)
    else mret (self, d, l, e)
  end.

(** [func (self *Cursor) FetchMany(count int) (data [][]interface{},
    error os.Error)]; [make] panics on a negative length. *)
Definition Cursor_FetchMany (self : Cursor) (count : Z)
  : M E (Cursor * list Row * option Error) :=
  if decide (count < 0) then panic "makeslice: len out of range" else
  let count := Z.to_nat count in
  let d := replicate count ([] : Row) in
  '(self, d, l, e) ← FetchMany_loop count count 0%nat d None self;
  if decide (0 < l)%nat then
    if decide (l < count)%nat
    then mret (self, take l d, None)
    else mret (self, d, None)
  else mret (self, [], e).

(** The loop [for { ... }] of [FetchAll], which ends only when [FetchOne]
    reports an error; [v] is the vector of rows pushed so far.  [None] is
    the answer when [fuel] iterations were not enough. *)
Fixpoint FetchAll_loop (fuel : nat) (v : list Row) (self : Cursor)
  : M E (option (Cursor * list Row * Error)) :=
  match fuel with
  | O => mret None
  | S fuel' =>
    '(self, d, e) ← Cursor_FetchOne self;
    match e with
    | Some e => mret (Some (self, v, e))
    | None => FetchAll_loop fuel' (v ++ [d]) self
    end
  end.

(** [func (self *Cursor) FetchAll() (data [][]interface{}, error
    os.Error)], with [fuel] bounding the iterations of its loop. *)
Definition Cursor_FetchAll (fuel : nat) (self : Cursor)
  : M E (option (Cursor * list Row * option Error)) :=
  r ← FetchAll_loop fuel [] self;
  match r with
  | None => mret None
  | Some (self, v, e) =>
    let l := length v in
    if decide (0 < l)%nat then mret (Some (self, v, None))
    else mret (Some (self, [], Some e))
  end.

(** The loop of [FetchRow] over the columns: text, then name, then the
    map entry. *)
Fixpoint column_entries (stmt : Handle) (fuel : nat) (i : Z)
         (data : gmap string string) : M E (gmap string string) :=
  match fuel with
  | O => mret data
  | S fuel' =>
    text ← C_wsq_column_text stmt (C_int i);
    name ← C_wsq_column_name stmt (C_int i);
    column_entries stmt fuel' (i + 1) (<[name := text]> data)
  end.

(** [func (self *Cursor) FetchRow() (data map[string]interface{}, error
    os.Error)]; a nil map is the empty map. *)
Definition Cursor_FetchRow (self : Cursor)
  : M E (Cursor * gmap string string * option Error) :=
  if negb (result self) then
    mret (self, ∅, Some (DriverError "FetchRow: No results to fetch!"))
  else
  let stmt := Statement_handle (Cursor_statement self) in
  nColumns ← C_sqlite3_column_count stmt;
  if decide (nColumns ≤ 0) then
    mret (self, ∅, Some (DriverError "FetchRow: No columns in result!"))
  else
  data ← column_entries stmt (Z.to_nat nColumns) 0 ∅;
  rc ← C_sqlite3_step stmt;
  err ← (if decide (rc ≠ StatusDone ∧ rc ≠ StatusRow)
         then err ← Connection_error (Cursor_connection self); mret (Some err)
         else mret None);
  if decide (rc = StatusDone) then
    let self := {| Cursor_statement := Cursor_statement self;
                   Cursor_connection := Cursor_connection self;
                   result := false |} in
    _ ← Statement_clear (Cursor_statement self);
    mret (self, data, err)
  else mret (self, data, err).

(** [func (self *Cursor) Close() os.Error] *)
Definition Cursor_Close (self : Cursor) : M E (option Error) := mret None.

(** *** Classic result sets *)

(** [func (self *ClassicResultSet) More() bool] *)
Definition ClassicResultSet_More (self : ClassicResultSet) : bool := more self.

(** [func (self *ClassicResultSet) Fetch() (result db.Result)] *)
Definition ClassicResultSet_Fetch (self : ClassicResultSet)
  : M E (ClassicResultSet * Result) :=
  if negb (more self) then
    mret (self, {| data := []; error := Some (DriverError "Fetch: No result to fetch!") |})
  else
  let stmt := Statement_handle (ClassicResultSet_statement self) in
  nColumns ← C_sqlite3_column_count stmt;
  if decide (nColumns ≤ 0) then
    mret (self, {| data := []; error := Some (DriverError "Fetch: No columns in result!") |})
  else
  res_data ← column_texts stmt (Z.to_nat nColumns) 0 (replicate (Z.to_nat nColumns) "");
  rc ← C_sqlite3_step stmt;
  res_error ← (if decide (rc ≠ StatusDone ∧ rc ≠ StatusRow)
               then err ← Connection_error (ClassicResultSet_connection self);
                    mret (Some err)
               else mret None);
  let res := {| data := res_data; error := res_error |} in
  if decide (rc = StatusDone) then
    let self := {| ClassicResultSet_statement := ClassicResultSet_statement self;
                   ClassicResultSet_connection := ClassicResultSet_connection self;
                   more := false |} in
    _ ← Statement_clear (ClassicResultSet_statement self);
    mret (self, res)
  else mret (self, res).

(** [func (self *ClassicResultSet) Close() os.Error] *)
Definition ClassicResultSet_Close (self : ClassicResultSet) : M E (option Error) :=
  mret None.

End Driver.

(** ** The variant of [open] in core.go *)

(** core.go holds a second [parseConnInfo] and [open], written against
    wrappers ([sqlOpen], [sqlBusyTimeout], [sqlExtendedResultCodes]) and the
    methods [error] and [Close] of a connection type, none of which is
    among the sources: the wrappers are C calls of the engine like the
    others, and the two methods are parameters. *)
Module CoreGo.
Section Driver.
Context {E : Type} `{!Engine E} `{!StatusCodes} `{!Library}.
Variable Connection_error : Connection -> M E Error.
Variable Connection_Close : Connection -> M E (option Error).

Definition C_sqlOpen (name : string) (flags : Z) (vfs : string) : M E (Handle * Z) :=
  c_call (sqlOpen name flags vfs) RHandle' (e_sqlOpen name flags vfs).
Definition C_sqlBusyTimeout (db : Handle) (ms : Z) : M E Z :=
  c_call (sqlBusyTimeout db ms) RInt (e_sqlBusyTimeout db ms).
Definition C_sqlExtendedResultCodes (db : Handle) (on : bool) : M E Z :=
  c_call (sqlExtendedResultCodes db on) RInt (e_sqlExtendedResultCodes db on).

(** [func parseConnInfo(str string) (name string, flags int, vfs string,
    error os.Error)] *)
Definition parseConnInfo (str : string) : string * Z * string * option Error :=
  let '(url, err) := http_ParseURL str in
  if err is Some _ then ("", 0, "", err) else
  if bool_decide (0 < String.length (Scheme url))%nat
     && bool_decide (Scheme url ≠ "sqlite3") then
    ("", 0, "",
     Some (DriverError ("Open: unknown scheme " +:+ Scheme url +:+ " expected sqlite3")))
  else
  if decide (String.length (Path url) = 0)%nat then
    ("", 0, "", Some (DriverError "Open: no path or database name"))
  else
  let name := Path url in
  if decide (0 < String.length (RawQuery url))%nat then
    let '(options, e) := db_ParseQueryURL (RawQuery url) in
    if e is Some _ then (name, 0, "", e) else
    let '(flags, err) :=
      match options !! "flags" with
      | Some rflags => strconv_Atoi rflags
      | None => (0, None)
      end in
    if err is Some _ then (name, flags, "", err) else
    (name, flags, default "" (options !! "vfs"), None)
  else (name, 0, "", None).

(** [func open(url string) (connection db.Connection, error os.Error)] *)
Definition open (url : string) : M E (option Connection * option Error) :=
  let '(name, flags, vfs, err) := parseConnInfo url in
  if err is Some _ then mret (None, err) else
  let flags := Z.ldiff flags OpenNoMutex in
  let flags := Z.lor flags OpenFullMutex in
  '(h, rc) ← C_sqlOpen name flags vfs;
  let conn := {| Connection_handle := h |} in
  if decide (rc ≠ StatusOk) then
    err ← Connection_error conn;
    _ ← (if decide (Connection_handle conn ≠ nil_handle)
         then Connection_Close conn else mret None);
    mret (None, Some err)
  else
  rc ← C_sqlBusyTimeout (Connection_handle conn) defaultTimeoutMilliseconds;
  if decide (rc ≠ StatusOk) then
    err ← Connection_error conn;
    _ ← Connection_Close conn;
    mret (None, Some err)
  else
  rc ← C_sqlExtendedResultCodes (Connection_handle conn) true;
  if decide (rc ≠ StatusOk) then
    err ← Connection_error conn;
    _ ← Connection_Close conn;
    mret (None, Some err)
  else mret (Some conn, None).
End Driver.
End CoreGo.

(** ** The early draft of the driver *)

(** src/sqlite3/core.go is an early draft of the driver.  Its [open] takes
    a map of options instead of a connection string, and it is written
    against the wrappers of wrapper.h, each of which is one of the engine's
    calls under another name ([wsq_open] is "really sqlite3_open_v2", and
    so on).  [wsq_extended_errcode], which the later driver no longer
    calls, is not among the calls of the engine and is taken as a given
    computation. *)
Module Draft.

(** [type Any interface{}]: a string, an int, or a value of another
    type. *)
Inductive Any :=
| AString (s : string)
| AInt (n : Z)
| AOther.

(** [type ConnectionInfo map[string] Any] *)
Definition ConnectionInfo := gmap string Any.

(** The two error types of the draft. *)
Inductive Error :=
| InterfaceError (message : string)
| DatabaseError (basic extended : Z) (message : string).

(** The double quote character of the two messages of [parseConnInfo]. *)
Definition quote : string := String (Ascii.ascii_of_nat 34) EmptyString.

(** [func parseConnInfo(info ConnectionInfo) (name string, flags int,
    vfs *string, error os.Error)]; the type assertions of the flags to
    [int] and of the vfs to [string] have no second result and panic on a
    value of another type. *)
Definition parseConnInfo (info : ConnectionInfo)
  : Outcome (string * Z * option string * option Error) :=
  match info !! "name" with
  | None =>
    Ret ("", 0, None,
         Some (InterfaceError ("Open: No " +:+ quote +:+ "name" +:+ quote
                               +:+ " in arguments map.")))
  | Some (AString name) =>
    let with_flags (flags : Z) :=
      match info !! "sqlite.vfs" with
      | Some (AString vfs) => Ret (name, flags, Some vfs, None)
      | Some _ => Panic "interface conversion: not a string"
      | None => Ret (name, flags, None, None)
      end in
    match info !! "sqlite.flags" with
    | Some (AInt flags) => with_flags flags
    | Some _ => Panic "interface conversion: not an int"
    | None => with_flags 0
    end
  | Some _ =>
    Ret ("", 0, None,
         Some (InterfaceError ("Open: " +:+ quote +:+ "name" +:+ quote
                               +:+ " argument not a string.")))
  end.

Section Driver.
Context {E : Type} `{!Engine E} `{!StatusCodes}.
Variable C_wsq_extended_errcode : Handle -> M E Z.

(** [func (self *Connection) error() (error os.Error)] *)
Definition Connection_error (self : Connection) : M E Error :=
  basic ← C_sqlite3_errcode (Connection_handle self);
  extended ← C_wsq_extended_errcode (Connection_handle self);
  message ← C_sqlite3_errmsg (Connection_handle self);
  mret (DatabaseError basic extended message).

(** [func open(info ConnectionInfo) (connection db.Connection, error
    os.Error)]: the flags go to the engine as [C.int(flags)], and the
    connection is returned also when opening failed. *)
Definition open (info : ConnectionInfo) : M E (option Connection * option Error) :=
  match parseConnInfo info with
  | Panic reason => panic reason
  | Ret (name, flags, vfs, error) =>
    if error is Some _ then mret (None, error) else
    '(h, rc) ← C_sqlite3_open_v2 name (C_int flags) vfs;
    let conn := {| Connection_handle := h |} in
    error ← (if decide (rc ≠ StatusOk) then
               err ← Connection_error conn; mret (Some err)
             else
               rc ← C_sqlite3_busy_timeout (Connection_handle conn)
                                           defaultTimeoutMilliseconds;
               if decide (rc ≠ StatusOk) then
                 err ← Connection_error conn; mret (Some err)
               else mret None);
    mret (Some conn, error)
  end.
End Driver.
End Draft.

(** ** What the specification says of FetchMany and FetchAll *)

Section Specification.
Context {E : Type} `{!Engine E} `{!StatusCodes}.

(** "Calls FetchOne up to [n] times or until an error occurs": the rows
    of the calls that succeeded, in order, and the error that ended the
    calls, if one did. *)
Fixpoint fetch_until_error (n : nat) (self : Cursor)
  : M E (Cursor * list Row * option Error) :=
  match n with
  | O => mret (self, [], None)
  | S n' =>
    '(self, row, e) ← Cursor_FetchOne self;
    match e with
    | Some _ => mret (self, [], e)
    | None =>
      '(self, rows, e) ← fetch_until_error n' self;
      mret (self, row :: rows, e)
    end
  end.

(** "If at least one row was obtained, returns the rows obtained so far
    with no error; if zero rows were obtained, surfaces the underlying
    error." *)
Definition partial_success (rows : list Row) (e : option Error)
  : list Row * option Error :=
  match rows with
  | [] => ([], e)
  | _ :: _ => (rows, None)
  end.

Definition spec_FetchMany (self : Cursor) (n : nat)
  : M E (Cursor * list Row * option Error) :=
  '(self, rows, e) ← fetch_until_error n self;
  let '(rows, e) := partial_success rows e in
  mret (self, rows, e).

(** *** The fetch operations of a cursor *)

(** The fetch operations of a [Cursor]; [FetchAll] with the bound on its
    loop. *)
Inductive CursorOp :=
| OpFetchOne
| OpFetchRow
| OpFetchMany (count : Z)
| OpFetchAll (fuel : nat).

(** One operation; [None] when [FetchAll] did not return within its
    bound. *)
Definition run_op (op : CursorOp) (self : Cursor) : M E (option Cursor) :=
  match op with
  | OpFetchOne => '(self, _, _) ← Cursor_FetchOne self; mret (Some self)
  | OpFetchRow => '(self, _, _) ← Cursor_FetchRow self; mret (Some self)
  | OpFetchMany count => '(self, _, _) ← Cursor_FetchMany self count; mret (Some self)
  | OpFetchAll fuel =>
    r ← Cursor_FetchAll fuel self;
    match r with
    | Some (self, _, _) => mret (Some self)
    | None => mret None
    end
  end.

(** *** Reading the record of C calls *)

(** The calls of [Statement.clear] on statement [stmt]: [sqlite3_reset]
    first and, if it answered [StatusOk], [sqlite3_clear_bindings] next. *)
Definition clear_calls (stmt : Handle) (t : list Event) : Prop :=
  ∃ rc rest,
    t = Ev (sqlite3_reset stmt) (RInt rc) :: rest ∧
    (rc = StatusOk →
     ∃ rc' rest', rest = Ev (sqlite3_clear_bindings stmt) (RInt rc') :: rest') ∧
    Forall (λ ev, ev_call ev ≠ sqlite3_step stmt) rest.

(** Statement [stmt] was cleared after its last step: the record ends with
    the calls of [Statement.clear]. *)
Definition cleared_since_last_step (stmt : Handle) (t : list Event) : Prop :=
  ∃ before after, t = before ++ after ∧ clear_calls stmt after.

(** The invariant of a cursor or result set with flag [flag] on
    statement [stmt], given the record [t] of the calls made so far. *)
Definition exhausted_means_cleared (stmt : Handle) (flag : bool) (t : list Event)
  : Prop :=
  flag = false → cleared_since_last_step stmt t.

(** The statement was reset at some point of the record. *)
Definition was_reset (stmt : Handle) (t : list Event) : Prop :=
  ∃ rc, Ev (sqlite3_reset stmt) (RInt rc) ∈ t.

(** A call is one of the two calls of [Statement.clear] on [stmt]. *)
Definition clearing (stmt : Handle) (ev : Event) : Prop :=
  ev_call ev = sqlite3_reset stmt ∨ ev_call ev = sqlite3_clear_bindings stmt.

(** A call reads the last error of a session. *)
Definition reads_error (ev : Event) : Prop :=
  ∃ db, ev_call ev = sqlite3_errcode db ∨ ev_call ev = sqlite3_errmsg db.

(** The flags of an open call force serialized access: the no-mutex bit
    is clear and the full-mutex bit is set. *)
Definition serialized (flags : Z) : Prop :=
  Z.land flags OpenNoMutex = 0 ∧ Z.land flags OpenFullMutex = OpenFullMutex.

Definition opens_serialized (ev : Event) : Prop :=
  match ev_call ev with
  | sqlite3_open_v2 _ flags _ => serialized flags
  | sqlOpen _ flags _ => serialized flags
  | _ => True
  end.
End Specification.

(** ** A scripted engine *)

(** An engine whose answers are fixed in advance, for running the driver on
    concrete inputs.  The statuses of the next calls of [sqlite3_step] are
    listed in [s_steps]; once the list is used up the engine answers 101. *)
Record Script := {
  s_open : Handle * Z;
  s_busy : Z;
  s_extended : Z;
  s_close : Z;
  s_errcode : Z;
  s_errmsg : string;
  s_prepare : Handle * Z;
  s_finalize : Z;
  s_params : Z;
  s_bind : Z;
  s_steps : list Z;
  s_reset : Z;
  s_clear : Z;
  s_columns : list (string * string)
}.

Definition script_step (s : Script) : Z * Script :=
  match s_steps s with
  | [] => (101, s)
  | rc :: rest =>
    (rc, {| s_open := s_open s; s_busy := s_busy s; s_extended := s_extended s;
            s_close := s_close s; s_errcode := s_errcode s; s_errmsg := s_errmsg s;
            s_prepare := s_prepare s; s_finalize := s_finalize s;
            s_params := s_params s; s_bind := s_bind s; s_steps := rest;
            s_reset := s_reset s; s_clear := s_clear s; s_columns := s_columns s |})
  end.

#[global] Instance script_engine : Engine Script := {
  e_open_v2 _ _ _ s := (s_open s, s);
  e_busy_timeout _ _ s := (s_busy s, s);
  e_extended_result_codes _ _ s := (s_extended s, s);
  e_close _ s := (s_close s, s);
  e_errcode _ s := (s_errcode s, s);
  e_errmsg _ s := (s_errmsg s, s);
  e_prepare_v2 _ _ s := (s_prepare s, s);
  e_finalize _ s := (s_finalize s, s);
  e_bind_parameter_count _ s := (s_params s, s);
  e_bind_text _ _ _ _ s := (s_bind s, s);
  e_step _ s := script_step s;
  e_reset _ s := (s_reset s, s);
  e_clear_bindings _ s := (s_clear s, s);
  e_column_count _ s := (Z.of_nat (length (s_columns s)), s);
  e_column_text _ i s := (default "" (snd <$> s_columns s !! Z.to_nat i), s);
  e_column_name _ i s := (default "" (fst <$> s_columns s !! Z.to_nat i), s);
  e_sqlOpen _ _ _ s := (s_open s, s);
  e_sqlBusyTimeout _ _ s := (s_busy s, s);
  e_sqlExtendedResultCodes _ _ s := (s_extended s, s)
}.

(** SQLite's values of the three status constants. *)
#[global] Instance sqlite_codes : StatusCodes :=
  {| StatusOk := 0; StatusRow := 100; StatusDone := 101 |}.

(** A stand-in for the library functions: the whole string is the path,
    there is no scheme, and the string "nomutex.db" comes with the query
    "flags=32768" (the no-mutex bit). *)
#[global] Instance script_library : Library := {
  http_ParseURL str :=
    ({| Scheme := ""; Path := str;
        RawQuery := if bool_decide (str = "nomutex.db") then "flags=32768" else "" |},
     None);
  db_ParseQueryURL q := ({[ "flags" := "32768" ]}, None);
  strconv_Atoi a := (32768, None)
}.

(** A script: the statement has one parameter, which binds, and the
    columns [id] and [name]; the other answers are the arguments. *)
Definition script (opened : Handle * Z) (busy : Z) (steps : list Z) (reset : Z)
           (errcode : Z) (errmsg : string) (columns : list (string * string))
  : Script :=
  {| s_open := opened; s_busy := busy; s_extended := 0; s_close := 0;
     s_errcode := errcode; s_errmsg := errmsg;
     s_prepare := (7, 0); s_finalize := 0;
     s_params := 1; s_bind := 0; s_steps := steps;
     s_reset := reset; s_clear := 0;
     s_columns := columns |}.

Definition two_columns : list (string * string) := [("id", "1"); ("name", "gopher")].

(** A healthy engine: every call answers success; [steps] are the statuses
    of the next steps. *)
Definition healthy (steps : list Z) : Script :=
  script (5, 0) 0 steps 0 0 "not an error" two_columns.

(** The same engine, but [sqlite3_reset] answers the error 1 and the last
    error of the session is the extended code 266. *)
Definition failing_reset (steps : list Z) : Script :=
  script (5, 0) 0 steps 1 266 "disk I/O error" two_columns.

(** An engine whose last error is the extended code 266 (basic code 10). *)
Definition io_error (steps : list Z) : Script :=
  script (5, 0) 0 steps 0 266 "disk I/O error" two_columns.

(** An engine whose statement has no column. *)
Definition no_columns : Script :=
  script (5, 0) 0 [] 0 0 "not an error" [].

(** An engine that cannot open the database but stores a handle. *)
Definition cannot_open : Script :=
  script (5, 14) 0 [] 0 14 "unable to open database file" two_columns.

Definition the_connection : Connection := {| Connection_handle := 5 |}.
Definition the_statement : Statement :=
  {| Statement_handle := 7; Statement_connection := the_connection |}.
Definition live_cursor : Cursor :=
  {| Cursor_statement := the_statement; Cursor_connection := the_connection;
     result := true |}.
Definition spent_cursor : Cursor :=
  {| Cursor_statement := the_statement; Cursor_connection := the_connection;
     result := false |}.
Definition live_result_set : ClassicResultSet :=
  {| ClassicResultSet_statement := the_statement;
     ClassicResultSet_connection := the_connection; more := true |}.
Definition spent_result_set : ClassicResultSet :=
  {| ClassicResultSet_statement := the_statement;
     ClassicResultSet_connection := the_connection; more := false |}.

(** ** The rest of the driver *)

Section Rest.
Context {E : Type} `{!Engine E} `{!StatusCodes}.

(** The loop [for rset.More() { channel <- rset.Fetch() }] of [iterate], on
    a result set of this driver.  The channel is the list of the values
    sent so far, oldest first; [None] is the answer when the loop has not
    ended after [fuel] sends. *)
Fixpoint iterate_loop (fuel : nat) (rset : ClassicResultSet) (channel : list Result)
  : M E (option (ClassicResultSet * list Result)) :=
  if ClassicResultSet_More rset then
    match fuel with
    | O => mret None
    | S fuel' =>
      '(rset, r) ← ClassicResultSet_Fetch rset;
      iterate_loop fuel' rset (channel ++ [r])
    end
  else mret (Some (rset, channel)).

(** [func iterate(rset db.ClassicResultSet, channel chan<- db.Result)]: the
    values sent on the channel until it is closed. *)
Definition iterate (fuel : nat) (rset : ClassicResultSet) : M E (option (list Result)) :=
  r ← iterate_loop fuel rset [];
  match r with
  | None => mret None
  | Some (rset, channel) =>
    _ ← ClassicResultSet_Close rset;
    mret (Some channel)
  end.

(** [iterate] as [Execute] starts it, on the interface value that
    [ExecuteClassic] returned: the value is nil when no result set was
    made, and the call [rset.More()] on a nil interface value panics. *)
Definition go_iterate (fuel : nat) (rset : option ClassicResultSet)
  : M E (option (list Result)) :=
  match rset with
  | None => panic "invalid memory address or nil pointer dereference"
  | Some rs => iterate fuel rs
  end.

(** A channel of results is what the goroutine behind it does: given a
    bound on the number of sends, the computation that this goroutine
    runs after [Execute] has returned, and the values it sends. *)
Definition Channel := nat -> M E (option (list Result)).

(** [func (self *Connection) Execute(statement db.Statement, parameters ...)
    (channel <-chan db.Result, error os.Error)]; the statement
    [go iterate(cur, ch)] makes the goroutine of the channel returned. *)
Definition Connection_Execute (self : Connection) (statement : db_Statement)
           (parameters : list Value) : M E (option Channel * option Error) :=
  '(cur, error) ← Connection_ExecuteClassic self statement parameters;
  if error is Some _ then mret (None, error) else
  let ch : Channel := λ fuel, go_iterate fuel cur in
  mret (Some ch, None).

(** A cursor and a result set with the same fields. *)
Definition cursor_of (rs : ClassicResultSet) : Cursor :=
  {| Cursor_statement := ClassicResultSet_statement rs;
     Cursor_connection := ClassicResultSet_connection rs;
     result := more rs |}.

Definition result_set_of (c : Cursor) : ClassicResultSet :=
  {| ClassicResultSet_statement := Cursor_statement c;
     ClassicResultSet_connection := Cursor_connection c;
     more := result c |}.

(** Two errors are the same up to the text of a driver error. *)
Definition same_error (a b : option Error) : Prop :=
  a = b ∨ ∃ m1 m2, a = Some (DriverError m1) ∧ b = Some (DriverError m2).
End Rest.

(** ** Programs that use the driver *)

Section Programs.
Context {E : Type} `{!Engine E} `{!StatusCodes}.

(** What a program holds of the driver's results: cursors and result
    sets, each known by its position in the list of what is held. *)
Inductive Held :=
| HeldCursor (c : Cursor)
| HeldResultSet (rs : ClassicResultSet).

Definition held_flag (x : Held) : bool :=
  match x with
  | HeldCursor c => result c
  | HeldResultSet rs => more rs
  end.

Definition held_statement (x : Held) : Handle :=
  match x with
  | HeldCursor c => Statement_handle (Cursor_statement c)
  | HeldResultSet rs => Statement_handle (ClassicResultSet_statement rs)
  end.

(** The operations of a program: [ExecuteClassic] on any connection and
    statement, [Fetch] on the result set held at position [i], and the
    fetch operations of the cursor held at position [i].  The goroutine
    started by [Execute] calls [Fetch] on the result set that
    [ExecuteClassic] returned, so a run of [Execute] is [DoExecuteClassic]
    followed, at later points of the program, by operations [DoFetch] on
    that result set. *)
Inductive Operation :=
| DoExecuteClassic (self : Connection) (statement : db_Statement)
                   (parameters : list Value)
| DoFetch (i : nat)
| DoCursor (i : nat) (op : CursorOp).

(** The position of the cursor or result set an operation works on. *)
Definition target (op : Operation) : option nat :=
  match op with
  | DoExecuteClassic _ _ _ => None
  | DoFetch i => Some i
  | DoCursor i _ => Some i
  end.

(** The statement an operation works on. *)
Definition operation_statement (held : list Held) (op : Operation) : option Handle :=
  match op with
  | DoExecuteClassic _ (sqlite3_Statement s) _ => Some (Statement_handle s)
  | DoExecuteClassic _ foreign_Statement _ => None
  | DoFetch i => held_statement <$> held !! i
  | DoCursor i _ => held_statement <$> held !! i
  end.

(** One operation.  A result set returned by [ExecuteClassic] is held from
    then on, after what was held before; a fetch updates the cursor or
    result set it was called on.  An operation on a position that holds
    nothing of the right type is not an operation of the program and does
    nothing.  [None] is the answer when [FetchAll] did not return within
    its bound. *)
Definition run_operation (op : Operation) (held : list Held)
  : M E (option (list Held)) :=
  match op with
  | DoExecuteClassic self statement parameters =>
    '(rset, _) ← Connection_ExecuteClassic self statement parameters;
    match rset with
    | Some rs => mret (Some (held ++ [HeldResultSet rs]))
    | None => mret (Some held)
    end
  | DoFetch i =>
    match held !! i with
    | Some (HeldResultSet rs) =>
      '(rs, _) ← ClassicResultSet_Fetch rs;
      mret (Some (<[i := HeldResultSet rs]> held))
    | _ => mret (Some held)
    end
  | DoCursor i op =>
    match held !! i with
    | Some (HeldCursor c) =>
      r ← run_op op c;
      match r with
      | Some c => mret (Some (<[i := HeldCursor c]> held))
      | None => mret None
      end
    | _ => mret (Some held)
    end
  end.

(** A program at some point of its run: what it holds, the state of the
    engine, and the operations made so far, oldest first, each with the C
    calls it made. *)
Record Run := {
  held : list Held;
  engine : E;
  history : list (Operation * list Event)
}.

(** All the C calls made so far, oldest first. *)
Definition calls (r : Run) : list Event := mjoin (snd <$> history r).

(** The run of a sequence of operations; [None] when an operation panics
    or does not return, which ends the program. *)
Fixpoint run_program (ops : list Operation) (r : Run) : option Run :=
  match ops with
  | [] => Some r
  | op :: ops' =>
    match run_operation op (held r) (engine r) with
    | (Ret (Some held'), e', t) =>
      run_program ops' {| held := held'; engine := e'; history := history r ++ [(op, t)] |}
    | _ => None
    end
  end.

(** What SQLite promises of [sqlite3_reset]: it answers [StatusOk] when the
    last step of the statement answered [StatusDone]. *)
Definition resets_after_done : Prop :=
  ∀ stmt e, (e_step stmt e).1 = StatusDone →
            (e_reset stmt (e_step stmt e).2).1 = StatusOk.

(** The calls of an operation end with the exhaustion of statement [stmt]:
    the step that answered [StatusDone], then the reset, which succeeded,
    then the clearing of the bindings, and after that nothing but the
    reading of an error. *)
Definition ends_cleared (stmt : Handle) (t : list Event) : Prop :=
  ∃ before rc rest,
    t = before ++ Ev (sqlite3_step stmt) (RInt StatusDone)
               :: Ev (sqlite3_reset stmt) (RInt StatusOk)
               :: Ev (sqlite3_clear_bindings stmt) (RInt rc) :: rest ∧
    Forall reads_error rest.

(** The calls [t] step no statement but [stmt]. *)
Definition steps_only (stmt : option Handle) (t : list Event) : Prop :=
  Forall (λ ev, ∀ h, ev_call ev = sqlite3_step h → stmt = Some h) t.

(** What a fetch operation does to the flag of its cursor or result set
    on statement [stmt], given the calls [t] it made: a false flag stays
    false and no call is made, and a flag that turns false does so with
    the exhaustion of the statement. *)
Definition fetch_summary (stmt : Handle) (flag flag' : bool) (t : list Event) : Prop :=
  steps_only (Some stmt) t ∧
  (flag = false → flag' = false ∧ t = []) ∧
  (flag = true → flag' = false → ends_cleared stmt t).

(** Position [i], on statement [stmt], was exhausted by an operation of
    the history, and no later operation on that position made a call. *)
Definition exhausted_by (i : nat) (stmt : Handle) (op : Operation) (t : list Event)
           (later : list (Operation * list Event)) : Prop :=
  target op = Some i ∧
  ends_cleared stmt t ∧
  Forall (λ entry, target entry.1 = Some i → entry.2 = []) later.

(** None of the operations [later] works on statement [stmt] but through
    position [i]: the statement is neither executed again nor fetched from
    through another cursor or result set. *)
Definition not_reused (held : list Held) (i : nat) (stmt : Handle)
           (later : list (Operation * list Event)) : Prop :=
  Forall (λ entry, operation_statement held entry.1 = Some stmt →
                   target entry.1 = Some i) later.

(** What holds of a run at every point. *)
Definition run_invariant (r : Run) : Prop :=
  (∀ i x, held r !! i = Some x → held_flag x = false →
          ∃ earlier op t later,
            history r = earlier ++ (op, t) :: later ∧
            exhausted_by i (held_statement x) op t later) ∧
  Forall (λ entry, steps_only (operation_statement (held r) entry.1) entry.2) (history r).
End Programs.

Arguments Run E : clear implicits.

(** *** Version information *)

(** The three C functions read by [version] take no argument and have no
    effect: each is the value it returns, with [None] for a null pointer.
    [strconv.Itob] is a parameter like the other library functions. *)
Class VersionCalls := {
  sqlite3_libversion : option string;
  sqlite3_libversion_number : Z;
  sqlite3_sourceid : option string;
  strconv_Itob : Z -> Z -> string
}.

(** [func version() (data map[string]string, error os.Error)] *)
Definition version `{!VersionCalls} : gmap string string * option Error :=
  let data : gmap string string := ∅ in
  match sqlite3_libversion with
  | None => (data, Some (DriverError "Version: couldn't get library version!"))
  | Some cp =>
    let data := <["version" := cp]> data in
    let i := sqlite3_libversion_number in
    let data := <["sqlite3.versionnumber" := strconv_Itob i 10]> data in
    let data :=
      if decide (3005009 < i) then
        match sqlite3_sourceid with
        | Some cp => <["sqlite3.sourceid" := cp]> data
        | None => data
        end
      else data in
    (data, None)
  end.

(** *** More engines *)

(** An engine whose statement never runs out of rows: every step answers
    100, there is one column, and every other call succeeds. *)
#[global] Instance endless_engine : Engine unit := {
  e_open_v2 _ _ _ s := ((5, 0), s);
  e_busy_timeout _ _ s := (0, s);
  e_extended_result_codes _ _ s := (0, s);
  e_close _ s := (0, s);
  e_errcode _ s := (0, s);
  e_errmsg _ s := ("not an error", s);
  e_prepare_v2 _ _ s := ((7, 0), s);
  e_finalize _ s := (0, s);
  e_bind_parameter_count _ s := (0, s);
  e_bind_text _ _ _ _ s := (0, s);
  e_step _ s := (100, s);
  e_reset _ s := (0, s);
  e_clear_bindings _ s := (0, s);
  e_column_count _ s := (1, s);
  e_column_text _ _ s := ("x", s);
  e_column_name _ _ s := ("n", s);
  e_sqlOpen _ _ _ s := ((5, 0), s);
  e_sqlBusyTimeout _ _ s := (0, s);
  e_sqlExtendedResultCodes _ _ s := (0, s)
}.

(** A small model of SQLite with one prepared statement, which has one
    parameter and yields [sq_rows] rows of one column, the value bound to
    the parameter.  The statement is in use from its first step until it
    is reset ([sq_delivered] is the number of rows it has yielded since);
    binding a parameter of a statement in use is refused with the error 21
    (misuse), and [sqlite3_reset] always succeeds. *)
Record Sqlite := {
  sq_rows : nat;
  sq_delivered : option nat;
  sq_binding : option string;
  sq_errcode : Z
}.

Definition sqlite_step (s : Sqlite) : Z * Sqlite :=
  let k := default 0%nat (sq_delivered s) in
  if decide (k < sq_rows s)%nat then
    (100, {| sq_rows := sq_rows s; sq_delivered := Some (S k);
             sq_binding := sq_binding s; sq_errcode := 100 |})
  else
    (101, {| sq_rows := sq_rows s; sq_delivered := Some k;
             sq_binding := sq_binding s; sq_errcode := 101 |}).

Definition sqlite_bind (text : string) (s : Sqlite) : Z * Sqlite :=
  match sq_delivered s with
  | Some _ =>
    (21, {| sq_rows := sq_rows s; sq_delivered := sq_delivered s;
            sq_binding := sq_binding s; sq_errcode := 21 |})
  | None =>
    (0, {| sq_rows := sq_rows s; sq_delivered := None;
           sq_binding := Some text; sq_errcode := 0 |})
  end.

#[global] Instance sqlite_model : Engine Sqlite := {
  e_open_v2 _ _ _ s := ((5, 0), s);
  e_busy_timeout _ _ s := (0, s);
  e_extended_result_codes _ _ s := (0, s);
  e_close _ s := (0, s);
  e_errcode _ s := (sq_errcode s, s);
  e_errmsg _ s := (if decide (sq_errcode s = 21) then "misuse" else "not an error", s);
  e_prepare_v2 _ _ s := ((7, 0), s);
  e_finalize _ s := (0, s);
  e_bind_parameter_count _ s := (1, s);
  e_bind_text _ _ text _ s := sqlite_bind text s;
  e_step _ s := sqlite_step s;
  e_reset _ s :=
    (0, {| sq_rows := sq_rows s; sq_delivered := None;
           sq_binding := sq_binding s; sq_errcode := 0 |});
  e_clear_bindings _ s :=
    (0, {| sq_rows := sq_rows s; sq_delivered := sq_delivered s;
           sq_binding := None; sq_errcode := 0 |});
  e_column_count _ s := (1, s);
  e_column_text _ _ s := (default "" (sq_binding s), s);
  e_column_name _ _ s := ("?", s);
  e_sqlOpen _ _ _ s := ((5, 0), s);
  e_sqlBusyTimeout _ _ s := (0, s);
  e_sqlExtendedResultCodes _ _ s := (0, s)
}.

(** The statement of the model over one row, reset and with nothing
    bound. *)
Definition one_row : Sqlite :=
  {| sq_rows := 1; sq_delivered := None; sq_binding := None; sq_errcode := 0 |}.

(** A program that executes the statement and fetches its only row, and
    one that then executes the statement again. *)
Definition execute_fetch : list Operation :=
  [DoExecuteClassic the_connection (sqlite3_Statement the_statement) [StringValue "a"];
   DoFetch 0].

Definition execute_fetch_execute : list Operation :=
  execute_fetch
    ++ [DoExecuteClassic the_connection (sqlite3_Statement the_statement) [StringValue "b"]].

(** An engine whose statement never has a column. *)
Definition columnless_engine : Engine unit := {|
  e_open_v2 _ _ _ s := ((5, 0), s);
  e_busy_timeout _ _ s := (0, s);
  e_extended_result_codes _ _ s := (0, s);
  e_close _ s := (0, s);
  e_errcode _ s := (0, s);
  e_errmsg _ s := ("not an error", s);
  e_prepare_v2 _ _ s := ((7, 0), s);
  e_finalize _ s := (0, s);
  e_bind_parameter_count _ s := (0, s);
  e_bind_text _ _ _ _ s := (0, s);
  e_step _ s := (101, s);
  e_reset _ s := (0, s);
  e_clear_bindings _ s := (0, s);
  e_column_count _ s := (0, s);
  e_column_text _ _ s := ("", s);
  e_column_name _ _ s := ("", s);
  e_sqlOpen _ _ _ s := ((5, 0), s);
  e_sqlBusyTimeout _ _ s := (0, s);
  e_sqlExtendedResultCodes _ _ s := (0, s)
|}.

(** An engine whose two columns have the same name. *)
Definition same_names : Script :=
  script (5, 0) 0 [100] 0 0 "not an error" [("id", "1"); ("id", "2")].

(** An engine that fails to open and stores no handle. *)
Definition no_handle : Script :=
  script (0, 14) 0 [] 0 14 "unable to open database file" two_columns.

(** An engine that fails to prepare, with or without a handle. *)
Definition cannot_prepare (h : Handle) : Script :=
  {| s_open := (5, 0); s_busy := 0; s_extended := 0; s_close := 0;
     s_errcode := 1; s_errmsg := "syntax error";
     s_prepare := (h, 1); s_finalize := 0;
     s_params := 1; s_bind := 0; s_steps := [];
     s_reset := 0; s_clear := 0;
     s_columns := two_columns |}.

(** An engine whose statement has two parameters. *)
Definition two_parameters : Script :=
  {| s_open := (5, 0); s_busy := 0; s_extended := 0; s_close := 0;
     s_errcode := 0; s_errmsg := "not an error";
     s_prepare := (7, 0); s_finalize := 0;
     s_params := 2; s_bind := 0; s_steps := [];
     s_reset := 0; s_clear := 0;
     s_columns := two_columns |}.

(** An engine whose statement has two parameters and refuses every bind. *)
Definition refuses_two_parameters : Script :=
  {| s_open := (5, 0); s_busy := 0; s_extended := 0; s_close := 0;
     s_errcode := 25; s_errmsg := "column index out of range";
     s_prepare := (7, 0); s_finalize := 0;
     s_params := 2; s_bind := 25; s_steps := [];
     s_reset := 0; s_clear := 0;
     s_columns := two_columns |}.

(** Options for the [open] of the early draft that ask for the no-mutex
    flag. *)
Definition no_mutex_options : Draft.ConnectionInfo :=
  {[ "name" := Draft.AString "test.db"; "sqlite.flags" := Draft.AInt OpenNoMutex ]}.

(** A stand-in for the library functions that finds the scheme "postgres"
    in every connection string. *)
Definition postgres_library : Library := {|
  http_ParseURL str := ({| Scheme := "postgres"; Path := str; RawQuery := "" |}, None);
  db_ParseQueryURL q := (∅, None);
  strconv_Atoi a := (0, None)
|}.

(** Version 3.5.9 of the library, which has no source id, and a later
    one. *)
Definition debian_359 : VersionCalls :=
  {| sqlite3_libversion := Some "3.5.9"; sqlite3_libversion_number := 3005009;
     sqlite3_sourceid := Some "unused"; strconv_Itob := λ _ _, "3005009" |}.

Definition later_version : VersionCalls :=
  {| sqlite3_libversion := Some "3.6.20"; sqlite3_libversion_number := 3006020;
     sqlite3_sourceid := Some "2009-11-04"; strconv_Itob := λ _ _, "3006020" |}.

(** * Properties *)

Section Properties.
Context {E : Type} `{!Engine E} `{!StatusCodes} `{!Library}.

(** ** Running monadic code *)

Lemma run_bind {A B} (m : M E A) (k : A -> M E B) (e : E) :
  (m ≫= k) e =
  match m e with
  | (Ret a, e1, t1) => let '(r, e2, t2) := k a e1 in (r, e2, t1 ++ t2)
  | (Panic s, e1, t1) => (Panic s, e1, t1)
  end.
Proof. reflexivity. Qed.

Lemma run_ret {A} (a : A) (e : E) : (mret a : M E A) e = (Ret a, e, []).
Proof. reflexivity. Qed.

Lemma run_call {A} (c : Call) (ans : A -> Answer) (f : E -> A * E) (e : E) :
  c_call c ans f e = (Ret (f e).1, (f e).2, [Ev c (ans (f e).1)]).
Proof. unfold c_call. destruct (f e); reflexivity. Qed.

Lemma run_panic {A} (reason : string) (e : E) :
  (panic reason : M E A) e = (Panic reason, e, []).
Proof. reflexivity. Qed.

(** One step of running driver code: a bind, a return, a C call (whose
    answer is taken from a hypothesis when there is one), or a test. *)
Ltac run_step :=
  first
    [ rewrite run_ret
    | rewrite run_panic
    | match goal with
      | H : ?m = (_, _, _) |- context [?m] => rewrite H
      end
    | match goal with
      | H : ?f ?e = _ |- context [c_call ?c ?ans ?f ?e] =>
        rewrite (run_call c ans f e), H; cbn [fst snd]
      | |- context [c_call ?c ?ans ?f ?e] =>
        rewrite (run_call c ans f e); destruct (f e) as [? ?] eqn:?; cbn [fst snd]
      end
    | rewrite run_bind
    | progress cbv beta iota
    | progress cbn [Connection_handle Statement_handle Statement_connection
                    Cursor_statement Cursor_connection result
                    ClassicResultSet_statement ClassicResultSet_connection more
                    fst snd negb]
    | match goal with
      | |- context [let '(_, _) := ?p in _] => is_var p; destruct p
      end
    | match goal with
      | |- context [decide ?P] => destruct (decide P); try contradiction; try lia
      end ].
Ltac run := repeat run_step.

(** Closes a goal whose two sides differ in the bracketing of the
    events. *)
Ltac same_events :=
  cbn [app]; rewrite ?app_nil_r, <- ?app_assoc; cbn [app]; reflexivity.

(** [Connection.error] always returns, with the two calls it makes. *)
Lemma run_Connection_error (self : Connection) (e : E) :
  let h := Connection_handle self in
  let extended := (e_errcode h e).1 in
  let e1 := (e_errcode h e).2 in
  let message := (e_errmsg h e1).1 in
  Connection_error self e =
  (Ret (SystemError (Z.land extended 0xff) extended message), (e_errmsg h e1).2,
   [Ev (sqlite3_errcode h) (RInt extended); Ev (sqlite3_errmsg h) (RText message)]).
Proof.
  unfold Connection_error, C_sqlite3_errcode, C_sqlite3_errmsg.
  unfold mbind, M_bind, mret, M_ret, c_call. cbn.
  destruct (e_errcode (Connection_handle self) e) as [extended e1]. cbn.
  destruct (e_errmsg (Connection_handle self) e1) as [message e2]. reflexivity.
Qed.

(** C9: every error built by [Connection.error] is a [SystemError] whose
    extended code is what [sqlite3_errcode] answered, whose basic code is
    that code with all but its low byte masked off, and whose message is
    what [sqlite3_errmsg] answered right after. *)
Theorem error_basic_is_masked_extended (self : Connection) (e : E) :
  ∃ basic extended message e1 e2,
    Connection_error self e =
    (Ret (SystemError basic extended message), e2,
     [Ev (sqlite3_errcode (Connection_handle self)) (RInt extended);
      Ev (sqlite3_errmsg (Connection_handle self)) (RText message)]) ∧
    e_errcode (Connection_handle self) e = (extended, e1) ∧
    e_errmsg (Connection_handle self) e1 = (message, e2) ∧
    basic = Z.land extended 0xff ∧
    0 ≤ basic < 256.
Proof.
  pose proof (run_Connection_error self e) as Hrun. cbn zeta in Hrun.
  destruct (e_errcode (Connection_handle self) e) as [extended e1] eqn:Hcode.
  cbn [fst snd] in Hrun.
  destruct (e_errmsg (Connection_handle self) e1) as [message e2] eqn:Hmsg.
  cbn [fst snd] in Hrun.
  exists (Z.land extended 0xff), extended, message, e1, e2.
  repeat split; try assumption.
  - apply Z.land_nonneg. right. lia.
  - change 0xff with (Z.ones 8). rewrite Z.land_ones by lia.
    apply Z.mod_pos_bound. reflexivity.
Qed.

(** ** Exhausted cursors and empty results *)

(** C4: on a cursor whose [result] flag is false, [FetchOne] returns the
    driver error "FetchOne: No results to fetch!" and no row, makes no C
    call and leaves the engine and the cursor as they were. *)
Theorem FetchOne_exhausted_is_usage_error (self : Cursor) (e : E) :
  result self = false →
  Cursor_FetchOne self e =
  (Ret (self, [], Some (DriverError "FetchOne: No results to fetch!")), e, []).
Proof. intros Hspent. unfold Cursor_FetchOne. rewrite Hspent. reflexivity. Qed.

(** C10: while the flag is true, a column count of zero or less makes
    [FetchOne], [FetchRow] and [Fetch] return the driver error "No columns
    in result!" (prefixed with the function's name) and no row data; the
    only C call made is [sqlite3_column_count], so the engine is not
    stepped. *)
Theorem fetch_without_columns_is_usage_error
        (c : Cursor) (rs : ClassicResultSet) (e e1 : E) (nColumns : Z) :
  nColumns ≤ 0 →
  (result c = true →
   e_column_count (Statement_handle (Cursor_statement c)) e = (nColumns, e1) →
   Cursor_FetchOne c e =
   (Ret (c, [], Some (DriverError "FetchOne: No columns in result!")), e1,
    [Ev (sqlite3_column_count (Statement_handle (Cursor_statement c))) (RInt nColumns)]) ∧
   Cursor_FetchRow c e =
   (Ret (c, ∅, Some (DriverError "FetchRow: No columns in result!")), e1,
    [Ev (sqlite3_column_count (Statement_handle (Cursor_statement c))) (RInt nColumns)])) ∧
  (more rs = true →
   e_column_count (Statement_handle (ClassicResultSet_statement rs)) e = (nColumns, e1) →
   ClassicResultSet_Fetch rs e =
   (Ret (rs, {| data := []; error := Some (DriverError "Fetch: No columns in result!") |}),
    e1,
    [Ev (sqlite3_column_count (Statement_handle (ClassicResultSet_statement rs)))
        (RInt nColumns)])).
Proof.
  intros Hn. split.
  - intros Hlive Hcount. split.
    + unfold Cursor_FetchOne. rewrite Hlive. cbn [negb].
      unfold C_sqlite3_column_count, mbind, M_bind, c_call. rewrite Hcount.
      destruct (decide (nColumns ≤ 0)); [reflexivity | contradiction].
    + unfold Cursor_FetchRow. rewrite Hlive. cbn [negb].
      unfold C_sqlite3_column_count, mbind, M_bind, c_call. rewrite Hcount.
      destruct (decide (nColumns ≤ 0)); [reflexivity | contradiction].
  - intros Hlive Hcount.
    unfold ClassicResultSet_Fetch. rewrite Hlive. cbn [negb].
    unfold C_sqlite3_column_count, mbind, M_bind, c_call. rewrite Hcount.
    destruct (decide (nColumns ≤ 0)); [reflexivity | contradiction].
Qed.

(** ** Executing *)

(** C6: when the number of parameters supplied differs from the number of
    slots the statement declares, [ExecuteClassic] returns the driver
    error "Execute: Number of parameters doesn't match!" and no result
    set; the only C call made is [sqlite3_bind_parameter_count], so
    nothing is bound. *)
Theorem ExecuteClassic_parameter_count_mismatch
        (self : Connection) (s : Statement) (parameters : list Value)
        (e e1 : E) (k : Z) :
  e_bind_parameter_count (Statement_handle s) e = (k, e1) →
  Z.of_nat (length parameters) ≠ k →
  Connection_ExecuteClassic self (sqlite3_Statement s) parameters e =
  (Ret (None, Some (DriverError "Execute: Number of parameters doesn't match!")), e1,
   [Ev (sqlite3_bind_parameter_count (Statement_handle s)) (RInt k)]).
Proof.
  intros Hcount Hne. unfold Connection_ExecuteClassic.
  unfold C_sqlite3_bind_parameter_count, mbind, M_bind, c_call. rewrite Hcount.
  destruct (decide (Z.of_nat (length parameters) ≠ k)); [reflexivity | contradiction].
Qed.

(** ** Opening a connection *)

Lemma land_pow2 (x n : Z) :
  0 ≤ n → Z.land x (2 ^ n) = if Z.testbit x n then 2 ^ n else 0.
Proof.
  intros Hn. apply Z.bits_inj'. intros m Hm.
  rewrite Z.land_spec, Z.pow2_bits_eqb by assumption.
  destruct (Z.eqb_spec n m) as [-> | Hne].
  - destruct (Z.testbit x m); cbn.
    + rewrite Z.pow2_bits_true by assumption. reflexivity.
    + rewrite Z.bits_0. reflexivity.
  - rewrite andb_false_r. destruct (Z.testbit x n).
    + rewrite Z.pow2_bits_false by assumption. reflexivity.
    + rewrite Z.bits_0. reflexivity.
Qed.

Lemma C_int_low_bits (x m : Z) :
  0 ≤ m < 32 → Z.testbit (C_int x) m = Z.testbit x m.
Proof.
  intros Hm.
  assert (Hmod : C_int x mod 2 ^ 32 = x mod 2 ^ 32).
  { unfold C_int. rewrite Zminus_mod_idemp_l. f_equal. lia. }
  rewrite <- (Z.mod_pow2_bits_low (C_int x) 32 m) by lia.
  rewrite Hmod. apply Z.mod_pow2_bits_low. lia.
Qed.

Lemma forced_flags_serialized (flags : Z) :
  serialized (Z.lor (Z.ldiff flags OpenNoMutex) OpenFullMutex).
Proof.
  unfold serialized, OpenNoMutex, OpenFullMutex.
  change 0x00008000 with (2 ^ 15). change 0x00010000 with (2 ^ 16).
  rewrite !land_pow2 by lia.
  rewrite !Z.lor_spec, !Z.ldiff_spec, !Z.pow2_bits_eqb by lia.
  cbn. rewrite andb_false_r, orb_true_r. split; reflexivity.
Qed.

Lemma serialized_C_int (flags : Z) : serialized flags → serialized (C_int flags).
Proof.
  unfold serialized, OpenNoMutex, OpenFullMutex.
  change 0x00008000 with (2 ^ 15). change 0x00010000 with (2 ^ 16).
  rewrite !land_pow2 by lia. rewrite !C_int_low_bits by lia. tauto.
Qed.

(** The [open] of the early draft hands the flags of the options to the
    engine unchanged but for the conversion to a C [int], which keeps the
    two mutex bits. *)
Lemma draft_open_passes_flags (e : E) :
  ∀ (C_wsq_extended_errcode : Handle → M E Z) info name flags vfs,
    Draft.parseConnInfo info = Ret (name, flags, vfs, None) →
    ∃ answer rest,
      events (Draft.open C_wsq_extended_errcode info e) =
      Ev (sqlite3_open_v2 name (C_int flags) vfs) answer :: rest ∧
      Z.testbit (C_int flags) 15 = Z.testbit flags 15 ∧
      Z.testbit (C_int flags) 16 = Z.testbit flags 16 ∧
      (serialized (C_int flags) ↔ serialized flags).
Proof.
  intros extended_errcode info name flags vfs Hparse.
  assert (H15 : Z.testbit (C_int flags) 15 = Z.testbit flags 15)
    by (apply C_int_low_bits; lia).
  assert (H16 : Z.testbit (C_int flags) 16 = Z.testbit flags 16)
    by (apply C_int_low_bits; lia).
  unfold Draft.open. rewrite Hparse. unfold events, C_sqlite3_open_v2.
  rewrite run_bind, run_call.
  destruct (e_open_v2 name (C_int flags) vfs e) as [[h rc] e1]. cbn [fst snd].
  match goal with |- context [let '(_, _) := ?x in _] => destruct x as [[r e2] t2] end.
  cbn. eexists _, _. split; [reflexivity |]. split; [exact H15 |]. split; [exact H16 |].
  unfold serialized, OpenNoMutex, OpenFullMutex.
  change 0x00008000 with (2 ^ 15). change 0x00010000 with (2 ^ 16).
  rewrite !land_pow2 by lia. rewrite H15, H16. tauto.
Qed.

(** C7, for the two [open] that take a connection string: whatever
    [parseConnInfo] reads from the connection string, the first C call of
    [open] is the engine's open call, and the flags it is given have the
    no-mutex bit (0x8000) clear and the full-mutex bit (0x10000) set; no
    open call is made with other flags.  This holds of [open] and of its
    variant in core.go; when parsing fails no C call is made.  The [open]
    of the early draft, which reads the flags from a map of options, hands
    them to the engine as they are: its open call has the two bits as the
    caller set them. *)
Theorem open_forces_full_mutex_on_connection_strings (url : string) (e : E) :
  Forall opens_serialized (events (open url e)) ∧
  (∀ name flags vfs,
      parseConnInfo url = (name, flags, vfs, None) →
      ∃ answer rest,
        events (open url e) =
        Ev (sqlite3_open_v2 name
              (C_int (Z.lor (Z.ldiff flags OpenNoMutex) OpenFullMutex)) vfs) answer
           :: rest ∧
        serialized (C_int (Z.lor (Z.ldiff flags OpenNoMutex) OpenFullMutex))) ∧
  (∀ name flags vfs err,
      parseConnInfo url = (name, flags, vfs, Some err) →
      open url e = (Ret (None, Some err), e, [])) ∧
  (∀ (Connection_error : Connection → M E Error)
     (Connection_Close : Connection → M E (option Error)) name flags vfs,
      CoreGo.parseConnInfo url = (name, flags, vfs, None) →
      ∃ answer rest,
        events (CoreGo.open Connection_error Connection_Close url e) =
        Ev (sqlOpen name (Z.lor (Z.ldiff flags OpenNoMutex) OpenFullMutex) vfs) answer
           :: rest ∧
        serialized (Z.lor (Z.ldiff flags OpenNoMutex) OpenFullMutex)) ∧
  (∀ (C_wsq_extended_errcode : Handle → M E Z) info name flags vfs,
      Draft.parseConnInfo info = Ret (name, flags, vfs, None) →
      ∃ answer rest,
        events (Draft.open C_wsq_extended_errcode info e) =
        Ev (sqlite3_open_v2 name (C_int flags) vfs) answer :: rest ∧
        Z.testbit (C_int flags) 15 = Z.testbit flags 15 ∧
        Z.testbit (C_int flags) 16 = Z.testbit flags 16 ∧
        (serialized (C_int flags) ↔ serialized flags)).
Proof.
  assert (Hser : ∀ flags, serialized (C_int (Z.lor (Z.ldiff flags OpenNoMutex) OpenFullMutex)))
    by (intros; apply serialized_C_int, forced_flags_serialized).
  split; [| split; [| split; [| split]]]; [| | | | apply draft_open_passes_flags].
  all: repeat split.
  - unfold open. destruct (parseConnInfo url) as [[[name flags] vfs] [err|]].
    { constructor. }
    unfold events, Connection_Close, Connection_error,
      C_sqlite3_open_v2, C_sqlite3_busy_timeout, C_sqlite3_extended_result_codes,
      C_sqlite3_close, C_sqlite3_errcode, C_sqlite3_errmsg.
    run.
    all: cbn; repeat constructor; cbn; apply Hser.
  - intros name flags vfs Hparse. unfold open. rewrite Hparse.
    unfold events, C_sqlite3_open_v2.
    rewrite run_bind, run_call.
    destruct (e_open_v2 name (C_int (Z.lor (Z.ldiff flags OpenNoMutex) OpenFullMutex)) vfs e)
      as [[h rc] e1]. cbn [fst snd].
    match goal with |- context [let '(_, _) := ?x in _] => destruct x as [[r e2] t2] end.
    cbn. eexists _, _. split; [reflexivity | apply Hser].
  - intros name flags vfs err Hparse. unfold open. rewrite Hparse. reflexivity.
  - intros cerr cclose name flags vfs Hparse. unfold CoreGo.open. rewrite Hparse.
    unfold events, CoreGo.C_sqlOpen.
    rewrite run_bind, run_call.
    destruct (e_sqlOpen name (Z.lor (Z.ldiff flags OpenNoMutex) OpenFullMutex) vfs e)
      as [[h rc] e1]. cbn [fst snd].
    match goal with |- context [let '(_, _) := ?x in _] => destruct x as [[r e2] t2] end.
    cbn. eexists _, _. split; [reflexivity | apply forced_flags_serialized].
Qed.

(** [Connection.Close] always returns, and its first call is
    [sqlite3_close]. *)
Lemma run_Connection_Close (self : Connection) (e : E) :
  ∃ secondary e' rc rest,
    Connection_Close self e =
    (Ret secondary, e', Ev (sqlite3_close (Connection_handle self)) (RInt rc) :: rest).
Proof.
  unfold Connection_Close, C_sqlite3_close. run.
  - rewrite run_Connection_error. run. cbn. eauto.
  - cbn. eauto.
Qed.

(** C8: when [sqlite3_open_v2] fails but stores a handle, or when
    [sqlite3_busy_timeout] or [sqlite3_extended_result_codes] fails, [open]
    reads the error right after the failing call, then closes the handle
    with [Connection.Close], whose own error [secondary] is dropped, and
    returns no connection and the error read first. *)
Theorem open_failure_closes_and_keeps_primary
        (url name : string) (flags : Z) (vfs : option string)
        (e e1 failed_at : E) (h : Handle) (rc : Z) (before : list Event) :
  let passed := C_int (Z.lor (Z.ldiff flags OpenNoMutex) OpenFullMutex) in
  let conn := {| Connection_handle := h |} in
  let opened := Ev (sqlite3_open_v2 name passed vfs) (RHandle h rc) in
  parseConnInfo url = (name, flags, vfs, None) →
  e_open_v2 name passed vfs e = ((h, rc), e1) →
  (rc ≠ StatusOk ∧ h ≠ nil_handle ∧ failed_at = e1 ∧ before = [opened]) ∨
  (rc = StatusOk ∧
   ∃ rc2, rc2 ≠ StatusOk ∧
     e_busy_timeout h defaultTimeoutMilliseconds e1 = (rc2, failed_at) ∧
     before = [opened; Ev (sqlite3_busy_timeout h defaultTimeoutMilliseconds) (RInt rc2)]) ∨
  (rc = StatusOk ∧
   ∃ e2 rc3, rc3 ≠ StatusOk ∧
     e_busy_timeout h defaultTimeoutMilliseconds e1 = (StatusOk, e2) ∧
     e_extended_result_codes h (C_int 1) e2 = (rc3, failed_at) ∧
     before = [opened;
               Ev (sqlite3_busy_timeout h defaultTimeoutMilliseconds) (RInt StatusOk);
               Ev (sqlite3_extended_result_codes h (C_int 1)) (RInt rc3)]) →
  ∀ primary secondary e2 e3 t2 t3,
    Connection_error conn failed_at = (Ret primary, e2, t2) →
    Connection_Close conn e2 = (Ret secondary, e3, t3) →
    open url e = (Ret (None, Some primary), e3, before ++ t2 ++ t3) ∧
    ∃ rc_close rest, t3 = Ev (sqlite3_close h) (RInt rc_close) :: rest.
Proof.
  intros passed conn opened Hparse Hopen Hcase primary secondary e2 e3 t2 t3 Herr Hclose.
  split.
  - unfold open. rewrite Hparse. fold passed.
    unfold C_sqlite3_open_v2, C_sqlite3_busy_timeout, C_sqlite3_extended_result_codes.
    destruct Hcase as [(Hrc & Hh & -> & ->) | [(Hrc & rc2 & Hrc2 & Hbusy & ->)
                                              | (Hrc & e2' & rc3 & Hrc3 & Hbusy & Hext & ->)]].
    + run. fold conn. run. rewrite app_nil_r. reflexivity.
    + run. fold conn. run. rewrite app_nil_r. reflexivity.
    + run. fold conn. run. rewrite app_nil_r. reflexivity.
  - destruct (run_Connection_Close conn e2) as (s' & e' & rcc & rest & Hrun).
    rewrite Hrun in Hclose. inversion Hclose. eauto.
Qed.

(** The same policy in [Prepare]: when [sqlite3_prepare_v2] fails but stores
    a handle, the error is read first, the handle is finalized, the status
    of that call is dropped and the error read first is returned. *)
Lemma Prepare_failure_finalizes_and_keeps_primary
      (self : Connection) (query : string) (e e1 e3 : E) (h : Handle) (rc rc' : Z) :
  e_prepare_v2 (Connection_handle self) query e = ((h, rc), e1) →
  rc ≠ StatusOk →
  h ≠ nil_handle →
  ∀ primary e2 t2,
    Connection_error self e1 = (Ret primary, e2, t2) →
    e_finalize h e2 = (rc', e3) →
    Connection_Prepare self query e =
    (Ret (None, Some primary), e3,
     Ev (sqlite3_prepare_v2 (Connection_handle self) query) (RHandle h rc)
        :: t2 ++ [Ev (sqlite3_finalize h) (RInt rc')]).
Proof.
  intros Hprepare Hrc Hh primary e2 t2 Herror Hfinalize.
  unfold Connection_Prepare, C_sqlite3_prepare_v2, C_sqlite3_finalize.
  run. rewrite app_nil_r. reflexivity.
Qed.

(** ** Clearing a statement *)

(** [Statement.clear] always returns: it resets, clears the bindings only
    if the reset succeeded, and never steps. *)
Lemma run_Statement_clear (self : Statement) (e : E) :
  ∃ r e' t,
    Statement_clear self e = (Ret r, e', t) ∧
    clear_calls (Statement_handle self) t.
Proof.
  unfold Statement_clear, clear_calls, C_sqlite3_reset, C_sqlite3_clear_bindings.
  run; try rewrite run_Connection_error; run; cbn.
  all: eexists _, _, _; split; [reflexivity |].
  all: eexists _, _; split; [reflexivity |]; split;
    [ intros; try contradiction; eauto | repeat constructor; discriminate ].
Qed.

(** The calls of [Statement.clear] are resets, clearings of bindings and
    readings of the error, and nothing else. *)
Lemma Statement_clear_calls_only (self : Statement) (e : E) :
  ∃ r e' t,
    Statement_clear self e = (Ret r, e', t) ∧
    clear_calls (Statement_handle self) t ∧
    Forall (λ ev, clearing (Statement_handle self) ev ∨ reads_error ev) t.
Proof.
  unfold Statement_clear, clear_calls, C_sqlite3_reset, C_sqlite3_clear_bindings.
  run; try rewrite run_Connection_error; run; cbn.
  all: eexists _, _, _; split; [reflexivity |].
  all: split;
    [ eexists _, _; split; [reflexivity |]; split;
      [ intros; try contradiction; eauto | repeat constructor; discriminate ]
    | unfold clearing, reads_error;
      repeat (apply Forall_cons_2;
              [ cbn; first [ left; left; reflexivity | left; right; reflexivity
                           | right; eexists; left; reflexivity
                           | right; eexists; right; reflexivity ] |]);
      apply Forall_nil_2 ].
Qed.

Lemma column_texts_calls (stmt : Handle) (fuel : nat) :
  ∀ (i : Z) (row : Row) (e : E),
  ∃ row' e' t,
    column_texts stmt fuel i row e = (Ret row', e', t) ∧
    Forall (λ ev, ∃ column, ev_call ev = wsq_column_text stmt column) t.
Proof.
  induction fuel as [| fuel IH]; intros i row e; cbn [column_texts].
  - run. eauto.
  - unfold C_wsq_column_text. run.
    destruct (IH (i + 1) (<[Z.to_nat i := s]> row) e0) as (row' & e' & t & Hrun & Ht).
    rewrite Hrun. cbn. eexists _, _, _. split; [reflexivity |].
    constructor; [cbn; eauto | assumption].
Qed.

Lemma column_entries_calls (stmt : Handle) (fuel : nat) :
  ∀ (i : Z) (m : gmap string string) (e : E),
  ∃ m' e' t,
    column_entries stmt fuel i m e = (Ret m', e', t) ∧
    Forall (λ ev, ∃ column, ev_call ev = wsq_column_text stmt column ∨
                            ev_call ev = wsq_column_name stmt column) t.
Proof.
  induction fuel as [| fuel IH]; intros i m e; cbn [column_entries].
  - run. eauto.
  - unfold C_wsq_column_text, C_wsq_column_name. run.
    destruct (IH (i + 1) (<[s0 := s]> m) e1) as (m' & e' & t & Hrun & Ht).
    rewrite Hrun. cbn. eexists _, _, _. split; [reflexivity |].
    repeat constructor; cbn; eauto.
Qed.

(** [Statement.clear] when the reset succeeds: the bindings are cleared
    next, and the error is read only if that call fails. *)
Lemma Statement_clear_after_reset (s : Statement) (e3 e4 e5 : E) (rc' : Z) :
  e_reset (Statement_handle s) e3 = (StatusOk, e4) →
  e_clear_bindings (Statement_handle s) e4 = (rc', e5) →
  ∃ dropped e6 rest,
    Statement_clear s e3 =
    (Ret dropped, e6,
     Ev (sqlite3_reset (Statement_handle s)) (RInt StatusOk)
        :: Ev (sqlite3_clear_bindings (Statement_handle s)) (RInt rc') :: rest) ∧
    Forall reads_error rest ∧
    (rc' = StatusOk → dropped = None ∧ e6 = e5 ∧ rest = []).
Proof.
  intros Hreset Hclear.
  unfold Statement_clear, C_sqlite3_reset, C_sqlite3_clear_bindings. run.
  - eexists _, _, _. split; [reflexivity |]. split; [constructor | tauto].
  - rewrite run_Connection_error. run. cbn [app].
    eexists _, _, _. split; [reflexivity |].
    split; [| intros; contradiction].
    unfold reads_error. repeat (apply Forall_cons_2; [cbn; eauto |]). apply Forall_nil_2.
Qed.

(** C1: when the parameter count matches and every parameter is bound, a
    first step that yields a row makes [ExecuteClassic] return a result
    set on this statement and connection with [more] true, and no error,
    and makes [Execute] return, with no error, a channel fed by [iterate]
    on that result set.  A first step that yields completion, after which
    the reset succeeds, makes [ExecuteClassic] reset the statement, clear
    its bindings and return no result set and no error; [Execute] then
    returns a channel and no error all the same, and the goroutine of that
    channel panics before it sends a value or closes the channel, because
    it runs [iterate] on the nil result set. *)
Theorem Execute_first_step
        (self : Connection) (s : Statement) (parameters : list Value)
        (e e1 e2 e3 : E) (t2 : list Event) (rc : Z) :
  let stmt := Statement_handle s in
  let before :=
    Ev (sqlite3_bind_parameter_count stmt) (RInt (Z.of_nat (length parameters)))
       :: t2 ++ [Ev (sqlite3_step stmt) (RInt rc)] in
  let rs := {| ClassicResultSet_statement := s;
               ClassicResultSet_connection := self;
               more := true |} in
  StatusRow ≠ StatusDone →
  e_bind_parameter_count stmt e = (Z.of_nat (length parameters), e1) →
  bind_parameters self s 0 parameters e1 = (Ret None, e2, t2) →
  e_step stmt e2 = (rc, e3) →
  (rc = StatusRow →
   Connection_ExecuteClassic self (sqlite3_Statement s) parameters e =
   (Ret (Some rs, None), e3, before) ∧
   ∃ channel : Channel,
     Connection_Execute self (sqlite3_Statement s) parameters e =
     (Ret (Some channel, None), e3, before) ∧
     ∀ fuel, channel fuel = iterate fuel rs) ∧
  (rc = StatusDone →
   ∀ e4 e5 rc',
     e_reset stmt e3 = (StatusOk, e4) →
     e_clear_bindings stmt e4 = (rc', e5) →
     ∃ e6 rest,
       let record :=
         before ++ Ev (sqlite3_reset stmt) (RInt StatusOk)
                :: Ev (sqlite3_clear_bindings stmt) (RInt rc') :: rest in
       Forall reads_error rest ∧
       (rc' = StatusOk → e6 = e5 ∧ rest = []) ∧
       Connection_ExecuteClassic self (sqlite3_Statement s) parameters e =
       (Ret (None, None), e6, record) ∧
       ∃ channel : Channel,
         Connection_Execute self (sqlite3_Statement s) parameters e =
         (Ret (Some channel, None), e6, record) ∧
         ∀ fuel e',
           channel fuel e' =
           (Panic "invalid memory address or nil pointer dereference", e', [])).
Proof.
  intros stmt before rs Hcodes Hcount Hbind Hstep. subst stmt before rs. split.
  - intros ->.
    match goal with
    | |- ?run = ?r ∧ _ => assert (Hrun : run = r)
    end.
    { unfold Connection_ExecuteClassic, C_sqlite3_bind_parameter_count, C_sqlite3_step.
      run. reflexivity. }
    split; [exact Hrun |].
    eexists. split.
    + unfold Connection_Execute. rewrite run_bind, Hrun. cbv beta iota zeta.
      rewrite run_ret, app_nil_r. reflexivity.
    + reflexivity.
  - intros -> e4 e5 rc' Hreset Hclear.
    destruct (Statement_clear_after_reset s e3 e4 e5 rc' Hreset Hclear)
      as (dropped & e6 & rest & Hcleared & Hrest & Hok).
    exists e6, rest. cbv zeta.
    split; [exact Hrest |]. split; [intros Hrc; destruct (Hok Hrc) as (_ & ? & ?); tauto |].
    match goal with
    | |- ?run = ?r ∧ _ => assert (Hrun : run = r)
    end.
    { unfold Connection_ExecuteClassic, C_sqlite3_bind_parameter_count, C_sqlite3_step.
      run. same_events. }
    split; [exact Hrun |].
    eexists. split.
    + unfold Connection_Execute. rewrite run_bind, Hrun. cbv beta iota zeta.
      rewrite run_ret, app_nil_r. reflexivity.
    + intros fuel e'. reflexivity.
Qed.

(** ** An engine error during a fetch *)

Lemma texts_not_clearing (stmt : Handle) (t : list Event) :
  Forall (λ ev, ∃ column, ev_call ev = wsq_column_text stmt column) t →
  Forall (λ ev, ¬ clearing stmt ev) t.
Proof.
  intros Ht. eapply Forall_impl; [exact Ht |].
  intros ev [column Hev] [Hc | Hc]; congruence.
Qed.

Lemma entries_not_clearing (stmt : Handle) (t : list Event) :
  Forall (λ ev, ∃ column, ev_call ev = wsq_column_text stmt column ∨
                          ev_call ev = wsq_column_name stmt column) t →
  Forall (λ ev, ¬ clearing stmt ev) t.
Proof.
  intros Ht. eapply Forall_impl; [exact Ht |].
  intros ev [column [Hev | Hev]] [Hc | Hc]; congruence.
Qed.

(** The shape shared by the three fetch functions when the step fails:
    the calls made are the column count, the reads of the row, the step
    and the two calls of [Connection.error]. *)
Lemma step_error_calls_not_clearing (stmt db : Handle) (n rc extended : Z)
      (message : string) (reads : list Event) :
  Forall (λ ev, ¬ clearing stmt ev) reads →
  Forall (λ ev, ¬ clearing stmt ev)
         (Ev (sqlite3_column_count stmt) (RInt n)
             :: reads ++ Ev (sqlite3_step stmt) (RInt rc)
             :: [Ev (sqlite3_errcode db) (RInt extended);
                 Ev (sqlite3_errmsg db) (RText message)]).
Proof.
  intros Hreads. constructor; [intros [Hc | Hc]; discriminate |].
  apply Forall_app. split; [assumption |].
  repeat constructor; intros [Hc | Hc]; discriminate.
Qed.

Lemma FetchOne_step_error (c : Cursor) (e e1 : E) (n : Z) :
  let stmt := Statement_handle (Cursor_statement c) in
  result c = true →
  e_column_count stmt e = (n, e1) →
  0 < n →
  ∃ row e2 reads,
    column_texts stmt (Z.to_nat n) 0 (replicate (Z.to_nat n) "") e1 = (Ret row, e2, reads) ∧
    ∀ rc e3,
      e_step stmt e2 = (rc, e3) → rc ≠ StatusDone → rc ≠ StatusRow →
      ∃ primary e4 t4,
        Connection_error (Cursor_connection c) e3 = (Ret primary, e4, t4) ∧
        Cursor_FetchOne c e =
        (Ret (c, row, Some primary), e4,
         Ev (sqlite3_column_count stmt) (RInt n)
            :: reads ++ Ev (sqlite3_step stmt) (RInt rc) :: t4) ∧
        Forall (λ ev, ¬ clearing stmt ev) (events (Cursor_FetchOne c e)).
Proof.
  intros stmt Hlive Hcount Hn.
  destruct (column_texts_calls stmt (Z.to_nat n) 0 (replicate (Z.to_nat n) "") e1)
    as (row & e2 & reads & Hreads & Hcalls).
  exists row, e2, reads. split; [assumption |].
  intros rc e3 Hstep Hdone Hrow.
  pose proof (run_Connection_error (Cursor_connection c) e3) as Herr. cbn zeta in Herr.
  eexists _, _, _. split; [exact Herr |].
  match goal with |- ?run = ?outcome ∧ _ => assert (Hrun : run = outcome) end.
  { unfold Cursor_FetchOne, C_sqlite3_column_count, C_sqlite3_step.
    rewrite Hlive. fold stmt. run; tauto. }
  split; [exact Hrun |].
  rewrite Hrun. unfold events. cbn [snd].
  apply step_error_calls_not_clearing, texts_not_clearing, Hcalls.
Qed.

Lemma FetchRow_step_error (c : Cursor) (e e1 : E) (n : Z) :
  let stmt := Statement_handle (Cursor_statement c) in
  result c = true →
  e_column_count stmt e = (n, e1) →
  0 < n →
  ∃ row e2 reads,
    column_entries stmt (Z.to_nat n) 0 ∅ e1 = (Ret row, e2, reads) ∧
    ∀ rc e3,
      e_step stmt e2 = (rc, e3) → rc ≠ StatusDone → rc ≠ StatusRow →
      ∃ primary e4 t4,
        Connection_error (Cursor_connection c) e3 = (Ret primary, e4, t4) ∧
        Cursor_FetchRow c e =
        (Ret (c, row, Some primary), e4,
         Ev (sqlite3_column_count stmt) (RInt n)
            :: reads ++ Ev (sqlite3_step stmt) (RInt rc) :: t4) ∧
        Forall (λ ev, ¬ clearing stmt ev) (events (Cursor_FetchRow c e)).
Proof.
  intros stmt Hlive Hcount Hn.
  destruct (column_entries_calls stmt (Z.to_nat n) 0 ∅ e1)
    as (row & e2 & reads & Hreads & Hcalls).
  exists row, e2, reads. split; [assumption |].
  intros rc e3 Hstep Hdone Hrow.
  pose proof (run_Connection_error (Cursor_connection c) e3) as Herr. cbn zeta in Herr.
  eexists _, _, _. split; [exact Herr |].
  match goal with |- ?run = ?outcome ∧ _ => assert (Hrun : run = outcome) end.
  { unfold Cursor_FetchRow, C_sqlite3_column_count, C_sqlite3_step.
    rewrite Hlive. fold stmt. run; tauto. }
  split; [exact Hrun |].
  rewrite Hrun. unfold events. cbn [snd].
  apply step_error_calls_not_clearing, entries_not_clearing, Hcalls.
Qed.

Lemma Fetch_step_error (rs : ClassicResultSet) (e e1 : E) (n : Z) :
  let stmt := Statement_handle (ClassicResultSet_statement rs) in
  more rs = true →
  e_column_count stmt e = (n, e1) →
  0 < n →
  ∃ row e2 reads,
    column_texts stmt (Z.to_nat n) 0 (replicate (Z.to_nat n) "") e1 = (Ret row, e2, reads) ∧
    ∀ rc e3,
      e_step stmt e2 = (rc, e3) → rc ≠ StatusDone → rc ≠ StatusRow →
      ∃ primary e4 t4,
        Connection_error (ClassicResultSet_connection rs) e3 = (Ret primary, e4, t4) ∧
        ClassicResultSet_Fetch rs e =
        (Ret (rs, {| data := row; error := Some primary |}), e4,
         Ev (sqlite3_column_count stmt) (RInt n)
            :: reads ++ Ev (sqlite3_step stmt) (RInt rc) :: t4) ∧
        Forall (λ ev, ¬ clearing stmt ev) (events (ClassicResultSet_Fetch rs e)).
Proof.
  intros stmt Hlive Hcount Hn.
  destruct (column_texts_calls stmt (Z.to_nat n) 0 (replicate (Z.to_nat n) "") e1)
    as (row & e2 & reads & Hreads & Hcalls).
  exists row, e2, reads. split; [assumption |].
  intros rc e3 Hstep Hdone Hrow.
  pose proof (run_Connection_error (ClassicResultSet_connection rs) e3) as Herr.
  cbn zeta in Herr.
  eexists _, _, _. split; [exact Herr |].
  match goal with |- ?run = ?outcome ∧ _ => assert (Hrun : run = outcome) end.
  { unfold ClassicResultSet_Fetch, C_sqlite3_column_count, C_sqlite3_step.
    rewrite Hlive. fold stmt. run; tauto. }
  split; [exact Hrun |].
  rewrite Hrun. unfold events. cbn [snd].
  apply step_error_calls_not_clearing, texts_not_clearing, Hcalls.
Qed.

(** C3, as the code has it: when the step of [FetchOne], [FetchRow] or
    [Fetch] answers a status that is neither [StatusRow] nor
    [StatusDone], the function returns the row it has just read together
    with the engine error read right after the step; it does not reset
    the statement or clear its bindings, and it leaves the cursor's flag
    true. *)
Theorem fetch_step_error_is_surfaced_without_reset
        (c : Cursor) (rs : ClassicResultSet) (e e1 : E) (n : Z) :
  0 < n →
  (result c = true →
   e_column_count (Statement_handle (Cursor_statement c)) e = (n, e1) →
   let stmt := Statement_handle (Cursor_statement c) in
   (∃ row e2 reads,
      column_texts stmt (Z.to_nat n) 0 (replicate (Z.to_nat n) "") e1 = (Ret row, e2, reads) ∧
      ∀ rc e3,
        e_step stmt e2 = (rc, e3) → rc ≠ StatusDone → rc ≠ StatusRow →
        ∃ primary e4 t4,
          Connection_error (Cursor_connection c) e3 = (Ret primary, e4, t4) ∧
          Cursor_FetchOne c e =
          (Ret (c, row, Some primary), e4,
           Ev (sqlite3_column_count stmt) (RInt n)
              :: reads ++ Ev (sqlite3_step stmt) (RInt rc) :: t4) ∧
          Forall (λ ev, ¬ clearing stmt ev) (events (Cursor_FetchOne c e))) ∧
   (∃ row e2 reads,
      column_entries stmt (Z.to_nat n) 0 ∅ e1 = (Ret row, e2, reads) ∧
      ∀ rc e3,
        e_step stmt e2 = (rc, e3) → rc ≠ StatusDone → rc ≠ StatusRow →
        ∃ primary e4 t4,
          Connection_error (Cursor_connection c) e3 = (Ret primary, e4, t4) ∧
          Cursor_FetchRow c e =
          (Ret (c, row, Some primary), e4,
           Ev (sqlite3_column_count stmt) (RInt n)
              :: reads ++ Ev (sqlite3_step stmt) (RInt rc) :: t4) ∧
          Forall (λ ev, ¬ clearing stmt ev) (events (Cursor_FetchRow c e)))) ∧
  (more rs = true →
   e_column_count (Statement_handle (ClassicResultSet_statement rs)) e = (n, e1) →
   let stmt := Statement_handle (ClassicResultSet_statement rs) in
   ∃ row e2 reads,
     column_texts stmt (Z.to_nat n) 0 (replicate (Z.to_nat n) "") e1 = (Ret row, e2, reads) ∧
     ∀ rc e3,
       e_step stmt e2 = (rc, e3) → rc ≠ StatusDone → rc ≠ StatusRow →
       ∃ primary e4 t4,
         Connection_error (ClassicResultSet_connection rs) e3 = (Ret primary, e4, t4) ∧
         ClassicResultSet_Fetch rs e =
         (Ret (rs, {| data := row; error := Some primary |}), e4,
          Ev (sqlite3_column_count stmt) (RInt n)
             :: reads ++ Ev (sqlite3_step stmt) (RInt rc) :: t4) ∧
         Forall (λ ev, ¬ clearing stmt ev) (events (ClassicResultSet_Fetch rs e))).
Proof.
  intros Hn. split.
  - intros Hlive Hcount stmt. split.
    + apply FetchOne_step_error; assumption.
    + apply FetchRow_step_error; assumption.
  - intros Hlive Hcount stmt. apply Fetch_step_error; assumption.
Qed.

(** ** FetchMany and FetchAll *)

(** The loop of [FetchMany] makes the calls of [fetch_until_error] and
    stores the rows obtained in the first places of the slice. *)
Lemma FetchMany_loop_refines (fuel : nat) :
  ∀ (count l : nat) (d : list Row) (self : Cursor) (e : E),
    (l + fuel = count)%nat →
    length d = count →
    match fetch_until_error fuel self e with
    | (Ret (c', rows, err), e', t) =>
      ∃ d', FetchMany_loop fuel count l d None self e =
            (Ret (c', d', (l + length rows)%nat, err), e', t) ∧
            take (l + length rows) d' = take l d ++ rows ∧
            length d' = count ∧
            (l + length rows ≤ count)%nat
    | (Panic reason, e', t) =>
      FetchMany_loop fuel count l d None self e = (Panic reason, e', t)
    end.
Proof.
  induction fuel as [| fuel IH]; intros count l d self e Hfuel Hlen.
  - cbn [fetch_until_error FetchMany_loop]. rewrite !run_ret.
    exists d. cbn [length]. rewrite Nat.add_0_r, app_nil_r.
    repeat split; (assumption || lia).
  - cbn [fetch_until_error FetchMany_loop].
    destruct (decide (l < count)%nat) as [Hlt | Hge]; [| exfalso; lia].
    rewrite !run_bind.
    destruct (Cursor_FetchOne self e) as [[[[[c1 row] [err1 |]] | reason] e1] t1];
      cbv beta iota.
    + rewrite !run_ret. exists (<[l := row]> d). cbn [length].
      rewrite Nat.add_0_r, !app_nil_r, length_insert.
      rewrite take_insert_ge by lia.
      repeat split; (assumption || lia).
    + specialize (IH count (l + 1)%nat (<[l := row]> d) c1 e1).
      rewrite length_insert in IH.
      specialize (IH ltac:(lia) Hlen).
      rewrite run_bind.
      destruct (fetch_until_error fuel c1 e1) as [[[[[c2 rows] err] | reason] e2] t2];
        cbv beta iota.
      * destruct IH as (d' & Hloop & Htake & Hlen' & Hbound).
        rewrite Hloop, run_ret. exists d'. cbn [length].
        rewrite app_nil_r.
        replace (l + S (length rows))%nat with (l + 1 + length rows)%nat by lia.
        split; [reflexivity |]. split; [| split; [assumption | lia]].
        rewrite Htake. rewrite Nat.add_1_r.
        rewrite (take_S_r _ _ row) by (apply list_lookup_insert_eq; lia).
        rewrite take_insert_ge by lia. rewrite <- app_assoc. reflexivity.
      * rewrite IH. reflexivity.
    + reflexivity.
Qed.

(** [FetchMany(count)] with a negative [count] panics in [make], before
    any call. *)
Lemma FetchMany_negative_count (self : Cursor) (count : Z) (e : E) :
  count < 0 →
  Cursor_FetchMany self count e = (Panic "makeslice: len out of range", e, []).
Proof.
  intros Hneg. unfold Cursor_FetchMany.
  destruct (decide (count < 0)); [reflexivity | contradiction].
Qed.

Lemma FetchMany_refines (self : Cursor) (count : Z) (e : E) :
  0 ≤ count →
  Cursor_FetchMany self count e = spec_FetchMany self (Z.to_nat count) e.
Proof.
  intros Hcount. unfold Cursor_FetchMany, spec_FetchMany.
  destruct (decide (count < 0)) as [Hneg | _]; [exfalso; lia |].
  cbv zeta. rewrite !run_bind.
  match goal with
  | |- context [FetchMany_loop ?fuel ?n 0%nat ?d None self e] =>
    pose proof (FetchMany_loop_refines fuel n 0 d self e eq_refl
                  (length_replicate _ _)) as Hloop
  end.
  destruct (fetch_until_error (Z.to_nat count) self e)
    as [[[[[c' rows] err] | reason] e'] t].
  - destruct Hloop as (d' & Hloop & Htake & Hlen & Hbound).
    rewrite Hloop. cbv beta iota.
    destruct rows as [| row rows]; cbn [length partial_success Nat.add] in *.
    + destruct (decide (0 < 0)%nat); [exfalso; lia |]. reflexivity.
    + change (take (S (length rows)) d' = row :: rows) in Htake.
      destruct (decide (0 < S (length rows))%nat); [| exfalso; lia].
      destruct (decide (S (length rows) < Z.to_nat count)%nat) as [Hfew | Hall].
      * rewrite Htake. reflexivity.
      * rewrite take_ge in Htake by lia. rewrite Htake. reflexivity.
  - rewrite Hloop. reflexivity.
Qed.

(** Once [FetchOne] has failed within [k] calls, the loop of [FetchAll]
    returns for every bound of at least [k], with the rows obtained
    before the failure. *)
Lemma FetchAll_loop_refines (k : nat) :
  ∀ (self : Cursor) (e : E) (v : list Row) c' rows err e' t,
    fetch_until_error k self e = (Ret (c', rows, Some err), e', t) →
    ∀ fuel, (k ≤ fuel)%nat →
      FetchAll_loop fuel v self e = (Ret (Some (c', v ++ rows, err)), e', t).
Proof.
  induction k as [| k IH]; intros self e v c' rows err e' t Hspec fuel Hfuel.
  - cbn [fetch_until_error] in Hspec. rewrite run_ret in Hspec. discriminate.
  - destruct fuel as [| fuel]; [exfalso; lia |].
    cbn [fetch_until_error] in Hspec. cbn [FetchAll_loop].
    rewrite run_bind in Hspec. rewrite run_bind.
    destruct (Cursor_FetchOne self e) as [[[[[c1 row] [err1 |]] | reason] e1] t1];
      cbv beta iota in *.
    + rewrite run_ret in *. inversion Hspec; subst. rewrite !app_nil_r. reflexivity.
    + rewrite run_bind in Hspec.
      destruct (fetch_until_error k c1 e1) as [[[[[c2 rows'] err'] | reason] e2] t2] eqn:Hrest;
        cbv beta iota in Hspec.
      * rewrite run_ret in Hspec. inversion Hspec; subst.
        rewrite (IH c1 e1 (v ++ [row]) c' rows' err e' t2 Hrest fuel ltac:(lia)).
        rewrite !app_nil_r, <- app_assoc. reflexivity.
      * discriminate.
    + discriminate.
Qed.

(** C5: [FetchMany(count)] is what the specification describes: it calls
    [FetchOne] at most [count] times, until it reports an error, and
    returns the rows obtained with no error if there is at least one, and
    no rows and the error of [FetchOne] otherwise.  [FetchAll] does the
    same without a bound on the calls: as soon as [FetchOne] fails within
    [k] calls, [FetchAll] returns (for every bound of its loop of at
    least [k]) the rows obtained before the failure with no error, or no
    rows and that error when there are none. *)
Theorem FetchMany_FetchAll_partial_success (self : Cursor) (e : E) :
  (∀ count, 0 ≤ count →
     Cursor_FetchMany self count e = spec_FetchMany self (Z.to_nat count) e) ∧
  (∀ k c' rows err e' t,
     fetch_until_error k self e = (Ret (c', rows, Some err), e', t) →
     ∀ fuel, (k ≤ fuel)%nat →
       Cursor_FetchAll fuel self e =
       (Ret (Some (c', (partial_success rows (Some err)).1,
                   (partial_success rows (Some err)).2)), e', t)).
Proof.
  split.
  - intros count Hcount. apply FetchMany_refines. assumption.
  - intros k c' rows err e' t Hspec fuel Hfuel.
    unfold Cursor_FetchAll. rewrite run_bind.
    rewrite (FetchAll_loop_refines k self e [] c' rows err e' t Hspec fuel Hfuel).
    cbv beta iota. cbn [app].
    destruct rows as [| row rows]; cbn [length partial_success fst snd].
    + destruct (decide (0 < 0)%nat); [exfalso; lia |]. rewrite run_ret, app_nil_r. reflexivity.
    + destruct (decide (0 < S (length rows))%nat); [| exfalso; lia].
      rewrite run_ret, app_nil_r. reflexivity.
Qed.

(** ** The invariant of cursors and result sets *)

(** Running code that calls [Connection.error], [Statement.clear] or the
    loops over the columns, all of which always return. *)
Ltac run_driver :=
  repeat first
    [ run_step
    | rewrite run_Connection_error; cbv zeta
    | match goal with
      | |- context [Statement_clear ?s ?e] =>
        let Hclear := fresh "Hclear" in
        let Hcalls := fresh "Hcalls" in
        destruct (run_Statement_clear s e) as (? & ? & ? & Hclear & Hcalls);
        rewrite Hclear
      | |- context [column_texts ?stmt ?fuel ?i ?row ?e] =>
        let Hreads := fresh "Hreads" in
        let Hcalls := fresh "Hcolumns" in
        destruct (column_texts_calls stmt fuel i row e) as (? & ? & ? & Hreads & Hcalls);
        rewrite Hreads
      | |- context [column_entries ?stmt ?fuel ?i ?m ?e] =>
        let Hreads := fresh "Hreads" in
        let Hcalls := fresh "Hcolumns" in
        destruct (column_entries_calls stmt fuel i m e) as (? & ? & ? & Hreads & Hcalls);
        rewrite Hreads
      end ].

(** The record of a fetch whose step answered [StatusDone]. *)
Lemma cleared_after_fetch (stmt : Handle) (t0 reads after : list Event)
      (counted stepped : Event) :
  clear_calls stmt after →
  cleared_since_last_step stmt
    (t0 ++ [counted] ++ reads ++ [stepped] ++ [] ++ after ++ []).
Proof.
  intros Hclear. exists (t0 ++ [counted] ++ reads ++ [stepped]), after.
  split; [| assumption].
  rewrite app_nil_r. cbn [app]. rewrite <- !app_assoc. cbn [app].
  rewrite <- !app_assoc. reflexivity.
Qed.

(** Closes the cases of the lemma below: the flag stays true, or the
    record ends with the calls of [Statement.clear]. *)
Ltac keeps_invariant :=
  intros Hrun; inversion Hrun; subst; split; [reflexivity |];
  first
    [ congruence
    | intros _ _; apply cleared_after_fetch; assumption ].

(** [Fetch] keeps the statement of the result set and the invariant. *)
Lemma Fetch_keeps_invariant (rs rs' : ClassicResultSet) (e e' : E) (res : Result)
      (t0 t1 : list Event) :
  ClassicResultSet_Fetch rs e = (Ret (rs', res), e', t1) →
  ClassicResultSet_statement rs' = ClassicResultSet_statement rs ∧
  (exhausted_means_cleared (Statement_handle (ClassicResultSet_statement rs)) (more rs) t0 →
   exhausted_means_cleared (Statement_handle (ClassicResultSet_statement rs)) (more rs')
                           (t0 ++ t1)).
Proof.
  unfold ClassicResultSet_Fetch, exhausted_means_cleared.
  destruct (more rs) eqn:Hflag; cbn [negb].
  - unfold C_sqlite3_column_count, C_sqlite3_step. run_driver; keeps_invariant.
  - run. intros Hrun. inversion Hrun; subst. split; [reflexivity |].
    rewrite app_nil_r. rewrite Hflag. tauto.
Qed.

(** A result set returned by [ExecuteClassic] is on the statement
    executed and has its flag true. *)
Lemma ExecuteClassic_result_set (self : Connection) (s : Statement)
      (parameters : list Value) (e e' : E) (rs : ClassicResultSet)
      (err : option Error) (t : list Event) :
  Connection_ExecuteClassic self (sqlite3_Statement s) parameters e =
  (Ret (Some rs, err), e', t) →
  rs = {| ClassicResultSet_statement := s; ClassicResultSet_connection := self;
          more := true |}.
Proof.
  unfold Connection_ExecuteClassic, C_sqlite3_bind_parameter_count, C_sqlite3_step.
  run.
  - intros Hrun. discriminate.
  - destruct (bind_parameters self s 0 parameters e0)
      as [[[[failed |] | reason] e1] t1] eqn:Hbind; run_driver;
      intros Hrun; inversion Hrun; reflexivity.
Qed.

(** On an exhausted cursor no operation makes a C call. *)
Lemma run_op_exhausted (op : CursorOp) (c : Cursor) (e : E) :
  result c = false →
  events (run_op op c e) = [] ∧ (run_op op c e).1.2 = e.
Proof.
  intros Hspent. unfold events.
  assert (Hone : Cursor_FetchOne c e =
                 (Ret (c, [], Some (DriverError "FetchOne: No results to fetch!")), e, [])).
  { unfold Cursor_FetchOne. rewrite Hspent. reflexivity. }
  destruct op as [| | count | fuel]; unfold run_op.
  - rewrite run_bind, Hone. split; reflexivity.
  - unfold Cursor_FetchRow. rewrite Hspent. split; reflexivity.
  - unfold Cursor_FetchMany.
    destruct (decide (count < 0)); [split; reflexivity |].
    cbv zeta. destruct (Z.to_nat count) as [| k].
    + split; reflexivity.
    + cbn [FetchMany_loop]. destruct (decide (0 < S k)%nat); [| exfalso; lia].
      rewrite !run_bind, Hone. split; reflexivity.
  - unfold Cursor_FetchAll. destruct fuel as [| fuel]; cbn [FetchAll_loop].
    + split; reflexivity.
    + rewrite !run_bind, Hone. split; reflexivity.
Qed.

(** ** Every sequence of operations *)

Lemma ends_cleared_later (stmt : Handle) (t1 t2 : list Event) :
  ends_cleared stmt t2 → ends_cleared stmt (t1 ++ t2).
Proof.
  intros (before & rc & rest & -> & Hrest). exists (t1 ++ before), rc, rest.
  split; [rewrite <- app_assoc; reflexivity | exact Hrest].
Qed.

Lemma fetch_summary_nothing (stmt : Handle) (flag : bool) :
  fetch_summary stmt flag flag [].
Proof. split; [constructor |]. split; [tauto | congruence]. Qed.

(** Two fetches in a row. *)
Lemma fetch_summary_then (stmt : Handle) (f f1 f2 : bool) (t1 t2 : list Event) :
  fetch_summary stmt f f1 t1 → fetch_summary stmt f1 f2 t2 →
  fetch_summary stmt f f2 (t1 ++ t2).
Proof.
  intros (Hs1 & Hf1 & Ht1) (Hs2 & Hf2 & Ht2).
  split; [apply Forall_app; split; assumption |]. split.
  - intros Hf. destruct (Hf1 Hf) as [-> ->]. destruct (Hf2 eq_refl) as [-> ->].
    split; reflexivity.
  - intros Hf Hf2'. destruct f1.
    + apply ends_cleared_later. auto.
    + destruct (Hf2 eq_refl) as [_ ->]. rewrite app_nil_r. auto.
Qed.

(** [Statement.clear] right after a step that answered [StatusDone], on an
    engine that keeps the promise of [sqlite3_reset]. *)
Lemma Statement_clear_after_done (s : Statement) (e e3 : E) :
  resets_after_done →
  e_step (Statement_handle s) e = (StatusDone, e3) →
  ∃ dropped e' rc rest,
    Statement_clear s e3 =
    (Ret dropped, e',
     Ev (sqlite3_reset (Statement_handle s)) (RInt StatusOk)
        :: Ev (sqlite3_clear_bindings (Statement_handle s)) (RInt rc) :: rest) ∧
    Forall reads_error rest.
Proof.
  intros Hcontract Hstep.
  pose proof (Hcontract (Statement_handle s) e) as Hreset.
  rewrite Hstep in Hreset. cbn [fst snd] in Hreset. specialize (Hreset eq_refl).
  destruct (e_reset (Statement_handle s) e3) as [rc0 e4] eqn:Hr.
  cbn [fst] in Hreset. subst rc0.
  destruct (e_clear_bindings (Statement_handle s) e4) as [rc' e5] eqn:Hc.
  destruct (Statement_clear_after_reset s e3 e4 e5 rc' Hr Hc)
    as (dropped & e6 & rest & Hrun & Hrest & _).
  eauto 10.
Qed.

(** Running a fetch function on an engine that keeps the promise of
    [sqlite3_reset], which is the hypothesis [Hcontract]. *)
Ltac run_fetch Hcontract :=
  repeat first
    [ run_step
    | rewrite run_Connection_error; cbv zeta
    | match goal with
      | Hstep : e_step (Statement_handle ?s) ?e = (?z, ?e3), Hz : ?z = StatusDone
        |- context [Statement_clear ?s ?e3] =>
        let Hclear := fresh "Hclear" in
        let Hrest := fresh "Hrest" in
        rewrite Hz in Hstep;
        destruct (Statement_clear_after_done s e e3 Hcontract Hstep)
          as (? & ? & ? & ? & Hclear & Hrest);
        rewrite Hclear
      | |- context [column_texts ?stmt ?fuel ?i ?row ?e] =>
        let Hreads := fresh "Hreads" in
        let Hcalls := fresh "Hcolumns" in
        destruct (column_texts_calls stmt fuel i row e) as (? & ? & ? & Hreads & Hcalls);
        rewrite Hreads
      | |- context [column_entries ?stmt ?fuel ?i ?m ?e] =>
        let Hreads := fresh "Hreads" in
        let Hcalls := fresh "Hcolumns" in
        destruct (column_entries_calls stmt fuel i m e) as (? & ? & ? & Hreads & Hcalls);
        rewrite Hreads
      end ].

(** The calls listed step no statement but the one named. *)
Ltac own_steps :=
  unfold steps_only in *;
  repeat first
    [ assumption
    | apply Forall_nil_2
    | apply Forall_app_2
    | apply Forall_cons_2; [cbn; let Hh := fresh in intros ? Hh; congruence |]
    | eapply Forall_impl; [eassumption |]; unfold reads_error; cbn;
      let Hev := fresh in
      let Hh := fresh in
      intros ? Hev ? Hh;
      repeat match goal with
             | H : ∃ _, _ |- _ => destruct H
             | H : _ ∨ _ |- _ => destruct H
             end;
      congruence ].

(** Closes the cases of a fetch function: the flag stays true, or the
    calls end with the exhaustion of the statement. *)
Ltac close_summary :=
  let Hrun := fresh "Hrun" in
  intros Hrun; inversion Hrun; subst; split; [reflexivity |];
  split; [solve [own_steps] |]; split; [discriminate |];
  cbn [result more];
  first
    [ intros _ Hfalse;
      match goal with
      | Htrue : ?flag = true, Hfalse : ?flag = false |- _ =>
        rewrite Htrue in Hfalse; discriminate Hfalse
      end
    | intros _ _;
      match goal with
      | |- ends_cleared _ (?a :: ?reads ++ _) =>
        eexists (a :: reads), _, _;
        split; [rewrite ?app_nil_r; reflexivity | assumption]
      end ].

Lemma FetchOne_summary (c c' : Cursor) (e e' : E) (row : Row) (err : option Error)
      (t : list Event) :
  resets_after_done →
  Cursor_FetchOne c e = (Ret (c', row, err), e', t) →
  Cursor_statement c' = Cursor_statement c ∧
  fetch_summary (Statement_handle (Cursor_statement c)) (result c) (result c') t.
Proof.
  intros Hcontract. unfold Cursor_FetchOne.
  destruct (result c) eqn:Hflag; cbn [negb].
  - unfold C_sqlite3_column_count, C_sqlite3_step. run_fetch Hcontract; close_summary.
  - run. intros Hrun. inversion Hrun; subst. split; [reflexivity |].
    rewrite Hflag. apply fetch_summary_nothing.
Qed.

Lemma FetchRow_summary (c c' : Cursor) (e e' : E) (row : gmap string string)
      (err : option Error) (t : list Event) :
  resets_after_done →
  Cursor_FetchRow c e = (Ret (c', row, err), e', t) →
  Cursor_statement c' = Cursor_statement c ∧
  fetch_summary (Statement_handle (Cursor_statement c)) (result c) (result c') t.
Proof.
  intros Hcontract. unfold Cursor_FetchRow.
  destruct (result c) eqn:Hflag; cbn [negb].
  - unfold C_sqlite3_column_count, C_sqlite3_step. run_fetch Hcontract; close_summary.
  - run. intros Hrun. inversion Hrun; subst. split; [reflexivity |].
    rewrite Hflag. apply fetch_summary_nothing.
Qed.

Lemma Fetch_summary (rs rs' : ClassicResultSet) (e e' : E) (res : Result)
      (t : list Event) :
  resets_after_done →
  ClassicResultSet_Fetch rs e = (Ret (rs', res), e', t) →
  ClassicResultSet_statement rs' = ClassicResultSet_statement rs ∧
  fetch_summary (Statement_handle (ClassicResultSet_statement rs)) (more rs) (more rs') t.
Proof.
  intros Hcontract. unfold ClassicResultSet_Fetch.
  destruct (more rs) eqn:Hflag; cbn [negb].
  - unfold C_sqlite3_column_count, C_sqlite3_step. run_fetch Hcontract; close_summary.
  - run. intros Hrun. inversion Hrun; subst. split; [reflexivity |].
    rewrite Hflag. apply fetch_summary_nothing.
Qed.

(** The loop of [FetchMany]. *)
Lemma FetchMany_loop_summary (fuel : nat) :
  resets_after_done →
  ∀ (count l : nat) (d : list Row) (e0 : option Error) (c : Cursor) (e : E)
    c' d' l' err e' (t : list Event),
    FetchMany_loop fuel count l d e0 c e = (Ret (c', d', l', err), e', t) →
    Cursor_statement c' = Cursor_statement c ∧
    fetch_summary (Statement_handle (Cursor_statement c)) (result c) (result c') t.
Proof.
  intros Hcontract.
  induction fuel as [| fuel IH]; intros count l d e0 c e c' d' l' err e' t;
    cbn [FetchMany_loop].
  - rewrite run_ret. intros Hrun. inversion Hrun; subst.
    split; [reflexivity | apply fetch_summary_nothing].
  - destruct (decide (l < count)%nat).
    + rewrite run_bind.
      destruct (Cursor_FetchOne c e) as [[[[[c1 row] [err1 |]] | reason] e1] t1] eqn:Hone;
        cbv beta iota; [| | discriminate].
      * rewrite run_ret, app_nil_r. intros Hrun. inversion Hrun; subst.
        exact (FetchOne_summary _ _ _ _ _ _ _ Hcontract Hone).
      * destruct (FetchMany_loop fuel count (l + 1) (<[l := row]> d) None c1 e1)
          as [[[[[[c2 d2] l2] err2] | reason] e2] t2] eqn:Hloop; [| discriminate].
        intros Hrun. inversion Hrun; subst.
        destruct (FetchOne_summary _ _ _ _ _ _ _ Hcontract Hone) as [Hsame Hfirst].
        destruct (IH _ _ _ _ _ _ _ _ _ _ _ _ Hloop) as [Hsame' Hrest].
        rewrite Hsame in *. split; [assumption |].
        exact (fetch_summary_then _ _ _ _ _ _ Hfirst Hrest).
    + rewrite run_ret. intros Hrun. inversion Hrun; subst.
      split; [reflexivity | apply fetch_summary_nothing].
Qed.

(** The loop of [FetchAll]. *)
Lemma FetchAll_loop_summary (fuel : nat) :
  resets_after_done →
  ∀ (v : list Row) (c : Cursor) (e : E) c' v' err e' (t : list Event),
    FetchAll_loop fuel v c e = (Ret (Some (c', v', err)), e', t) →
    Cursor_statement c' = Cursor_statement c ∧
    fetch_summary (Statement_handle (Cursor_statement c)) (result c) (result c') t.
Proof.
  intros Hcontract.
  induction fuel as [| fuel IH]; intros v c e c' v' err e' t; cbn [FetchAll_loop].
  - rewrite run_ret. discriminate.
  - rewrite run_bind.
    destruct (Cursor_FetchOne c e) as [[[[[c1 row] [err1 |]] | reason] e1] t1] eqn:Hone;
      cbv beta iota; [| | discriminate].
    + rewrite run_ret, app_nil_r. intros Hrun. inversion Hrun; subst.
      exact (FetchOne_summary _ _ _ _ _ _ _ Hcontract Hone).
    + destruct (FetchAll_loop fuel (v ++ [row]) c1 e1)
        as [[[[[[c2 v2] err2] |] | reason] e2] t2] eqn:Hloop; try discriminate.
      intros Hrun. inversion Hrun; subst.
      destruct (FetchOne_summary _ _ _ _ _ _ _ Hcontract Hone) as [Hsame Hfirst].
      destruct (IH _ _ _ _ _ _ _ _ Hloop) as [Hsame' Hrest].
      rewrite Hsame in *. split; [assumption |].
      exact (fetch_summary_then _ _ _ _ _ _ Hfirst Hrest).
Qed.

(** Every fetch operation of a cursor. *)
Lemma run_op_summary (op : CursorOp) (c c' : Cursor) (e e' : E) (t : list Event) :
  resets_after_done →
  run_op op c e = (Ret (Some c'), e', t) →
  Cursor_statement c' = Cursor_statement c ∧
  fetch_summary (Statement_handle (Cursor_statement c)) (result c) (result c') t.
Proof.
  intros Hcontract.
  destruct op as [| | count | fuel]; unfold run_op; rewrite run_bind.
  - destruct (Cursor_FetchOne c e) as [[[[[c1 row] err1] | reason] e1] t1] eqn:Hone;
      cbv beta iota; [| discriminate].
    rewrite run_ret, app_nil_r. intros Hrun. inversion Hrun; subst.
    exact (FetchOne_summary _ _ _ _ _ _ _ Hcontract Hone).
  - destruct (Cursor_FetchRow c e) as [[[[[c1 row] err1] | reason] e1] t1] eqn:Hone;
      cbv beta iota; [| discriminate].
    rewrite run_ret, app_nil_r. intros Hrun. inversion Hrun; subst.
    exact (FetchRow_summary _ _ _ _ _ _ _ Hcontract Hone).
  - unfold Cursor_FetchMany.
    destruct (decide (count < 0)); [rewrite run_panic; discriminate |].
    cbv zeta. rewrite run_bind.
    match goal with
    | |- context [FetchMany_loop ?fuel ?n ?l ?d ?e0 c e] =>
      destruct (FetchMany_loop fuel n l d e0 c e)
        as [[[[[[c1 d1] l1] err1] | reason] e1] t1] eqn:Hloop
    end; cbv beta iota; [| discriminate].
    assert (Hsummary := FetchMany_loop_summary _ Hcontract _ _ _ _ _ _ _ _ _ _ _ _ Hloop).
    repeat (match goal with |- context [decide ?P] => destruct (decide P) end);
      rewrite !run_ret, !app_nil_r; intros Hrun; inversion Hrun; subst; exact Hsummary.
  - unfold Cursor_FetchAll. rewrite run_bind.
    destruct (FetchAll_loop fuel [] c e)
      as [[[[[[c1 v1] err1] |] | reason] e1] t1] eqn:Hloop;
      cbv beta iota; try (rewrite ?run_ret; discriminate).
    assert (Hsummary := FetchAll_loop_summary _ Hcontract _ _ _ _ _ _ _ _ Hloop).
    destruct (decide (0 < length v1)%nat);
      rewrite !run_ret, !app_nil_r; intros Hrun; inversion Hrun; subst; exact Hsummary.
Qed.

(** *** Executing steps the statement executed and no other *)

Lemma steps_only_mono (o o' : option Handle) (t : list Event) :
  (∀ h, o = Some h → o' = Some h) → steps_only o t → steps_only o' t.
Proof.
  intros Hmono Ht. eapply Forall_impl; [exact Ht |]. cbn. intros ev Hev h Hh. auto.
Qed.

(** The loop over the parameters never steps a statement. *)
Lemma bind_parameters_never_steps (self : Connection) (s : Statement) (pa : list Value) :
  ∀ (k : Z) (e e' : E) r (t : list Event),
    bind_parameters self s k pa e = (r, e', t) → steps_only None t.
Proof.
  induction pa as [| v pa IH]; intros k e e' r t; cbn [bind_parameters].
  - rewrite run_ret. intros Hrun. inversion Hrun. constructor.
  - destruct v as [q |]; cbn [StringValue_Get];
      [| rewrite run_bind, run_panic; intros Hrun; inversion Hrun; constructor].
    unfold C_wsq_bind_text. run.
    + rewrite run_Connection_error. run.
      match goal with
      | |- context [Statement_clear s ?e4] =>
        destruct (Statement_clear_calls_only s e4) as (dropped & e5 & t5 & Hclear & _ & Honly)
      end.
      run. intros Hrun. inversion Hrun; subst. own_steps.
      unfold clearing in *. own_steps.
    + destruct (bind_parameters self s (k + 1) pa e0) as [[r2 e2] t2] eqn:Hrest.
      apply IH in Hrest.
      destruct r2; intros Hrun; inversion Hrun; subst; own_steps.
Qed.

(** [ExecuteClassic] steps the statement it is given and no other. *)
Lemma ExecuteClassic_steps_own_statement
      (self : Connection) (s : Statement) (parameters : list Value) (e e' : E) r
      (t : list Event) :
  Connection_ExecuteClassic self (sqlite3_Statement s) parameters e = (r, e', t) →
  steps_only (Some (Statement_handle s)) t.
Proof.
  unfold Connection_ExecuteClassic, C_sqlite3_bind_parameter_count, C_sqlite3_step.
  run.
  - intros Hrun. inversion Hrun; subst. own_steps.
  - destruct (bind_parameters self s 0 parameters e0) as [[[failed | reason] e1] t1] eqn:Hbind;
      apply bind_parameters_never_steps in Hbind;
      apply (steps_only_mono _ (Some (Statement_handle s))) in Hbind; try discriminate.
    + destruct failed as [err |].
      * run. intros Hrun. inversion Hrun; subst. own_steps.
      * run; try rewrite run_Connection_error; run;
          match goal with
          | |- context [Statement_clear s ?e4] =>
            destruct (Statement_clear_calls_only s e4)
              as (dropped & e5 & t5 & Hclear & _ & Honly)
          | _ => idtac
          end; run; intros Hrun; inversion Hrun; subst; unfold clearing in *; own_steps.
    + intros Hrun. inversion Hrun; subst. own_steps.
Qed.

(** *** One operation of a program *)

(** What one operation does to what the program holds: everything held
    stays at its position and on its statement, nothing but the target of
    the operation changes, what is held anew has its flag true, and the
    calls step the statement of the operation only. *)
Lemma run_operation_effect (op : Operation) (items items' : list Held) (e e' : E)
      (t : list Event) :
  resets_after_done →
  run_operation op items e = (Ret (Some items'), e', t) →
  steps_only (operation_statement items op) t ∧
  (∀ j x, items !! j = Some x →
     ∃ x', items' !! j = Some x' ∧
           held_statement x' = held_statement x ∧
           (target op ≠ Some j → x' = x) ∧
           (target op = Some j →
            fetch_summary (held_statement x) (held_flag x) (held_flag x') t)) ∧
  (∀ j x', items' !! j = Some x' → items !! j = None → held_flag x' = true).
Proof.
  intros Hcontract.
  assert (Hsame : ∀ t0, run_operation op items e = (Ret (Some items), e', t0) →
                        t = t0 → t0 = [] →
                        items' = items →
                        steps_only (operation_statement items op) t ∧
                        (∀ j x, items !! j = Some x →
                           ∃ x', items' !! j = Some x' ∧
                                 held_statement x' = held_statement x ∧
                                 (target op ≠ Some j → x' = x) ∧
                                 (target op = Some j →
                                  fetch_summary (held_statement x) (held_flag x)
                                                (held_flag x') t)) ∧
                        (∀ j x', items' !! j = Some x' → items !! j = None →
                                 held_flag x' = true)).
  { intros t0 _ -> -> ->. split; [constructor |]. split.
    - intros j x Hj. exists x. split; [exact Hj |]. split; [reflexivity |].
      split; [reflexivity |]. intros _. apply fetch_summary_nothing.
    - intros j x' Hj Hnone. congruence. }
  destruct op as [self statement parameters | i | i cop]; cbn [run_operation].
  - (* ExecuteClassic *)
    rewrite run_bind.
    destruct (Connection_ExecuteClassic self statement parameters e)
      as [[[[rset err] | reason] e1] t1] eqn:Hexec; cbv beta iota; [| discriminate].
    assert (Hsteps : steps_only
                       (operation_statement items (DoExecuteClassic self statement parameters))
                       t1).
    { destruct statement as [s |]; cbn [operation_statement].
      - exact (ExecuteClassic_steps_own_statement _ _ _ _ _ _ _ Hexec).
      - cbn in Hexec. rewrite run_ret in Hexec. inversion Hexec. constructor. }
    destruct rset as [rs |]; rewrite run_ret, app_nil_r; intros Hrun; inversion Hrun; subst.
    + split; [exact Hsteps |]. split.
      * intros j x Hj. exists x. split; [apply lookup_app_l_Some; exact Hj |].
        split; [reflexivity |]. split; [reflexivity |]. cbn. discriminate.
      * intros j x' Hj Hnone.
        apply lookup_ge_None in Hnone.
        rewrite lookup_app_r in Hj by exact Hnone.
        destruct (j - length items)%nat; [| discriminate Hj].
        cbn in Hj. inversion Hj; subst x'.
        destruct statement as [s |].
        -- apply ExecuteClassic_result_set in Hexec. subst rs. reflexivity.
        -- cbn in Hexec. rewrite run_ret in Hexec. discriminate.
    + split; [exact Hsteps |]. split.
      * intros j x Hj. exists x. split; [exact Hj |].
        split; [reflexivity |]. split; [reflexivity |]. cbn. discriminate.
      * intros j x' Hj Hnone. congruence.
  - (* Fetch *)
    destruct (items !! i) as [[c | rs] |] eqn:Hi;
      try (rewrite run_ret; intros Hrun; inversion Hrun; subst;
           eapply Hsame; cbn [run_operation]; rewrite ?Hi; reflexivity).
    rewrite run_bind.
    destruct (ClassicResultSet_Fetch rs e) as [[[[rs1 res] | reason] e1] t1] eqn:Hfetch;
      cbv beta iota; [| discriminate].
    rewrite run_ret, app_nil_r. intros Hrun. inversion Hrun; subst.
    destruct (Fetch_summary _ _ _ _ _ _ Hcontract Hfetch) as [Hstmt Hsummary].
    split; [cbn [operation_statement]; rewrite Hi; exact (proj1 Hsummary) |]. split.
    + intros j x Hj. destruct (decide (j = i)) as [-> | Hne].
      * rewrite Hi in Hj. inversion Hj; subst x.
        exists (HeldResultSet rs1).
        split; [apply list_lookup_insert_eq; eapply lookup_lt_Some; exact Hi |].
        cbn [held_statement held_flag]. rewrite Hstmt.
        split; [reflexivity |]. split; [cbn; congruence |]. intros _. exact Hsummary.
      * exists x. split; [rewrite list_lookup_insert_ne by congruence; exact Hj |].
        split; [reflexivity |]. split; [reflexivity |]. cbn. congruence.
    + intros j x' Hj Hnone. apply lookup_ge_None in Hnone.
      apply lookup_lt_Some in Hj. rewrite length_insert in Hj. lia.
  - (* a fetch operation of a cursor *)
    destruct (items !! i) as [[c | rs] |] eqn:Hi;
      try (rewrite run_ret; intros Hrun; inversion Hrun; subst;
           eapply Hsame; cbn [run_operation]; rewrite ?Hi; reflexivity).
    rewrite run_bind.
    destruct (run_op cop c e) as [[[[c1 |] | reason] e1] t1] eqn:Hop;
      cbv beta iota; try (rewrite ?run_ret; discriminate).
    rewrite run_ret, app_nil_r. intros Hrun. inversion Hrun; subst.
    destruct (run_op_summary _ _ _ _ _ _ Hcontract Hop) as [Hstmt Hsummary].
    split; [cbn [operation_statement]; rewrite Hi; exact (proj1 Hsummary) |]. split.
    + intros j x Hj. destruct (decide (j = i)) as [-> | Hne].
      * rewrite Hi in Hj. inversion Hj; subst x.
        exists (HeldCursor c1).
        split; [apply list_lookup_insert_eq; eapply lookup_lt_Some; exact Hi |].
        cbn [held_statement held_flag]. rewrite Hstmt.
        split; [reflexivity |]. split; [cbn; congruence |]. intros _. exact Hsummary.
      * exists x. split; [rewrite list_lookup_insert_ne by congruence; exact Hj |].
        split; [reflexivity |]. split; [reflexivity |]. cbn. congruence.
    + intros j x' Hj Hnone. apply lookup_ge_None in Hnone.
      apply lookup_lt_Some in Hj. rewrite length_insert in Hj. lia.
Qed.

(** *** Every run of a program *)

Lemma run_invariant_initial (r : Run E) :
  history r = [] →
  Forall (λ x, held_flag x = true) (held r) →
  run_invariant r.
Proof.
  intros Hhistory Hlive. split.
  - intros i x Hi Hfalse. rewrite Forall_lookup in Hlive.
    specialize (Hlive i x Hi). congruence.
  - rewrite Hhistory. constructor.
Qed.

Lemma run_invariant_step (op : Operation) (r : Run E) (items' : list Held) (e' : E)
      (t : list Event) :
  resets_after_done →
  run_invariant r →
  run_operation op (held r) (engine r) = (Ret (Some items'), e', t) →
  run_invariant {| held := items'; engine := e'; history := history r ++ [(op, t)] |}.
Proof.
  intros Hcontract [Hexhausted Hsteps] Hrun.
  destruct (run_operation_effect _ _ _ _ _ _ Hcontract Hrun) as (Hown & Hkept & Hnew).
  split; cbn [held history].
  - intros i x' Hi Hfalse.
    destruct (held r !! i) as [x |] eqn:Hold.
    + destruct (Hkept i x Hold) as (x'' & Hi' & Hstmt & Hother & Htarget).
      rewrite Hi in Hi'. inversion Hi'; subst x''. rewrite Hstmt.
      destruct (decide (target op = Some i)) as [Ht | Ht].
      * destruct (Htarget Ht) as (_ & Hstays & Hturns).
        destruct (held_flag x) eqn:Hflag.
        -- exists (history r), op, t, []. split; [reflexivity |].
           split; [exact Ht |].
           split; [apply Hturns; [reflexivity | exact Hfalse] | constructor].
        -- destruct (Hstays eq_refl) as [_ ->].
           destruct (Hexhausted i x Hold Hflag)
             as (earlier & op0 & t0 & later & Hhist & Ht0 & Hends & Hlater).
           exists earlier, op0, t0, (later ++ [(op, [])]).
           split; [rewrite Hhist, <- app_assoc; reflexivity |].
           split; [exact Ht0 |]. split; [exact Hends |].
           apply Forall_app. split; [exact Hlater |]. repeat constructor.
      * specialize (Hother Ht). subst x'.
        destruct (Hexhausted i x Hold Hfalse)
          as (earlier & op0 & t0 & later & Hhist & Ht0 & Hends & Hlater).
        exists earlier, op0, t0, (later ++ [(op, t)]).
        split; [rewrite Hhist, <- app_assoc; reflexivity |].
        split; [exact Ht0 |]. split; [exact Hends |].
        apply Forall_app. split; [exact Hlater |].
        constructor; [| constructor]. cbn. intros; contradiction.
    + specialize (Hnew i x' Hi Hold). congruence.
  - assert (Hmono : ∀ op0 h, operation_statement (held r) op0 = Some h →
                             operation_statement items' op0 = Some h).
    { intros op0 h.
      destruct op0 as [self st ps | j | j cop]; cbn [operation_statement]; [tauto | |].
      all: destruct (held r !! j) as [x |] eqn:Hj; cbn; [| discriminate].
      all: destruct (Hkept j x Hj) as (x' & -> & <- & _); cbn; tauto. }
    apply Forall_app. split.
    + eapply Forall_impl; [exact Hsteps |]. intros [op0 t0]. cbn.
      apply steps_only_mono. apply Hmono.
    + constructor; [| constructor]. cbn.
      eapply steps_only_mono; [apply Hmono | exact Hown].
Qed.

Lemma run_program_invariant (ops : list Operation) :
  resets_after_done →
  ∀ r r', run_invariant r → run_program ops r = Some r' → run_invariant r'.
Proof.
  intros Hcontract. induction ops as [| op ops IH]; intros r r' Hinv; cbn [run_program].
  - intros Hrun. inversion Hrun; subst. exact Hinv.
  - destruct (run_operation op (held r) (engine r))
      as [[[[items' |] | reason] e'] t] eqn:Hop; try discriminate.
    apply IH. exact (run_invariant_step _ _ _ _ _ Hcontract Hinv Hop).
Qed.

(** A statement that was cleared when a cursor or result set on it was
    exhausted is still cleared, with no step since, if no later operation
    executed it again or fetched from it through another cursor or result
    set. *)
Lemma exhausted_stays_cleared (r : Run E) (i : nat) (stmt : Handle)
      (earlier later : list (Operation * list Event)) (op : Operation) (t : list Event) :
  run_invariant r →
  history r = earlier ++ (op, t) :: later →
  exhausted_by i stmt op t later →
  not_reused (held r) i stmt later →
  cleared_since_last_step stmt (calls r).
Proof.
  intros [_ Hsteps] Hhist (Ht & (before & rc & rest & -> & Hrest) & Hquiet) Hnot.
  unfold calls. rewrite Hhist, fmap_app, fmap_cons, join_app. cbn [snd mjoin list_join].
  exists (mjoin (snd <$> earlier) ++ before ++ [Ev (sqlite3_step stmt) (RInt StatusDone)]),
         (Ev (sqlite3_reset stmt) (RInt StatusOk)
             :: Ev (sqlite3_clear_bindings stmt) (RInt rc)
             :: rest ++ mjoin (snd <$> later)).
  split.
  - rewrite <- !app_assoc. cbn [app]. reflexivity.
  - exists StatusOk, (Ev (sqlite3_clear_bindings stmt) (RInt rc)
                         :: rest ++ mjoin (snd <$> later)).
    split; [reflexivity |]. split; [intros _; eauto |].
    constructor; [discriminate |]. apply Forall_app. split.
    + eapply Forall_impl; [exact Hrest |].
      intros ev (db & [Hev | Hev]); rewrite Hev; discriminate.
    + apply Forall_forall. intros ev Hin Hstep.
      apply list_elem_of_join in Hin as (l & Hin & Hl).
      apply list_elem_of_fmap in Hl as ([op1 t1] & -> & Hentry). cbn [snd] in Hin.
      rewrite Hhist in Hsteps. apply Forall_app in Hsteps as [_ Hsteps].
      apply Forall_cons in Hsteps as [_ Hsteps].
      rewrite Forall_forall in Hsteps. specialize (Hsteps _ Hentry). cbn [fst snd] in Hsteps.
      unfold steps_only in Hsteps. rewrite Forall_forall in Hsteps.
      specialize (Hsteps ev Hin stmt Hstep).
      unfold not_reused in Hnot. rewrite Forall_forall in Hnot.
      specialize (Hnot _ Hentry Hsteps). cbn [fst] in Hnot.
      rewrite Forall_forall in Hquiet. specialize (Hquiet _ Hentry Hnot). cbn [snd] in Hquiet.
      subst t1. apply elem_of_nil in Hin. exact Hin.
Qed.

(** On a cursor or result set whose flag is false no operation makes a C
    call or changes the engine. *)
Lemma run_operation_exhausted (op : Operation) (items : list Held) (e : E)
      (i : nat) (x : Held) :
  target op = Some i →
  items !! i = Some x →
  held_flag x = false →
  events (run_operation op items e) = [] ∧ (run_operation op items e).1.2 = e.
Proof.
  intros Htarget Hi Hspent.
  destruct op as [self statement parameters | j | j cop]; cbn in Htarget;
    [discriminate | |]; inversion Htarget; subst j; cbn [run_operation]; rewrite Hi.
  - destruct x as [c | rs]; [split; reflexivity |]. cbn in Hspent.
    unfold ClassicResultSet_Fetch. rewrite Hspent. split; reflexivity.
  - destruct x as [c | rs]; [| split; reflexivity]. cbn in Hspent.
    destruct (run_op_exhausted cop c e Hspent) as [Hnone Hsame].
    unfold events in *. rewrite run_bind.
    destruct (run_op cop c e) as [[[[c1 |] | reason] e1] t1]; cbn in *; subst;
      split; reflexivity.
Qed.

(** C2, for every sequence of [ExecuteClassic] and fetch operations on any
    number of statements, cursors and result sets, on an engine whose reset
    succeeds after a step that answered done.  Whenever the flag of a
    cursor or result set is false, one operation on it made the step that
    answered done and right after it reset the statement, with success,
    and cleared its bindings; no later operation on it made a C call; and
    the statement is still as that operation left it, with no step since,
    unless a later operation executed the statement again or fetched from
    it through another cursor or result set.  No operation on a cursor or
    result set whose flag is false makes a C call or changes the engine. *)
Theorem exhausted_means_cleared_until_reused
        (ops : list Operation) (start finish : Run E) :
  resets_after_done →
  history start = [] →
  Forall (λ x, held_flag x = true) (held start) →
  run_program ops start = Some finish →
  (∀ i x,
      held finish !! i = Some x →
      held_flag x = false →
      ∃ earlier op t later,
        history finish = earlier ++ (op, t) :: later ∧
        target op = Some i ∧
        ends_cleared (held_statement x) t ∧
        Forall (λ entry, target entry.1 = Some i → entry.2 = []) later ∧
        (not_reused (held finish) i (held_statement x) later →
         cleared_since_last_step (held_statement x) (calls finish))) ∧
  (∀ op i x (e : E),
      target op = Some i →
      held finish !! i = Some x →
      held_flag x = false →
      events (run_operation op (held finish) e) = [] ∧
      (run_operation op (held finish) e).1.2 = e).
Proof.
  intros Hcontract Hhistory Hlive Hrun.
  assert (Hinv : run_invariant finish).
  { eapply run_program_invariant; [exact Hcontract | | exact Hrun].
    apply run_invariant_initial; assumption. }
  split.
  - intros i x Hi Hspent.
    destruct (proj1 Hinv i x Hi Hspent) as (earlier & op & t & later & Hhist & Hby).
    exists earlier, op, t, later. split; [exact Hhist |].
    destruct Hby as (Ht & Hends & Hquiet).
    split; [exact Ht |]. split; [exact Hends |]. split; [exact Hquiet |].
    intros Hnot. eapply exhausted_stays_cleared; [exact Hinv | exact Hhist | | exact Hnot].
    split; [exact Ht |]. split; [exact Hends | exact Hquiet].
  - intros op i x e. apply run_operation_exhausted.
Qed.

(** * Further properties of the driver *)

(** ** Connection strings *)

Lemma length_zero_empty (s : string) : String.length s = 0%nat ↔ s = "".
Proof. destruct s; cbn; split; intros Hs; congruence. Qed.

(** A connection string is accepted only if, once split by
    [http.ParseURL], its scheme is empty or "sqlite3" and its path is not
    empty; the database name is then the path, and without a query string
    the flags are 0 and there is no vfs. *)
Theorem parseConnInfo_accepts_only_sqlite3_paths
        (str name : string) (url : URL) (parsed : option Error) (flags : Z)
        (vfs : option string) :
  http_ParseURL str = (url, parsed) →
  parseConnInfo str = (name, flags, vfs, None) →
  parsed = None ∧
  (Scheme url = "" ∨ Scheme url = "sqlite3") ∧
  Path url ≠ "" ∧
  name = Path url ∧
  (RawQuery url = "" → flags = 0 ∧ vfs = None).
Proof.
  intros Hurl. unfold parseConnInfo. rewrite Hurl.
  destruct parsed as [err |]; [discriminate |].
  destruct (bool_decide (0 < String.length (Scheme url))%nat) eqn:Hscheme;
    [destruct (bool_decide (Scheme url ≠ "sqlite3")) eqn:Hsqlite |]; cbn [andb].
  - discriminate.
  - apply bool_decide_eq_false in Hsqlite.
    assert (Hname : Scheme url = "sqlite3")
      by (destruct (decide (Scheme url = "sqlite3")); [assumption | contradiction]).
    destruct (decide (String.length (Path url) = 0)%nat) as [Hpath | Hpath];
      [discriminate |].
    rewrite length_zero_empty in Hpath.
    destruct (decide (0 < String.length (RawQuery url))%nat) as [Hquery | Hquery].
    + destruct (db_ParseQueryURL (RawQuery url)) as [options [e |]]; [discriminate |].
      destruct (options !! "flags") as [rflags |].
      * destruct (strconv_Atoi rflags) as [f [err |]]; [discriminate |].
        intros Hok. inversion Hok; subst.
        split; [reflexivity |]. split; [auto |]. split; [assumption |].
        split; [reflexivity |].
        intros Hempty; rewrite Hempty in Hquery; cbn in Hquery; lia.
      * intros Hok. inversion Hok; subst.
        split; [reflexivity |]. split; [auto |]. split; [assumption |].
        split; [reflexivity |].
        intros Hempty; rewrite Hempty in Hquery; cbn in Hquery; lia.
    + intros Hok. inversion Hok; subst.
      split; [reflexivity |]. split; [auto |]. split; [assumption |].
      split; [reflexivity |]. auto.
  - apply bool_decide_eq_false in Hscheme.
    assert (Hname : Scheme url = "") by (apply length_zero_empty; lia).
    destruct (decide (String.length (Path url) = 0)%nat) as [Hpath | Hpath];
      [discriminate |].
    rewrite length_zero_empty in Hpath.
    destruct (decide (0 < String.length (RawQuery url))%nat) as [Hquery | Hquery].
    + destruct (db_ParseQueryURL (RawQuery url)) as [options [e |]]; [discriminate |].
      destruct (options !! "flags") as [rflags |].
      * destruct (strconv_Atoi rflags) as [f [err |]]; [discriminate |].
        intros Hok. inversion Hok; subst.
        split; [reflexivity |]. split; [auto |]. split; [assumption |].
        split; [reflexivity |].
        intros Hempty; rewrite Hempty in Hquery; cbn in Hquery; lia.
      * intros Hok. inversion Hok; subst.
        split; [reflexivity |]. split; [auto |]. split; [assumption |].
        split; [reflexivity |].
        intros Hempty; rewrite Hempty in Hquery; cbn in Hquery; lia.
    + intros Hok. inversion Hok; subst.
      split; [reflexivity |]. split; [auto |]. split; [assumption |].
      split; [reflexivity |]. auto.
Qed.

(** A scheme other than "sqlite3", or an empty path, makes [open] fail with
    a driver error before any C call; the scheme is tested first. *)
Theorem open_rejects_url_before_any_call (str : string) (url : URL) (e : E) :
  http_ParseURL str = (url, None) →
  (Scheme url ≠ "" → Scheme url ≠ "sqlite3" →
   open str e =
   (Ret (None, Some (DriverError ("Open: unknown scheme " +:+ Scheme url
                                    +:+ " expected sqlite3"))), e, [])) ∧
  (Scheme url = "" ∨ Scheme url = "sqlite3" → Path url = "" →
   open str e =
   (Ret (None, Some (DriverError "Open: no path or database name")), e, [])).
Proof.
  intros Hurl. split.
  - intros Hscheme Hsqlite. unfold open, parseConnInfo. rewrite Hurl.
    rewrite bool_decide_eq_true_2, bool_decide_eq_true_2; [reflexivity | assumption |].
    destruct (Scheme url); [contradiction | cbn; lia].
  - intros Hscheme Hpath. unfold open, parseConnInfo. rewrite Hurl.
    assert (Htest : bool_decide (0 < String.length (Scheme url))%nat
                    && bool_decide (Scheme url ≠ "sqlite3") = false).
    { destruct Hscheme as [-> | ->]; [reflexivity |].
      rewrite (bool_decide_eq_false_2 ("sqlite3" ≠ "sqlite3")) by tauto.
      apply andb_false_r. }
    rewrite Htest, Hpath. reflexivity.
Qed.

(** Without a query string the engine's open call gets the full-mutex bit
    and nothing else (no read, write or create bit), and a null vfs. *)
Theorem open_without_query_passes_full_mutex_only (str : string) (url : URL) (e : E) :
  http_ParseURL str = (url, None) →
  Scheme url = "" ∨ Scheme url = "sqlite3" →
  Path url ≠ "" →
  RawQuery url = "" →
  ∃ answer rest,
    events (open str e) =
    Ev (sqlite3_open_v2 (Path url) OpenFullMutex None) answer :: rest.
Proof.
  intros Hurl Hscheme Hpath Hquery.
  assert (Hparse : parseConnInfo str = (Path url, 0, None, None)).
  { unfold parseConnInfo. rewrite Hurl.
    assert (Htest : bool_decide (0 < String.length (Scheme url))%nat
                    && bool_decide (Scheme url ≠ "sqlite3") = false).
    { destruct Hscheme as [-> | ->]; [reflexivity |].
      rewrite (bool_decide_eq_false_2 ("sqlite3" ≠ "sqlite3")) by tauto.
      apply andb_false_r. }
    rewrite Htest.
    destruct (decide (String.length (Path url) = 0)%nat) as [Hlen | _];
      [apply length_zero_empty in Hlen; contradiction |].
    rewrite Hquery. reflexivity. }
  unfold open. rewrite Hparse. unfold events, C_sqlite3_open_v2.
  rewrite run_bind, run_call.
  change (C_int (Z.lor (Z.ldiff 0 OpenNoMutex) OpenFullMutex)) with OpenFullMutex.
  destruct (e_open_v2 (Path url) OpenFullMutex None e) as [[h rc] e1]. cbn [fst snd].
  match goal with |- context [let '(_, _) := ?x in _] => destruct x as [[r e2] t2] end.
  cbn. eauto.
Qed.

(** The flags handed to the engine agree with the caller's on every bit
    of the 32 except the two mutex bits. *)
Theorem open_keeps_other_flag_bits
        (url name : string) (flags : Z) (vfs : option string) (e : E) :
  parseConnInfo url = (name, flags, vfs, None) →
  ∃ passed answer rest,
    events (open url e) = Ev (sqlite3_open_v2 name passed vfs) answer :: rest ∧
    ∀ i, 0 ≤ i < 32 → i ≠ 15 → i ≠ 16 → Z.testbit passed i = Z.testbit flags i.
Proof.
  intros Hparse. unfold open. rewrite Hparse. unfold events, C_sqlite3_open_v2.
  rewrite run_bind, run_call.
  destruct (e_open_v2 name (C_int (Z.lor (Z.ldiff flags OpenNoMutex) OpenFullMutex)) vfs e)
    as [[h rc] e1]. cbn [fst snd].
  match goal with |- context [let '(_, _) := ?x in _] => destruct x as [[r e2] t2] end.
  cbn. eexists _, _, _. split; [reflexivity |].
  intros i Hi H15 H16. rewrite C_int_low_bits by assumption.
  unfold OpenNoMutex, OpenFullMutex.
  change 0x00008000 with (2 ^ 15). change 0x00010000 with (2 ^ 16).
  rewrite Z.lor_spec, Z.ldiff_spec, !Z.pow2_bits_eqb by lia.
  destruct (Z.eqb_spec 15 i); [lia |]. destruct (Z.eqb_spec 16 i); [lia |].
  cbn. rewrite andb_true_r, orb_false_r. reflexivity.
Qed.

(** When the three calls succeed, [open] returns the connection on the
    handle stored by the engine, after setting the busy timeout of 16000
    milliseconds and switching on extended result codes, in that order; it
    makes no other call. *)
Theorem open_success_sets_timeout_then_extended_codes
        (url name : string) (flags : Z) (vfs : option string) (e e1 e2 e3 : E)
        (h : Handle) :
  let passed := C_int (Z.lor (Z.ldiff flags OpenNoMutex) OpenFullMutex) in
  parseConnInfo url = (name, flags, vfs, None) →
  e_open_v2 name passed vfs e = ((h, StatusOk), e1) →
  e_busy_timeout h 16000 e1 = (StatusOk, e2) →
  e_extended_result_codes h 1 e2 = (StatusOk, e3) →
  open url e =
  (Ret (Some {| Connection_handle := h |}, None), e3,
   [Ev (sqlite3_open_v2 name passed vfs) (RHandle h StatusOk);
    Ev (sqlite3_busy_timeout h 16000) (RInt StatusOk);
    Ev (sqlite3_extended_result_codes h 1) (RInt StatusOk)]).
Proof.
  intros passed Hparse Hopen Hbusy Hextended.
  unfold open. rewrite Hparse. fold passed.
  unfold C_sqlite3_open_v2, C_sqlite3_busy_timeout, C_sqlite3_extended_result_codes.
  change defaultTimeoutMilliseconds with 16000. change (C_int 1) with 1.
  run. reflexivity.
Qed.

(** When the engine's open call fails and stores no handle, [open] reads the
    error and returns it; nothing is closed. *)
Theorem open_failure_without_handle_closes_nothing
        (url name : string) (flags : Z) (vfs : option string) (e e1 : E) (rc : Z) :
  let passed := C_int (Z.lor (Z.ldiff flags OpenNoMutex) OpenFullMutex) in
  let conn := {| Connection_handle := nil_handle |} in
  parseConnInfo url = (name, flags, vfs, None) →
  e_open_v2 name passed vfs e = ((nil_handle, rc), e1) →
  rc ≠ StatusOk →
  ∀ primary e2 t2,
    Connection_error conn e1 = (Ret primary, e2, t2) →
    open url e =
    (Ret (None, Some primary), e2,
     Ev (sqlite3_open_v2 name passed vfs) (RHandle nil_handle rc) :: t2) ∧
    Forall (λ ev, ∀ db, ev_call ev ≠ sqlite3_close db) (events (open url e)).
Proof.
  intros passed conn Hparse Hopen Hrc primary e2 t2 Herror.
  assert (Hrun : open url e =
                 (Ret (None, Some primary), e2,
                  Ev (sqlite3_open_v2 name passed vfs) (RHandle nil_handle rc) :: t2)).
  { unfold open. rewrite Hparse. fold passed. unfold C_sqlite3_open_v2.
    run. fold conn. run. rewrite app_nil_r. reflexivity. }
  split; [exact Hrun |]. rewrite Hrun. unfold events. cbn [snd].
  rewrite run_Connection_error in Herror. cbv zeta in Herror.
  inversion Herror; subst. repeat constructor; intros db; discriminate.
Qed.

(** ** Preparing *)

(** [Prepare] returns a statement on the handle stored by the engine and
    linked to its connection exactly when the engine answers [StatusOk]; it
    then makes no other call.  When the engine fails and stores no handle,
    the error is read and returned and nothing is finalized. *)
Theorem Prepare_finalizes_only_a_failed_handle
        (self : Connection) (query : string) (e e1 : E) (h : Handle) (rc : Z) :
  e_prepare_v2 (Connection_handle self) query e = ((h, rc), e1) →
  (rc = StatusOk →
   Connection_Prepare self query e =
   (Ret (Some {| Statement_handle := h; Statement_connection := self |}, None), e1,
    [Ev (sqlite3_prepare_v2 (Connection_handle self) query) (RHandle h rc)])) ∧
  (rc ≠ StatusOk → h = nil_handle →
   ∀ primary e2 t2,
     Connection_error self e1 = (Ret primary, e2, t2) →
     Connection_Prepare self query e =
     (Ret (None, Some primary), e2,
      Ev (sqlite3_prepare_v2 (Connection_handle self) query) (RHandle h rc) :: t2)).
Proof.
  intros Hprepare. split.
  - intros ->. unfold Connection_Prepare, C_sqlite3_prepare_v2. run. reflexivity.
  - intros Hrc -> primary e2 t2 Herror.
    unfold Connection_Prepare, C_sqlite3_prepare_v2. run.
    rewrite !app_nil_r. reflexivity.
Qed.

(** ** Clearing *)

(** [Statement.clear] returns no error exactly when [sqlite3_reset] and then
    [sqlite3_clear_bindings] both answer [StatusOk]; any error it returns is
    an engine error whose basic code is the low byte of its extended
    code. *)
Theorem clear_succeeds_iff_reset_and_clear_bindings_do
        (self : Statement) (e e1 e2 : E) (rc1 rc2 : Z) :
  e_reset (Statement_handle self) e = (rc1, e1) →
  e_clear_bindings (Statement_handle self) e1 = (rc2, e2) →
  ∃ r e' t,
    Statement_clear self e = (Ret r, e', t) ∧
    (r = None ↔ rc1 = StatusOk ∧ rc2 = StatusOk) ∧
    (∀ err, r = Some err →
            ∃ extended message, err = SystemError (Z.land extended 0xff) extended message).
Proof.
  intros Hreset Hclear.
  unfold Statement_clear, C_sqlite3_reset, C_sqlite3_clear_bindings.
  run; try rewrite run_Connection_error; run.
  all: eexists _, _, _; split; [reflexivity |]; split;
    [ split; [intros Hr; try discriminate; tauto | intros [? ?]; try reflexivity; contradiction]
    | intros err Herr; inversion Herr; eauto ].
Qed.

(** ** Binding parameters *)

Lemma C_int_small (x : Z) : - 2 ^ 31 ≤ x < 2 ^ 31 → C_int x = x.
Proof. intros Hx. unfold C_int. rewrite Z.mod_small by lia. lia. Qed.

(** When every parameter is accepted, the loop has bound the parameters
    in order, one call each, at the slots that follow [k]. *)
Lemma bind_parameters_calls (self : Connection) (s : Statement) (qs : list string) :
  ∀ (k : Z) (e e' : E) (t : list Event),
    bind_parameters self s k (StringValue <$> qs) e = (Ret None, e', t) →
    t = imap (λ i q, Ev (wsq_bind_text (Statement_handle s)
                                       (C_int (k + Z.of_nat i + 1)) q (C_int (-1)))
                        (RInt StatusOk)) qs.
Proof.
  induction qs as [| q qs IH]; intros k e e' t.
  - cbn. rewrite run_ret. intros Hrun. inversion Hrun. reflexivity.
  - rewrite fmap_cons. cbn [bind_parameters StringValue_Get].
    unfold C_wsq_bind_text. run.
    + rewrite run_Connection_error. run.
      destruct (run_Statement_clear s (e_errmsg (Connection_handle self)
                  (e_errcode (Connection_handle self) e0).2).2)
        as (dropped & e4 & t4 & Hclear & _).
      run. discriminate.
    + destruct (bind_parameters self s (k + 1) (StringValue <$> qs) e0)
        as [[[[err |] | reason] e2] t2] eqn:Hrest; try discriminate.
      intros Hrun. inversion Hrun; subst.
      rewrite (IH _ _ _ _ Hrest). rewrite imap_cons. cbn [app].
      assert (Hok : z = StatusOk) by (destruct (decide (z = StatusOk)); tauto).
      subst z. f_equal.
      * do 3 f_equal. lia.
      * apply imap_ext. intros i x _. cbn. do 3 f_equal. lia.
Qed.

(** [ExecuteClassic] binds the parameters in their order of appearance: the
    parameter at position [i] (from 0) goes to slot [i + 1], as a text whose
    length the engine measures (-1); when all are accepted these are the
    only calls between the count and the step. *)
Theorem ExecuteClassic_binds_in_order
        (self : Connection) (s : Statement) (qs : list string) (e e1 e2 : E)
        (t2 : list Event) :
  Z.of_nat (length qs) < 2 ^ 31 →
  e_bind_parameter_count (Statement_handle s) e = (Z.of_nat (length qs), e1) →
  bind_parameters self s 0 (StringValue <$> qs) e1 = (Ret None, e2, t2) →
  ∃ stepped rest,
    events (Connection_ExecuteClassic self (sqlite3_Statement s) (StringValue <$> qs) e) =
    Ev (sqlite3_bind_parameter_count (Statement_handle s)) (RInt (Z.of_nat (length qs)))
       :: imap (λ i q, Ev (wsq_bind_text (Statement_handle s) (Z.of_nat i + 1) q (-1))
                          (RInt StatusOk)) qs
       ++ Ev (sqlite3_step (Statement_handle s)) stepped :: rest.
Proof.
  intros Hfew Hcount Hbind.
  assert (Hcalls := bind_parameters_calls _ _ _ _ _ _ _ Hbind).
  assert (Hsame : t2 = imap (λ i q, Ev (wsq_bind_text (Statement_handle s)
                                                      (Z.of_nat i + 1) q (-1))
                                       (RInt StatusOk)) qs).
  { rewrite Hcalls. apply imap_ext. intros i q Hi.
    apply lookup_lt_Some in Hi. cbn.
    rewrite (C_int_small (0 + Z.of_nat i + 1)) by lia. repeat f_equal; lia. }
  unfold Connection_ExecuteClassic, C_sqlite3_bind_parameter_count, C_sqlite3_step.
  rewrite length_fmap. run_driver; unfold events; cbn [snd app]; rewrite <- Hsame; eauto.
Qed.

(** When the loop accepts a list of parameters, it has accepted the first
    and then the others. *)
Lemma bind_parameters_accepted_first (self : Connection) (s : Statement) (q : string)
      (pa : list Value) (k : Z) (e e2 : E) (t2 : list Event) :
  bind_parameters self s k (StringValue q :: pa) e = (Ret None, e2, t2) →
  ∃ e0 t,
    e_bind_text (Statement_handle s) (C_int (k + 1)) q (C_int (-1)) e = (StatusOk, e0) ∧
    bind_parameters self s (k + 1) pa e0 = (Ret None, e2, t) ∧
    t2 = Ev (wsq_bind_text (Statement_handle s) (C_int (k + 1)) q (C_int (-1)))
            (RInt StatusOk) :: t.
Proof.
  cbn [bind_parameters StringValue_Get]. unfold C_wsq_bind_text. run.
  - rewrite run_Connection_error. run.
    destruct (run_Statement_clear s (e_errmsg (Connection_handle self)
                (e_errcode (Connection_handle self) e0).2).2)
      as (dropped & e4 & t4 & Hclear & _).
    run. discriminate.
  - destruct (bind_parameters self s (k + 1) pa e0)
      as [[[[err |] | reason] e2'] t2'] eqn:Hrest; try discriminate.
    intros Hrun. inversion Hrun; subst.
    assert (Hok : z = StatusOk) by (destruct (decide (z = StatusOk)); tauto).
    subst z. eauto.
Qed.

(** The loop over the parameters when the engine refuses the one that
    follows the strings [qs]: the strings before it are bound, the refused
    bind is the last one, and the loop returns the engine's error after
    [Statement.clear]; what follows in the parameter list is not looked
    at. *)
Lemma bind_parameters_refused (self : Connection) (s : Statement) (qs : list string)
      (q : string) (later : list Value) :
  ∀ (k : Z) (e e2 e3 : E) (t2 : list Event) (rc : Z),
    bind_parameters self s k (StringValue <$> qs) e = (Ret None, e2, t2) →
    e_bind_text (Statement_handle s) (C_int (k + Z.of_nat (length qs) + 1)) q (C_int (-1)) e2
    = (rc, e3) →
    rc ≠ StatusOk →
    ∀ primary e4 t4 dropped e5 t5,
      Connection_error self e3 = (Ret primary, e4, t4) →
      Statement_clear s e4 = (Ret dropped, e5, t5) →
      bind_parameters self s k ((StringValue <$> qs) ++ StringValue q :: later) e =
      (Ret (Some primary), e5,
       t2 ++ Ev (wsq_bind_text (Statement_handle s) (C_int (k + Z.of_nat (length qs) + 1))
                               q (C_int (-1))) (RInt rc) :: t4 ++ t5).
Proof.
  induction qs as [| q0 qs IH];
    intros k e e2 e3 t2 rc Hrun Hbind Hrc primary e4 t4 dropped e5 t5 Herror Hclear.
  - cbn in Hrun. rewrite run_ret in Hrun. inversion Hrun; subst.
    cbn [fmap list_fmap length app bind_parameters StringValue_Get] in *.
    replace (k + Z.of_nat 0 + 1) with (k + 1) in * by lia.
    unfold C_wsq_bind_text. run. rewrite app_nil_r. reflexivity.
  - rewrite fmap_cons in Hrun.
    apply bind_parameters_accepted_first in Hrun as (e0 & t & Hfirst & Hrest & ->).
    cbn [length] in Hbind.
    replace (k + Z.of_nat (S (length qs)) + 1) with (k + 1 + Z.of_nat (length qs) + 1)
      in * by lia.
    pose proof (IH _ _ _ _ _ _ Hrest Hbind Hrc _ _ _ _ _ _ Herror Hclear) as Hloop.
    rewrite fmap_cons. cbn [app length bind_parameters StringValue_Get].
    unfold C_wsq_bind_text. run.
    replace (k + Z.of_nat (S (length qs)) + 1) with (k + 1 + Z.of_nat (length qs) + 1)
      by lia.
    reflexivity.
Qed.

(** When the engine refuses a parameter, [ExecuteClassic] returns that engine
    error and no result set.  The record of its calls is exact: the count,
    one accepted bind for each parameter before the refused one, the refused
    bind, the reading of the error and the calls of [Statement.clear].  So
    the statement has been cleared and was never stepped, and no parameter
    after the refused one is bound, whatever follows it in the list. *)
Theorem ExecuteClassic_bind_failure_clears_and_never_steps
        (self : Connection) (s : Statement) (qs : list string) (q : string)
        (later : list Value) (e e1 e2 e3 : E) (t2 : list Event) (rc : Z) :
  let stmt := Statement_handle s in
  let parameters := (StringValue <$> qs) ++ StringValue q :: later in
  let counted := Ev (sqlite3_bind_parameter_count stmt) (RInt (Z.of_nat (length parameters))) in
  let accepted :=
    imap (λ i q, Ev (wsq_bind_text stmt (C_int (Z.of_nat i + 1)) q (C_int (-1)))
                    (RInt StatusOk)) qs in
  let refused :=
    Ev (wsq_bind_text stmt (C_int (Z.of_nat (length qs) + 1)) q (C_int (-1))) (RInt rc) in
  e_bind_parameter_count stmt e = (Z.of_nat (length parameters), e1) →
  bind_parameters self s 0 (StringValue <$> qs) e1 = (Ret None, e2, t2) →
  e_bind_text stmt (C_int (Z.of_nat (length qs) + 1)) q (C_int (-1)) e2 = (rc, e3) →
  rc ≠ StatusOk →
  ∃ extended message dropped e4 e5 t5,
    Connection_error self e3 =
    (Ret (SystemError (Z.land extended 0xff) extended message), e4,
     [Ev (sqlite3_errcode (Connection_handle self)) (RInt extended);
      Ev (sqlite3_errmsg (Connection_handle self)) (RText message)]) ∧
    Statement_clear s e4 = (Ret dropped, e5, t5) ∧
    Connection_ExecuteClassic self (sqlite3_Statement s) parameters e =
    (Ret (None, Some (SystemError (Z.land extended 0xff) extended message)), e5,
     counted :: accepted ++ refused
       :: Ev (sqlite3_errcode (Connection_handle self)) (RInt extended)
       :: Ev (sqlite3_errmsg (Connection_handle self)) (RText message) :: t5) ∧
    clear_calls stmt t5 ∧
    Forall (λ ev, clearing stmt ev ∨ reads_error ev) t5 ∧
    Forall (λ ev, ∀ i text n, ev_call ev ≠ wsq_bind_text stmt i text n) t5 ∧
    Forall (λ ev, ev_call ev ≠ sqlite3_step stmt)
           (events (Connection_ExecuteClassic self (sqlite3_Statement s) parameters e)).
Proof.
  intros stmt parameters counted accepted refused Hcount Hbind Hrefused Hrc.
  subst stmt parameters counted accepted refused.
  pose proof (run_Connection_error self e3) as Herror. cbv zeta in Herror.
  destruct (e_errcode (Connection_handle self) e3) as [extended e3'] eqn:Hcode.
  cbn [fst snd] in Herror.
  destruct (e_errmsg (Connection_handle self) e3') as [message e4] eqn:Hmsg.
  cbn [fst snd] in Herror.
  destruct (Statement_clear_calls_only s e4) as (dropped & e5 & t5 & Hclear & Hcalls & Honly).
  assert (Haccepted :
            t2 = imap (λ i q, Ev (wsq_bind_text (Statement_handle s) (C_int (Z.of_nat i + 1))
                                                q (C_int (-1))) (RInt StatusOk)) qs).
  { rewrite (bind_parameters_calls _ _ _ _ _ _ _ Hbind). apply imap_ext.
    intros i x _. cbn. do 3 f_equal. }
  assert (Hloop := bind_parameters_refused self s qs q later 0 e1 e2 e3 t2 rc Hbind).
  replace (0 + Z.of_nat (length qs) + 1) with (Z.of_nat (length qs) + 1) in Hloop by lia.
  specialize (Hloop Hrefused Hrc _ _ _ _ _ _ Herror Hclear).
  assert (Hrun :
            Connection_ExecuteClassic self (sqlite3_Statement s)
              ((StringValue <$> qs) ++ StringValue q :: later) e =
            (Ret (None, Some (SystemError (Z.land extended 0xff) extended message)), e5,
             Ev (sqlite3_bind_parameter_count (Statement_handle s))
                (RInt (Z.of_nat (length ((StringValue <$> qs) ++ StringValue q :: later))))
               :: imap (λ i q, Ev (wsq_bind_text (Statement_handle s)
                                                 (C_int (Z.of_nat i + 1)) q (C_int (-1)))
                                  (RInt StatusOk)) qs
               ++ Ev (wsq_bind_text (Statement_handle s) (C_int (Z.of_nat (length qs) + 1))
                                    q (C_int (-1))) (RInt rc)
               :: Ev (sqlite3_errcode (Connection_handle self)) (RInt extended)
               :: Ev (sqlite3_errmsg (Connection_handle self)) (RText message) :: t5)).
  { unfold Connection_ExecuteClassic, C_sqlite3_bind_parameter_count.
    run. rewrite app_nil_r, Haccepted. reflexivity. }
  assert (Hnobind : Forall (λ ev, ∀ i text n,
                              ev_call ev ≠ wsq_bind_text (Statement_handle s) i text n) t5).
  { eapply Forall_impl; [exact Honly |].
    intros ev [[Hev | Hev] | (db & [Hev | Hev])] i text n; rewrite Hev; discriminate. }
  exists extended, message, dropped, e4, e5, t5.
  split; [exact Herror |]. split; [exact Hclear |]. split; [exact Hrun |].
  split; [exact Hcalls |]. split; [exact Honly |]. split; [exact Hnobind |].
  rewrite Hrun. unfold events. cbn [snd].
  constructor; [discriminate |]. apply Forall_app. split.
  - apply Forall_forall. intros ev Hin.
    apply elem_of_lookup_imap_1 in Hin as (i & x & -> & _). discriminate.
  - repeat (constructor; [discriminate |]).
    eapply Forall_impl; [exact Honly |].
    intros ev [[Hev | Hev] | (db & [Hev | Hev])]; rewrite Hev; discriminate.
Qed.

(** A parameter that is not a string makes the loop panic as soon as it is
    reached, with the calls made for the strings before it. *)
Lemma bind_parameters_panics (self : Connection) (s : Statement) (qs : list string)
      (rest : list Value) :
  ∀ (k : Z) (e e' : E) (t : list Event),
    bind_parameters self s k (StringValue <$> qs) e = (Ret None, e', t) →
    bind_parameters self s k ((StringValue <$> qs) ++ OtherValue :: rest) e =
    (Panic "interface conversion: not a *reflect.StringValue", e', t).
Proof.
  induction qs as [| q qs IH]; intros k e e' t.
  - cbn. rewrite run_ret. intros Hrun. inversion Hrun; subst.
    rewrite run_bind, run_panic. reflexivity.
  - rewrite fmap_cons. cbn [app bind_parameters StringValue_Get].
    unfold C_wsq_bind_text. run.
    + rewrite run_Connection_error. run.
      destruct (run_Statement_clear s (e_errmsg (Connection_handle self)
                  (e_errcode (Connection_handle self) e0).2).2)
        as (dropped & e4 & t4 & Hclear & _).
      run. discriminate.
    + destruct (bind_parameters self s (k + 1) (StringValue <$> qs) e0)
        as [[[[err |] | reason] e2] t2] eqn:Hrest; try discriminate.
      intros Hrun. inversion Hrun; subst.
      rewrite (IH _ _ _ _ Hrest). reflexivity.
Qed.

(** A parameter that is not a string makes [ExecuteClassic] panic when the
    loop reaches it: the strings before it have been bound and stay bound,
    since nothing is reset or cleared, and the engine is not stepped. *)
Theorem ExecuteClassic_panics_on_non_string_parameter
        (self : Connection) (s : Statement) (qs : list string) (rest : list Value)
        (e e1 e2 : E) (t2 : list Event) :
  let parameters := (StringValue <$> qs) ++ OtherValue :: rest in
  e_bind_parameter_count (Statement_handle s) e = (Z.of_nat (length parameters), e1) →
  bind_parameters self s 0 (StringValue <$> qs) e1 = (Ret None, e2, t2) →
  Connection_ExecuteClassic self (sqlite3_Statement s) parameters e =
  (Panic "interface conversion: not a *reflect.StringValue", e2,
   Ev (sqlite3_bind_parameter_count (Statement_handle s))
      (RInt (Z.of_nat (length parameters))) :: t2) ∧
  Forall (λ ev, ∃ i q, ev_call ev = wsq_bind_text (Statement_handle s) i q (C_int (-1))) t2.
Proof.
  intros parameters Hcount Hbind. split.
  - pose proof (bind_parameters_panics self s qs rest _ _ _ _ Hbind) as Hpanic.
    fold parameters in Hpanic.
    unfold Connection_ExecuteClassic, C_sqlite3_bind_parameter_count.
    run. reflexivity.
  - rewrite (bind_parameters_calls _ _ _ _ _ _ _ Hbind).
    apply Forall_forall. intros ev Hin.
    apply elem_of_lookup_imap_1 in Hin as (i & q & -> & _). cbn. eauto.
Qed.

(** When the first step answers a status that is neither [StatusRow] nor
    [StatusDone], [ExecuteClassic] reads the engine error right after the
    step, then runs [Statement.clear], and returns that error and no result
    set. *)
Theorem ExecuteClassic_step_error_clears_and_returns_error
        (self : Connection) (s : Statement) (parameters : list Value)
        (e e1 e2 e3 e4 : E) (t2 t4 : list Event) (rc : Z) (primary : Error) :
  e_bind_parameter_count (Statement_handle s) e = (Z.of_nat (length parameters), e1) →
  bind_parameters self s 0 parameters e1 = (Ret None, e2, t2) →
  e_step (Statement_handle s) e2 = (rc, e3) →
  rc ≠ StatusDone →
  rc ≠ StatusRow →
  Connection_error self e3 = (Ret primary, e4, t4) →
  ∃ dropped e5 t5,
    Statement_clear s e4 = (Ret dropped, e5, t5) ∧
    clear_calls (Statement_handle s) t5 ∧
    Connection_ExecuteClassic self (sqlite3_Statement s) parameters e =
    (Ret (None, Some primary), e5,
     Ev (sqlite3_bind_parameter_count (Statement_handle s))
        (RInt (Z.of_nat (length parameters)))
        :: t2 ++ Ev (sqlite3_step (Statement_handle s)) (RInt rc) :: t4 ++ t5).
Proof.
  intros Hcount Hbind Hstep Hdone Hrow Herror.
  destruct (run_Statement_clear s e4) as (dropped & e5 & t5 & Hclear & Hcalls).
  exists dropped, e5, t5. split; [assumption |]. split; [assumption |].
  unfold Connection_ExecuteClassic, C_sqlite3_bind_parameter_count, C_sqlite3_step.
  run; try tauto. same_events.
Qed.

(** ** Reading a row *)

(** The loop over the columns fills the places from [j] on with what the
    engine answers for the columns [j], [j + 1], ... in that order, and
    leaves the places before [j] alone. *)
Lemma column_texts_reads (stmt : Handle) (fuel : nat) :
  ∀ (j : nat) (data row : Row) (e e' : E) (t : list Event),
    length data = (j + fuel)%nat →
    column_texts stmt fuel (Z.of_nat j) data e = (Ret row, e', t) →
    length row = length data ∧
    take j row = take j data ∧
    t = imap (λ k text, Ev (wsq_column_text stmt (C_int (Z.of_nat (j + k)))) (RText text))
             (drop j row).
Proof.
  induction fuel as [| fuel IH]; intros j data row e e' t Hlen; cbn [column_texts].
  - rewrite run_ret. intros Hrun. inversion Hrun; subst.
    rewrite drop_ge by lia. repeat split.
  - unfold C_wsq_column_text. run.
    rewrite Nat2Z.id. replace (Z.of_nat j + 1) with (Z.of_nat (S j)) by lia.
    unfold Row in *.
    destruct (column_texts stmt fuel (Z.of_nat (S j)) (<[j := s]> data) e0)
      as [[[row' | reason] e2] t2] eqn:Hrest; [| discriminate].
    intros Hrun. inversion Hrun; subst.
    assert (Hlen1 : length (<[j := s]> data) = (S j + fuel)%nat)
      by (rewrite length_insert; lia).
    destruct (IH (S j) (<[j := s]> data) row e0 e' t2 Hlen1 Hrest)
      as (Hlen' & Htake & Hcalls).
    rewrite length_insert in Hlen'.
    assert (Hat : row !! j = Some s).
    { rewrite <- (lookup_take_lt row (S j) j) by lia. rewrite Htake.
      rewrite lookup_take_lt by lia. apply list_lookup_insert_eq. lia. }
    split; [exact Hlen' |]. split.
    + rewrite <- (Nat.min_l j (S j)) at 1 by lia. rewrite <- take_take, Htake.
      rewrite take_take, Nat.min_l by lia. apply take_insert_ge. lia.
    + rewrite (drop_S row s j Hat), imap_cons, Hcalls. cbn [app].
      rewrite Nat.add_0_r. f_equal.
      apply imap_ext. intros k x _. cbn. do 3 f_equal. lia.
Qed.

(** While the flag is true and the statement has columns, the row that
    [FetchOne] returns has one text per column, and these are what the
    engine answered for the columns 0, 1, ... in that order, all read before
    the engine is stepped: the row delivered is the one produced by the
    step before. *)
Theorem FetchOne_delivers_the_columns_read_before_the_step
        (c c' : Cursor) (e e1 e' : E) (n : Z) (row : Row) (err : option Error)
        (t : list Event) :
  let stmt := Statement_handle (Cursor_statement c) in
  result c = true →
  e_column_count stmt e = (n, e1) →
  0 < n →
  Cursor_FetchOne c e = (Ret (c', row, err), e', t) →
  length row = Z.to_nat n ∧
  ∃ stepped rest,
    t = Ev (sqlite3_column_count stmt) (RInt n)
           :: imap (λ k text, Ev (wsq_column_text stmt (C_int (Z.of_nat k))) (RText text)) row
           ++ Ev (sqlite3_step stmt) stepped :: rest.
Proof.
  intros stmt Hlive Hcount Hn. unfold Cursor_FetchOne. rewrite Hlive. cbn [negb].
  fold stmt. unfold C_sqlite3_column_count, C_sqlite3_step.
  rewrite run_bind, run_call, Hcount. cbn [fst snd]. cbv beta iota.
  destruct (decide (n ≤ 0)) as [Hle | _]; [exfalso; lia |].
  rewrite run_bind.
  destruct (column_texts stmt (Z.to_nat n) 0 (replicate (Z.to_nat n) "") e1)
    as [[[row0 | reason] e2] reads] eqn:Hreads; [| discriminate].
  destruct (column_texts_reads stmt (Z.to_nat n) 0 _ _ _ _ _
              (length_replicate _ _) Hreads) as (Hlen & _ & Hcalls).
  rewrite length_replicate in Hlen. rewrite drop_0 in Hcalls. cbn [Nat.add] in Hcalls.
  cbv beta iota.
  run_driver; intros Hrun; inversion Hrun; subst;
    (split; [exact Hlen |]); cbn [app]; eauto.
Qed.

(** [FetchOne] after a step: a step that answers [StatusRow] leaves the flag
    true and makes no further call; a step that answers [StatusDone] sets
    the flag to false and runs [Statement.clear], whose error is dropped.
    In both cases the row read before the step is returned with no error:
    the last row comes with the flag already false. *)
Theorem FetchOne_after_row_and_after_done
        (c : Cursor) (e e1 e2 e3 : E) (n rc : Z) (row : Row) (reads : list Event) :
  let stmt := Statement_handle (Cursor_statement c) in
  let before :=
    Ev (sqlite3_column_count stmt) (RInt n)
       :: reads ++ [Ev (sqlite3_step stmt) (RInt rc)] in
  StatusRow ≠ StatusDone →
  result c = true →
  e_column_count stmt e = (n, e1) →
  0 < n →
  column_texts stmt (Z.to_nat n) 0 (replicate (Z.to_nat n) "") e1 = (Ret row, e2, reads) →
  e_step stmt e2 = (rc, e3) →
  (rc = StatusRow → Cursor_FetchOne c e = (Ret (c, row, None), e3, before)) ∧
  (rc = StatusDone →
   ∃ dropped e4 t4,
     Statement_clear (Cursor_statement c) e3 = (Ret dropped, e4, t4) ∧
     clear_calls stmt t4 ∧
     Cursor_FetchOne c e =
     (Ret ({| Cursor_statement := Cursor_statement c;
              Cursor_connection := Cursor_connection c;
              result := false |}, row, None), e4, before ++ t4)).
Proof.
  intros stmt before Hcodes Hlive Hcount Hn Hreads Hstep. subst before. split.
  - intros ->. unfold Cursor_FetchOne, C_sqlite3_column_count, C_sqlite3_step.
    rewrite Hlive. fold stmt. run; tauto.
  - intros ->.
    destruct (run_Statement_clear (Cursor_statement c) e3)
      as (dropped & e4 & t4 & Hclear & Hcalls).
    exists dropped, e4, t4. split; [assumption |]. split; [assumption |].
    unfold Cursor_FetchOne, C_sqlite3_column_count, C_sqlite3_step.
    rewrite Hlive. fold stmt. run; try tauto. same_events.
Qed.

(** The loop of [FetchRow] adds at most one entry per column. *)
Lemma column_entries_size (stmt : Handle) (fuel : nat) :
  ∀ (i : Z) (m m' : gmap string string) (e e' : E) (t : list Event),
    column_entries stmt fuel i m e = (Ret m', e', t) →
    (size m' ≤ size m + fuel)%nat.
Proof.
  induction fuel as [| fuel IH]; intros i m m' e e' t; cbn [column_entries].
  - rewrite run_ret. intros Hrun. inversion Hrun; subst. lia.
  - unfold C_wsq_column_text, C_wsq_column_name. run.
    destruct (column_entries stmt fuel (i + 1) (<[s0 := s]> m) e1)
      as [[[m2 | reason] e2] t2] eqn:Hrest; [| discriminate].
    intros Hrun. inversion Hrun; subst.
    apply IH in Hrest. rewrite map_size_insert in Hrest.
    destruct (m !! s0); cbn in Hrest; lia.
Qed.

(** The map returned by [FetchRow] has at most as many entries as the
    statement has columns: columns that share a name share an entry. *)
Theorem FetchRow_has_at_most_one_entry_per_column
        (c c' : Cursor) (e e1 e' : E) (n : Z) (row : gmap string string)
        (err : option Error) (t : list Event) :
  e_column_count (Statement_handle (Cursor_statement c)) e = (n, e1) →
  Cursor_FetchRow c e = (Ret (c', row, err), e', t) →
  (size row ≤ Z.to_nat n)%nat.
Proof.
  intros Hcount. unfold Cursor_FetchRow.
  destruct (result c); cbn [negb].
  - unfold C_sqlite3_column_count, C_sqlite3_step.
    rewrite run_bind, run_call, Hcount. cbn [fst snd]. cbv beta iota.
    destruct (decide (n ≤ 0)).
    + rewrite run_ret. intros Hrun. inversion Hrun; subst.
      rewrite map_size_empty. lia.
    + rewrite run_bind.
      destruct (column_entries (Statement_handle (Cursor_statement c)) (Z.to_nat n) 0 ∅ e1)
        as [[[m | reason] e2] reads] eqn:Hreads; [| discriminate].
      apply column_entries_size in Hreads. rewrite map_size_empty in Hreads.
      cbv beta iota.
      run_driver; intros Hrun; inversion Hrun; subst; lia.
  - rewrite run_ret. intros Hrun. inversion Hrun; subst. rewrite map_size_empty. lia.
Qed.

(** ** More on FetchMany and FetchAll *)

Lemma fetch_until_error_bounds (n : nat) :
  ∀ (c c' : Cursor) (e e' : E) (rows : list Row) (err : option Error) (t : list Event),
    fetch_until_error n c e = (Ret (c', rows, err), e', t) →
    (length rows ≤ n)%nat ∧ (err = None → length rows = n).
Proof.
  induction n as [| n IH]; intros c c' e e' rows err t; cbn [fetch_until_error].
  - rewrite run_ret. intros Hrun. inversion Hrun; subst. split; [cbn; lia | reflexivity].
  - rewrite run_bind.
    destruct (Cursor_FetchOne c e) as [[[[[c1 row] [err1 |]] | reason] e1] t1];
      cbv beta iota; [| | discriminate].
    + rewrite run_ret. intros Hrun. inversion Hrun; subst.
      split; [cbn; lia | discriminate].
    + rewrite run_bind.
      destruct (fetch_until_error n c1 e1) as [[[[[c2 rows'] err'] | reason] e2] t2] eqn:Hrest;
        cbv beta iota; [| discriminate].
      rewrite run_ret. intros Hrun. inversion Hrun; subst.
      destruct (IH _ _ _ _ _ _ _ Hrest) as [Hle Hfull]. cbn [length].
      split; [lia |]. intros Hnone. rewrite Hfull by assumption. reflexivity.
Qed.

(** [FetchMany(count)] never returns more than [count] rows, never returns
    rows together with an error, and for a positive [count] never returns
    neither rows nor an error. *)
Theorem FetchMany_returns_rows_or_an_error
        (c c' : Cursor) (count : Z) (e e' : E) (rows : list Row) (err : option Error)
        (t : list Event) :
  0 ≤ count →
  Cursor_FetchMany c count e = (Ret (c', rows, err), e', t) →
  (length rows ≤ Z.to_nat count)%nat ∧
  (rows ≠ [] → err = None) ∧
  (rows = [] → 0 < count → err ≠ None).
Proof.
  intros Hcount. rewrite FetchMany_refines by assumption.
  unfold spec_FetchMany. rewrite run_bind.
  destruct (fetch_until_error (Z.to_nat count) c e)
    as [[[[[c1 rows1] err1] | reason] e1] t1] eqn:Hspec; cbv beta iota; [| discriminate].
  destruct (fetch_until_error_bounds _ _ _ _ _ _ _ _ Hspec) as [Hle Hfull].
  destruct rows1 as [| row rows1]; cbn [partial_success]; rewrite run_ret;
    intros Hrun; inversion Hrun; subst.
  - split; [cbn; lia |]. split; [congruence |].
    intros _ Hpos Hnone. apply Hfull in Hnone. cbn in Hnone. lia.
  - split; [exact Hle |]. split; [reflexivity | discriminate].
Qed.

(** When the step of the first [FetchOne] fails, [FetchMany] and [FetchAll]
    return the engine error and no row, although a row was read: the row
    that [FetchOne] hands out together with an error is lost. *)
Theorem FetchMany_FetchAll_lose_the_row_of_a_failed_step
        (c : Cursor) (e e1 : E) (n : Z) :
  let stmt := Statement_handle (Cursor_statement c) in
  result c = true →
  e_column_count stmt e = (n, e1) →
  0 < n →
  ∃ row e2 reads,
    column_texts stmt (Z.to_nat n) 0 (replicate (Z.to_nat n) "") e1 = (Ret row, e2, reads) ∧
    length row = Z.to_nat n ∧
    ∀ rc e3,
      e_step stmt e2 = (rc, e3) → rc ≠ StatusDone → rc ≠ StatusRow →
      ∃ primary,
        (Cursor_FetchOne c e).1.1 = Ret (c, row, Some primary) ∧
        (∀ count, 0 < count → (Cursor_FetchMany c count e).1.1 = Ret (c, [], Some primary)) ∧
        (∀ fuel, (0 < fuel)%nat →
                 (Cursor_FetchAll fuel c e).1.1 = Ret (Some (c, [], Some primary))).
Proof.
  intros stmt Hlive Hcount Hn.
  destruct (FetchOne_step_error c e e1 n Hlive Hcount Hn)
    as (row & e2 & reads & Hreads & Hstep).
  exists row, e2, reads. split; [exact Hreads |]. split.
  { destruct (column_texts_reads _ _ 0 _ _ _ _ _ (length_replicate _ _) Hreads)
      as (Hlen & _). rewrite length_replicate in Hlen. exact Hlen. }
  intros rc e3 Hrc Hdone Hrow.
  destruct (Hstep rc e3 Hrc Hdone Hrow) as (primary & e4 & t4 & _ & Hone & _).
  exists primary. split; [rewrite Hone; reflexivity |]. split.
  - intros count Hpos. rewrite FetchMany_refines by lia.
    unfold spec_FetchMany.
    destruct (Z.to_nat count) as [| k] eqn:Hk; [lia |].
    cbn [fetch_until_error]. rewrite !run_bind, Hone. reflexivity.
  - intros fuel Hfuel. destruct fuel as [| fuel]; [lia |].
    unfold Cursor_FetchAll. cbn [FetchAll_loop]. rewrite !run_bind, Hone. reflexivity.
Qed.

(** With an engine that always has a next row, [FetchOne] returns a row and
    leaves the cursor as it is. *)
Lemma FetchOne_on_endless_rows (c : Cursor) (e : E) :
  StatusRow ≠ StatusDone →
  (∀ e, 0 < (e_column_count (Statement_handle (Cursor_statement c)) e).1) →
  (∀ e, (e_step (Statement_handle (Cursor_statement c)) e).1 = StatusRow) →
  result c = true →
  ∃ row e' t, Cursor_FetchOne c e = (Ret (c, row, None), e', t).
Proof.
  intros Hcodes Hcolumns Hrows Hlive.
  unfold Cursor_FetchOne, C_sqlite3_column_count, C_sqlite3_step. rewrite Hlive.
  run_driver; eauto.
  - exfalso. pose proof (Hcolumns e) as Hc.
    match goal with H : e_column_count _ e = _ |- _ => rewrite H in Hc end.
    cbn in Hc. lia.
  - exfalso. match goal with H : e_step _ ?e2 = _ |- _ =>
                             pose proof (Hrows e2) as Hr; rewrite H in Hr end.
    cbn in Hr. tauto.
  - exfalso. match goal with H : e_step _ ?e2 = _ |- _ =>
                             pose proof (Hrows e2) as Hr; rewrite H in Hr end.
    cbn in Hr. congruence.
Qed.

(** [FetchAll] ends only when [FetchOne] reports an error: on a statement
    that always has a next row it does not return, whatever the bound on
    its loop. *)
Theorem FetchAll_never_returns_on_endless_rows (c : Cursor) :
  StatusRow ≠ StatusDone →
  (∀ e, 0 < (e_column_count (Statement_handle (Cursor_statement c)) e).1) →
  (∀ e, (e_step (Statement_handle (Cursor_statement c)) e).1 = StatusRow) →
  result c = true →
  ∀ (fuel : nat) (e : E), (Cursor_FetchAll fuel c e).1.1 = Ret None.
Proof.
  intros Hcodes Hcolumns Hrows Hlive fuel e.
  assert (Hloop : ∀ fuel v e, (FetchAll_loop fuel v c e).1.1 = Ret None).
  { clear fuel e. induction fuel as [| fuel IH]; intros v e; cbn [FetchAll_loop].
    - reflexivity.
    - destruct (FetchOne_on_endless_rows c e Hcodes Hcolumns Hrows Hlive)
        as (row & e' & t & Hone).
      rewrite run_bind, Hone. cbv beta iota.
      specialize (IH (v ++ [row]) e').
      destruct (FetchAll_loop fuel (v ++ [row]) c e') as [[r e2] t2].
      cbn in IH. subst r. reflexivity. }
  unfold Cursor_FetchAll. rewrite run_bind.
  specialize (Hloop fuel [] e).
  destruct (FetchAll_loop fuel [] c e) as [[r e2] t2]. cbn in Hloop. subst r.
  reflexivity.
Qed.

(** ** The sender of results *)

(** [Fetch] on a result set whose statement has no column leaves the result
    set as it is. *)
Lemma Fetch_without_columns (rs : ClassicResultSet) (e : E) :
  more rs = true →
  (e_column_count (Statement_handle (ClassicResultSet_statement rs)) e).1 ≤ 0 →
  ∃ res e' t, ClassicResultSet_Fetch rs e = (Ret (rs, res), e', t).
Proof.
  intros Hlive Hnone. unfold ClassicResultSet_Fetch, C_sqlite3_column_count.
  rewrite Hlive. cbn [negb]. rewrite run_bind, run_call. cbv beta iota.
  destruct (decide ((e_column_count (Statement_handle (ClassicResultSet_statement rs)) e).1
                    ≤ 0)); [| contradiction].
  rewrite run_ret. eauto.
Qed.

Lemma iterate_loop_ends_exhausted (fuel : nat) :
  ∀ (rs rs' : ClassicResultSet) (channel channel' : list Result) (e e' : E)
    (t0 t : list Event),
    iterate_loop fuel rs channel e = (Ret (Some (rs', channel')), e', t) →
    more rs' = false ∧
    (more rs = true → (length channel < length channel')%nat) ∧
    (exhausted_means_cleared (Statement_handle (ClassicResultSet_statement rs)) (more rs) t0 →
     exhausted_means_cleared (Statement_handle (ClassicResultSet_statement rs)) (more rs')
                             (t0 ++ t)).
Proof.
  induction fuel as [| fuel IH]; intros rs rs' channel channel' e e' t0 t;
    cbn [iterate_loop]; unfold ClassicResultSet_More;
    destruct (more rs) eqn:Hflag.
  - rewrite run_ret. discriminate.
  - rewrite run_ret. intros Hrun. inversion Hrun; subst.
    rewrite app_nil_r. split; [assumption |]. split; [discriminate |].
    rewrite Hflag. tauto.
  - rewrite run_bind.
    destruct (ClassicResultSet_Fetch rs e) as [[[[rs1 res] | reason] e1] t1] eqn:Hone;
      cbv beta iota; [| discriminate].
    destruct (iterate_loop fuel rs1 (channel ++ [res]) e1)
      as [[[[[rs2 channel2] |] | reason] e2] t2] eqn:Hrest; try discriminate.
    intros Hrun. inversion Hrun; subst.
    destruct (Fetch_keeps_invariant _ _ _ _ _ t0 _ Hone) as [Hsame Hkeep].
    destruct (IH _ _ _ _ _ _ (t0 ++ t1) _ Hrest) as (Hspent & Hsent & Hkeep').
    rewrite Hsame in Hkeep'. rewrite Hflag in Hkeep.
    split; [assumption |]. split.
    + intros _. assert (Hgrow : (length (channel ++ [res]) ≤ length channel')%nat).
      { destruct (more rs1) eqn:Hflag1; [specialize (Hsent eq_refl); lia |].
        destruct fuel; cbn [iterate_loop] in Hrest; unfold ClassicResultSet_More in Hrest;
          rewrite Hflag1, run_ret in Hrest; inversion Hrest; subst; lia. }
      rewrite length_app in Hgrow. cbn in Hgrow. lia.
    + intros Hinv. rewrite app_assoc. auto.
  - rewrite run_ret. intros Hrun. inversion Hrun; subst.
    rewrite app_nil_r. split; [assumption |]. split; [discriminate |].
    rewrite Hflag. tauto.
Qed.

(** [iterate] closes the channel only once the flag of the result set is
    false: started on a live result set it has then sent at least one
    result, and [Statement.clear] has been run after the last step. *)
Theorem iterate_ends_only_after_the_statement_is_cleared
        (fuel : nat) (rs : ClassicResultSet) (e e' : E) (sent : list Result)
        (t : list Event) :
  more rs = true →
  iterate fuel rs e = (Ret (Some sent), e', t) →
  sent ≠ [] ∧
  cleared_since_last_step (Statement_handle (ClassicResultSet_statement rs)) t.
Proof.
  intros Hlive. unfold iterate. rewrite run_bind.
  destruct (iterate_loop fuel rs [] e) as [[[[[rs' channel] |] | reason] e1] t1] eqn:Hloop;
    cbv beta iota; try (rewrite ?run_ret; discriminate).
  unfold ClassicResultSet_Close. run. rewrite !app_nil_r.
  intros Hrun. inversion Hrun; subst.
  destruct (iterate_loop_ends_exhausted _ _ _ _ _ _ _ [] _ Hloop) as (Hspent & Hsent & Hkeep).
  split.
  - specialize (Hsent Hlive). destruct sent; [cbn in Hsent; lia | discriminate].
  - apply Hkeep; [| assumption]. intros Hflag. congruence.
Qed.

(** On a live result set whose statement has no column, [Fetch] keeps
    answering a driver error and the flag stays true, so [iterate] never
    closes the channel. *)
Theorem iterate_never_ends_without_columns (rs : ClassicResultSet) :
  more rs = true →
  (∀ e, (e_column_count (Statement_handle (ClassicResultSet_statement rs)) e).1 ≤ 0) →
  ∀ (fuel : nat) (e : E), (iterate fuel rs e).1.1 = Ret None.
Proof.
  intros Hlive Hnone fuel e.
  assert (Hloop : ∀ fuel channel e, (iterate_loop fuel rs channel e).1.1 = Ret None).
  { clear fuel e. induction fuel as [| fuel IH]; intros channel e;
      cbn [iterate_loop]; unfold ClassicResultSet_More; rewrite Hlive.
    - reflexivity.
    - destruct (Fetch_without_columns rs e Hlive (Hnone e)) as (res & e1 & t1 & Hone).
      rewrite run_bind, Hone. cbv beta iota.
      specialize (IH (channel ++ [res]) e1).
      destruct (iterate_loop fuel rs (channel ++ [res]) e1) as [[r e2] t2].
      cbn in IH. subst r. reflexivity. }
  unfold iterate. rewrite run_bind.
  specialize (Hloop fuel [] e).
  destruct (iterate_loop fuel rs [] e) as [[r e2] t2]. cbn in Hloop. subst r.
  reflexivity.
Qed.

(** ** Two implementations of one protocol *)

(** [ClassicResultSet.Fetch] and [Cursor.FetchOne] are the same function on
    the same fields: they make the same calls, leave the engine in the same
    state, return the same row and set the flag alike; their errors differ
    only in the text of the driver errors. *)
Theorem Fetch_and_FetchOne_agree (rs : ClassicResultSet) (e : E) :
  ∃ c' row err res e' t,
    Cursor_FetchOne (cursor_of rs) e = (Ret (c', row, err), e', t) ∧
    ClassicResultSet_Fetch rs e = (Ret (result_set_of c', res), e', t) ∧
    data res = row ∧
    same_error err (error res).
Proof.
  assert (Hagree :
            let one := Cursor_FetchOne (cursor_of rs) e in
            let fetch := ClassicResultSet_Fetch rs e in
            one.2 = fetch.2 ∧ one.1.2 = fetch.1.2 ∧
            match one.1.1, fetch.1.1 with
            | Ret (c', row, err), Ret (rs', res) =>
              rs' = result_set_of c' ∧ data res = row ∧ same_error err (error res)
            | _, _ => False
            end).
  { cbv zeta. unfold Cursor_FetchOne, ClassicResultSet_Fetch, cursor_of, same_error.
    cbn [Cursor_statement Cursor_connection result].
    unfold C_sqlite3_column_count, C_sqlite3_step.
    destruct rs as [s conn flag]. cbn [ClassicResultSet_statement
                                       ClassicResultSet_connection more].
    destruct flag; cbn [negb]; run_driver; cbn; repeat split; eauto 6. }
  cbv zeta in Hagree. destruct Hagree as (Hevents & Hengine & Hresult).
  destruct (Cursor_FetchOne (cursor_of rs) e) as [[[[[c' row] err] | reason] e1] t1];
    destruct (ClassicResultSet_Fetch rs e) as [[[[rs' res] | reason'] e2] t2];
    cbn in *; try contradiction.
  destruct Hresult as (-> & Hdata & Herror). subst.
  eexists _, _, _, _, _, _. repeat split; eauto.
Qed.

(** The two versions of [parseConnInfo] agree on the name, the flags and the
    error; the one in core.go returns the empty string where the other
    returns no vfs. *)
Theorem parseConnInfo_variants_agree (str name : string) (flags : Z)
        (vfs : option string) (err : option Error) :
  parseConnInfo str = (name, flags, vfs, err) →
  CoreGo.parseConnInfo str = (name, flags, default "" vfs, err).
Proof.
  unfold parseConnInfo, CoreGo.parseConnInfo.
  destruct (http_ParseURL str) as [url [perr |]].
  { intros Hp. inversion Hp; subst. reflexivity. }
  destruct (bool_decide (0 < String.length (Scheme url))%nat
            && bool_decide (Scheme url ≠ "sqlite3")).
  { intros Hp. inversion Hp; subst. reflexivity. }
  destruct (decide (String.length (Path url) = 0)%nat).
  { intros Hp. inversion Hp; subst. reflexivity. }
  destruct (decide (0 < String.length (RawQuery url))%nat).
  - destruct (db_ParseQueryURL (RawQuery url)) as [options [e |]].
    { intros Hp. inversion Hp; subst. reflexivity. }
    destruct (options !! "flags") as [rflags |].
    + destruct (strconv_Atoi rflags) as [f [aerr |]];
        intros Hp; inversion Hp; subst; reflexivity.
    + intros Hp; inversion Hp; subst; reflexivity.
  - intros Hp. inversion Hp; subst. reflexivity.
Qed.

End Properties.

(** ** Version information *)

(** [version] fails exactly when the library has no version string, and
    then returns an empty map.  Otherwise the map holds the version string
    and the version number in decimal, and the source id only for a library
    later than 3.5.9 that has one. *)
Theorem version_reports_source_id_only_after_3_5_9 `{!VersionCalls} :
  (sqlite3_libversion = None →
   version = (∅, Some (DriverError "Version: couldn't get library version!"))) ∧
  (∀ v, sqlite3_libversion = Some v →
        version.2 = None ∧
        version.1 !! "version" = Some v ∧
        version.1 !! "sqlite3.versionnumber" = Some (strconv_Itob sqlite3_libversion_number 10) ∧
        version.1 !! "sqlite3.sourceid" =
        (if decide (3005009 < sqlite3_libversion_number) then sqlite3_sourceid else None)).
Proof.
  split.
  - intros Hnone. unfold version. rewrite Hnone. reflexivity.
  - intros v Hsome. unfold version. rewrite Hsome. cbn [fst snd].
    destruct (decide (3005009 < sqlite3_libversion_number));
      [destruct sqlite3_sourceid |]; repeat split; by simplify_map_eq.
Qed.

(** * The driver on the scripted engine *)

(** ** Where the specification and the code part *)

(** C7 as the specification words it fails: the [open] of the early draft,
    given the no-mutex flag in its map of options, makes the engine's open
    call with the no-mutex bit set and the full-mutex bit clear. *)
Lemma draft_open_keeps_no_mutex_flag :
  let run := Draft.open C_sqlite3_errcode no_mutex_options (healthy []) in
  run =
  (Ret (Some the_connection, None), healthy [],
   [Ev (sqlite3_open_v2 "test.db" 0x8000 None) (RHandle 5 0);
    Ev (sqlite3_busy_timeout 5 16000) (RInt 0)]) ∧
  Z.testbit 0x8000 15 = true ∧
  Z.testbit 0x8000 16 = false ∧
  ¬ serialized 0x8000 ∧
  ¬ Forall opens_serialized (events run).
Proof.
  cbv zeta. split; [reflexivity |]. split; [reflexivity |]. split; [reflexivity |].
  assert (Hnot : ¬ serialized 0x8000).
  { intros [Hno _]. vm_compute in Hno. discriminate Hno. }
  split; [exact Hnot |].
  intros Hall. apply Forall_cons in Hall as [Hopen _]. exact (Hnot Hopen).
Qed.

(** C2 as the specification words it fails, on the model of SQLite: the
    statement is executed, its only row is fetched, which exhausts the
    result set and clears the statement, and the statement is executed
    again.  The flag of the first result set is false, yet the statement
    is in use and its parameter is bound: its last call is a step that
    answered a row, no reset or clearing of the bindings follows, and a
    new execution is refused by the engine. *)
Lemma exhausted_result_set_of_a_statement_in_use :
  ∃ finish : Run Sqlite,
    run_program execute_fetch_execute {| held := []; engine := one_row; history := [] |}
    = Some finish ∧
    held finish = [HeldResultSet spent_result_set; HeldResultSet live_result_set] ∧
    more spent_result_set = false ∧
    ClassicResultSet_statement spent_result_set = the_statement ∧
    sq_delivered (engine finish) = Some 1%nat ∧
    sq_binding (engine finish) = Some "b" ∧
    calls finish =
    [Ev (sqlite3_bind_parameter_count 7) (RInt 1);
     Ev (wsq_bind_text 7 1 "a" (-1)) (RInt 0);
     Ev (sqlite3_step 7) (RInt 100);
     Ev (sqlite3_column_count 7) (RInt 1);
     Ev (wsq_column_text 7 0) (RText "a");
     Ev (sqlite3_step 7) (RInt 101);
     Ev (sqlite3_reset 7) (RInt 0);
     Ev (sqlite3_clear_bindings 7) (RInt 0);
     Ev (sqlite3_bind_parameter_count 7) (RInt 1);
     Ev (wsq_bind_text 7 1 "b" (-1)) (RInt 0);
     Ev (sqlite3_step 7) (RInt 100)] ∧
    ¬ cleared_since_last_step 7 (calls finish) ∧
    (Connection_ExecuteClassic the_connection (sqlite3_Statement the_statement)
                               [StringValue "c"] (engine finish)).1.1 =
    Ret (None, Some (SystemError 21 21 "misuse")).
Proof.
  eexists. split; [vm_compute; reflexivity |].
  split; [reflexivity |]. split; [reflexivity |]. split; [reflexivity |].
  split; [reflexivity |]. split; [reflexivity |]. split; [reflexivity |].
  split; [| reflexivity].
  intros (before & after & Hcalls & rc & rest & -> & _ & Hnostep).
  match type of Hcalls with
  | ?made = _ => let l := eval vm_compute in made in change made with l in Hcalls
  end.
  repeat (destruct before as [| ev before]; cbn [app] in Hcalls;
          [ try discriminate Hcalls | injection Hcalls as <- Hcalls ]).
  - injection Hcalls as _ <-.
    do 3 (apply Forall_cons in Hnostep as [_ Hnostep]).
    apply Forall_cons in Hnostep as [Hstep _]. apply Hstep. reflexivity.
  - destruct before; discriminate Hcalls.
Qed.

(** C3 as the specification words it fails: the step of [FetchOne] answers
    the error 266, the error is returned, but the statement is not reset
    and the cursor keeps its flag true. *)
Lemma FetchOne_step_error_leaves_statement_active :
  let run := Cursor_FetchOne live_cursor (io_error [266]) in
  run.1.1 = Ret (live_cursor, ["1"; "gopher"], Some (SystemError 10 266 "disk I/O error")) ∧
  result live_cursor = true ∧
  Ev (sqlite3_step 7) (RInt 266) ∈ events run ∧
  ¬ was_reset 7 (events run).
Proof.
  cbv zeta. split; [reflexivity |]. split; [reflexivity |]. split.
  - vm_compute. do 3 right. left.
  - intros [rc Hin]. vm_compute in Hin.
    repeat (apply elem_of_cons in Hin as [Hin | Hin]; [discriminate |]).
    apply elem_of_nil in Hin. exact Hin.
Qed.

(** ** The theorems at concrete inputs *)

(** Two concrete numbers differ. *)
Ltac differ := let H := fresh in intros H; vm_compute in H; discriminate H.

(** [Execute] on a statement whose first step answers done: the statement
    is reset and cleared, a channel is returned, and its goroutine
    panics. *)
Lemma Execute_first_step_witness :
  StatusRow ≠ StatusDone ∧
  ∃ channel : Channel,
    Connection_Execute the_connection (sqlite3_Statement the_statement)
                       [StringValue "a"] (healthy [101]) =
    (Ret (Some channel, None), healthy [],
     [Ev (sqlite3_bind_parameter_count 7) (RInt 1);
      Ev (wsq_bind_text 7 1 "a" (-1)) (RInt 0);
      Ev (sqlite3_step 7) (RInt 101);
      Ev (sqlite3_reset 7) (RInt 0);
      Ev (sqlite3_clear_bindings 7) (RInt 0)]) ∧
    ∀ fuel e',
      channel fuel e' =
      (Panic "invalid memory address or nil pointer dereference", e', []).
Proof.
  assert (Hcodes : StatusRow ≠ StatusDone) by differ.
  split; [exact Hcodes |].
  pose proof (Execute_first_step
                the_connection the_statement [StringValue "a"]
                (healthy [101]) (healthy [101]) (healthy [101]) (healthy [])
                [Ev (wsq_bind_text 7 1 "a" (-1)) (RInt 0)] 101) as Hfirst.
  destruct (Hfirst Hcodes eq_refl eq_refl eq_refl) as [_ Hdone].
  destruct (Hdone eq_refl (healthy []) (healthy []) 0 eq_refl eq_refl)
    as (e6 & rest & _ & Hok & _ & channel & Hrun & Hpanics).
  destruct (Hok eq_refl) as [-> ->].
  exists channel. split; [exact Hrun | exact Hpanics].
Defined.

(** The program that executes a statement and exhausts its result set:
    the statement is cleared and not stepped since.  When the program goes
    on to execute the statement again, the fetch still ended with the step
    that answered done, the reset and the clearing of the bindings. *)
Lemma exhausted_means_cleared_witness :
  (∃ finish : Run Sqlite,
     run_program execute_fetch {| held := []; engine := one_row; history := [] |}
     = Some finish ∧
     held finish = [HeldResultSet spent_result_set] ∧
     cleared_since_last_step 7 (calls finish)) ∧
  (∃ (finish : Run Sqlite) (t : list Event),
     run_program execute_fetch_execute {| held := []; engine := one_row; history := [] |}
     = Some finish ∧
     held finish = [HeldResultSet spent_result_set; HeldResultSet live_result_set] ∧
     (DoFetch 0, t) ∈ history finish ∧
     ends_cleared 7 t).
Proof.
  assert (Hcontract : resets_after_done (E := Sqlite)) by (intros stmt e _; reflexivity).
  split.
  - eexists.
    pose proof (exhausted_means_cleared_until_reused
                  execute_fetch {| held := []; engine := one_row; history := [] |} _
                  Hcontract eq_refl (Forall_nil_2 _) eq_refl) as [Hspent _].
    destruct (Hspent 0%nat (HeldResultSet spent_result_set) eq_refl eq_refl)
      as (earlier & op & t & later & Hhist & Htarget & _ & _ & Hstill).
    split; [reflexivity |]. split; [reflexivity |].
    apply Hstill.
    match type of Hhist with
    | ?made = _ => let l := eval vm_compute in made in change made with l in Hhist
    end.
    destruct earlier as [| ? [| ? [| ? earlier]]]; cbn [app] in Hhist;
      inversion Hhist; subst; try discriminate Htarget.
    constructor.
  - eexists.
    pose proof (exhausted_means_cleared_until_reused
                  execute_fetch_execute
                  {| held := []; engine := one_row; history := [] |} _
                  Hcontract eq_refl (Forall_nil_2 _) eq_refl) as [Hspent _].
    destruct (Hspent 0%nat (HeldResultSet spent_result_set) eq_refl eq_refl)
      as (earlier & op & t & later & Hhist & Htarget & Hends & _).
    exists t. split; [reflexivity |]. split; [reflexivity |]. split; [| exact Hends].
    rewrite Hhist.
    assert (Hop : op = DoFetch 0).
    { match type of Hhist with
      | ?made = _ => let l := eval vm_compute in made in change made with l in Hhist
      end.
      destruct earlier as [| ? [| ? [| ? earlier]]]; cbn [app] in Hhist;
        inversion Hhist; subst; try discriminate Htarget; try reflexivity.
      destruct earlier; discriminate. }
    subst op. apply elem_of_app. right. left.
Defined.

(** A step that fails during [FetchOne]. *)
Lemma fetch_step_error_witness :
  Forall (λ ev, ¬ clearing 7 ev) (events (Cursor_FetchOne live_cursor (io_error [266]))).
Proof.
  pose proof (fetch_step_error_is_surfaced_without_reset
                live_cursor live_result_set (io_error [266]) (io_error [266]) 2
                ltac:(lia)) as [Hcursor _].
  destruct (proj1 (Hcursor eq_refl eq_refl)) as (row & e2 & reads & Hreads & Hstep).
  injection Hreads as <- <- <-.
  assert (Hdone : 266 ≠ StatusDone) by differ.
  assert (Hrow : 266 ≠ StatusRow) by differ.
  destruct (Hstep 266 (io_error []) eq_refl Hdone Hrow)
    as (primary & e4 & t4 & _ & _ & Hnone).
  exact Hnone.
Defined.

(** [FetchOne] on an exhausted cursor. *)
Lemma FetchOne_exhausted_witness :
  result spent_cursor = false ∧
  Cursor_FetchOne spent_cursor (healthy [100]) =
  (Ret (spent_cursor, [], Some (DriverError "FetchOne: No results to fetch!")),
   healthy [100], []).
Proof.
  split; [reflexivity |].
  exact (FetchOne_exhausted_is_usage_error spent_cursor (healthy [100]) eq_refl).
Defined.

(** [FetchMany(5)] on a result of three rows, and [FetchAll] on the same
    result. *)
Lemma FetchMany_FetchAll_witness :
  (Cursor_FetchMany live_cursor 5 (healthy [100; 100; 101])).1.1 =
  Ret (spent_cursor, [["1"; "gopher"]; ["1"; "gopher"]; ["1"; "gopher"]], None) ∧
  (Cursor_FetchAll 10 live_cursor (healthy [100; 100; 101])).1.1 =
  Ret (Some (spent_cursor, [["1"; "gopher"]; ["1"; "gopher"]; ["1"; "gopher"]], None)).
Proof.
  split.
  - rewrite (proj1 (FetchMany_FetchAll_partial_success live_cursor (healthy [100; 100; 101]))
                   5 ltac:(lia)).
    reflexivity.
  - pose proof (proj2 (FetchMany_FetchAll_partial_success
                         live_cursor (healthy [100; 100; 101]))) as Hall.
    erewrite (Hall 4%nat); cycle 1; [reflexivity | lia | reflexivity].
Defined.

(** No parameter for a statement with one slot. *)
Lemma ExecuteClassic_parameter_count_mismatch_witness :
  Connection_ExecuteClassic the_connection (sqlite3_Statement the_statement) [] (healthy [100]) =
  (Ret (None, Some (DriverError "Execute: Number of parameters doesn't match!")),
   healthy [100], [Ev (sqlite3_bind_parameter_count 7) (RInt 1)]).
Proof.
  refine (ExecuteClassic_parameter_count_mismatch
            the_connection the_statement [] (healthy [100]) (healthy [100]) 1
            eq_refl _).
  differ.
Defined.

(** A connection string that asks for the no-mutex flag, and the options
    of the draft that ask for it. *)
Lemma open_forces_full_mutex_witness :
  parseConnInfo "nomutex.db" = ("nomutex.db", 32768, None, None) ∧
  (∃ answer rest,
    events (open "nomutex.db" (healthy [])) =
    Ev (sqlite3_open_v2 "nomutex.db" 65536 None) answer :: rest) ∧
  Draft.parseConnInfo no_mutex_options = Ret ("test.db", 32768, None, None) ∧
  (∃ answer rest,
    events (Draft.open C_sqlite3_errcode no_mutex_options (healthy [])) =
    Ev (sqlite3_open_v2 "test.db" 32768 None) answer :: rest).
Proof.
  split; [reflexivity |].
  pose proof (open_forces_full_mutex_on_connection_strings "nomutex.db" (healthy []))
    as (_ & Hfirst & _ & _ & Hdraft).
  split; [| split; [reflexivity |]].
  - destruct (Hfirst "nomutex.db" 32768 None eq_refl) as (answer & rest & Hevents & _).
    exists answer, rest. exact Hevents.
  - destruct (Hdraft C_sqlite3_errcode no_mutex_options "test.db" 32768 None eq_refl)
      as (answer & rest & Hevents & _).
    exists answer, rest. exact Hevents.
Defined.

(** An open call that fails but stores a handle. *)
Lemma open_failure_witness :
  open "test.db" cannot_open =
  (Ret (None, Some (SystemError 14 14 "unable to open database file")), cannot_open,
   [Ev (sqlite3_open_v2 "test.db" 65536 None) (RHandle 5 14);
    Ev (sqlite3_errcode 5) (RInt 14);
    Ev (sqlite3_errmsg 5) (RText "unable to open database file");
    Ev (sqlite3_close 5) (RInt 0)]).
Proof.
  pose proof (open_failure_closes_and_keeps_primary
                "test.db" "test.db" 0 None cannot_open cannot_open cannot_open 5 14
                [Ev (sqlite3_open_v2 "test.db" 65536 None) (RHandle 5 14)])
    as Hfailure.
  cbv zeta in Hfailure.
  refine (proj1 (Hfailure eq_refl eq_refl
                   (or_introl (conj _ (conj _ (conj eq_refl eq_refl))))
                   (SystemError 14 14 "unable to open database file") None
                   cannot_open cannot_open
                   [Ev (sqlite3_errcode 5) (RInt 14);
                    Ev (sqlite3_errmsg 5) (RText "unable to open database file")]
                   [Ev (sqlite3_close 5) (RInt 0)]
                   eq_refl eq_refl)); differ.
Defined.

(** A statement without columns. *)
Lemma fetch_without_columns_witness :
  Cursor_FetchOne live_cursor no_columns =
  (Ret (live_cursor, [], Some (DriverError "FetchOne: No columns in result!")), no_columns,
   [Ev (sqlite3_column_count 7) (RInt 0)]).
Proof.
  exact (proj1 (proj1 (fetch_without_columns_is_usage_error
                         live_cursor live_result_set no_columns no_columns 0 ltac:(lia))
                      eq_refl eq_refl)); differ.
Defined.

(** ** The further properties at concrete inputs *)

Lemma parseConnInfo_accepts_only_sqlite3_paths_witness :
  parseConnInfo "test.db" = ("test.db", 0, None, None) ∧
  Path {| Scheme := ""; Path := "test.db"; RawQuery := "" |} ≠ "".
Proof.
  split; [reflexivity |].
  pose proof (parseConnInfo_accepts_only_sqlite3_paths
                "test.db" "test.db" {| Scheme := ""; Path := "test.db"; RawQuery := "" |}
                None 0 None) as Hshape.
  exact (proj1 (proj2 (proj2 (Hshape eq_refl eq_refl)))).
Defined.

Lemma open_rejects_url_before_any_call_witness :
  @open Script script_engine sqlite_codes postgres_library "users" (healthy []) =
  (Ret (None, Some (DriverError "Open: unknown scheme postgres expected sqlite3")),
   healthy [], []) ∧
  open "" (healthy []) =
  (Ret (None, Some (DriverError "Open: no path or database name")), healthy [], []).
Proof.
  split.
  - pose proof (@open_rejects_url_before_any_call Script script_engine sqlite_codes
                  postgres_library "users"
                  {| Scheme := "postgres"; Path := "users"; RawQuery := "" |}
                  (healthy [])) as Hreject.
    refine (proj1 (Hreject eq_refl) _ _); differ.
  - pose proof (open_rejects_url_before_any_call
                  "" {| Scheme := ""; Path := ""; RawQuery := "" |} (healthy []))
      as Hreject.
    exact (proj2 (Hreject eq_refl) (or_introl eq_refl) eq_refl).
Defined.

Lemma open_without_query_passes_full_mutex_only_witness :
  ∃ answer rest,
    events (open "test.db" (healthy [])) =
    Ev (sqlite3_open_v2 "test.db" 65536 None) answer :: rest.
Proof.
  pose proof (open_without_query_passes_full_mutex_only
                "test.db" {| Scheme := ""; Path := "test.db"; RawQuery := "" |}
                (healthy [])) as Hopen.
  refine (Hopen eq_refl (or_introl eq_refl) _ eq_refl). differ.
Defined.

Lemma open_keeps_other_flag_bits_witness :
  ∃ passed answer rest,
    events (open "nomutex.db" (healthy [])) =
    Ev (sqlite3_open_v2 "nomutex.db" passed None) answer :: rest ∧
    Z.testbit passed 1 = Z.testbit 32768 1.
Proof.
  pose proof (open_keeps_other_flag_bits "nomutex.db" "nomutex.db" 32768 None (healthy []))
    as Hbits.
  destruct (Hbits eq_refl) as (passed & answer & rest & Hevents & Hsame).
  exists passed, answer, rest. split; [exact Hevents |].
  apply Hsame; lia.
Defined.

Lemma open_success_witness :
  open "test.db" (healthy []) =
  (Ret (Some the_connection, None), healthy [],
   [Ev (sqlite3_open_v2 "test.db" 65536 None) (RHandle 5 0);
    Ev (sqlite3_busy_timeout 5 16000) (RInt 0);
    Ev (sqlite3_extended_result_codes 5 1) (RInt 0)]).
Proof.
  pose proof (open_success_sets_timeout_then_extended_codes
                "test.db" "test.db" 0 None (healthy []) (healthy []) (healthy [])
                (healthy []) 5) as Hopen.
  exact (Hopen eq_refl eq_refl eq_refl eq_refl).
Defined.

Lemma open_failure_without_handle_witness :
  Forall (λ ev, ∀ db, ev_call ev ≠ sqlite3_close db) (events (open "test.db" no_handle)).
Proof.
  pose proof (open_failure_without_handle_closes_nothing
                "test.db" "test.db" 0 None no_handle no_handle 14) as Hopen.
  cbv zeta in Hopen.
  assert (Hrc : 14 ≠ StatusOk) by differ.
  exact (proj2 (Hopen eq_refl eq_refl Hrc
                      (SystemError 14 14 "unable to open database file") no_handle
                      [Ev (sqlite3_errcode 0) (RInt 14);
                       Ev (sqlite3_errmsg 0) (RText "unable to open database file")]
                      eq_refl)).
Defined.

Lemma Prepare_failure_witness :
  Connection_Prepare the_connection "SELEKT" (cannot_prepare 7) =
  (Ret (None, Some (SystemError 1 1 "syntax error")), cannot_prepare 7,
   [Ev (sqlite3_prepare_v2 5 "SELEKT") (RHandle 7 1);
    Ev (sqlite3_errcode 5) (RInt 1);
    Ev (sqlite3_errmsg 5) (RText "syntax error");
    Ev (sqlite3_finalize 7) (RInt 0)]).
Proof.
  pose proof (Prepare_failure_finalizes_and_keeps_primary
                the_connection "SELEKT" (cannot_prepare 7) (cannot_prepare 7)
                (cannot_prepare 7) 7 1 0) as Hprepare.
  assert (Hrc : 1 ≠ StatusOk) by differ.
  assert (Hh : 7 ≠ nil_handle) by differ.
  exact (Hprepare eq_refl Hrc Hh (SystemError 1 1 "syntax error") (cannot_prepare 7)
                  [Ev (sqlite3_errcode 5) (RInt 1);
                   Ev (sqlite3_errmsg 5) (RText "syntax error")]
                  eq_refl eq_refl).
Defined.

Lemma Prepare_without_failed_handle_witness :
  Connection_Prepare the_connection "SELECT 1" (healthy []) =
  (Ret (Some the_statement, None), healthy [],
   [Ev (sqlite3_prepare_v2 5 "SELECT 1") (RHandle 7 0)]) ∧
  Connection_Prepare the_connection "SELEKT" (cannot_prepare 0) =
  (Ret (None, Some (SystemError 1 1 "syntax error")), cannot_prepare 0,
   [Ev (sqlite3_prepare_v2 5 "SELEKT") (RHandle 0 1);
    Ev (sqlite3_errcode 5) (RInt 1);
    Ev (sqlite3_errmsg 5) (RText "syntax error")]).
Proof.
  split.
  - pose proof (Prepare_finalizes_only_a_failed_handle
                  the_connection "SELECT 1" (healthy []) (healthy []) 7 0) as Hprepare.
    exact (proj1 (Hprepare eq_refl) eq_refl).
  - pose proof (Prepare_finalizes_only_a_failed_handle
                  the_connection "SELEKT" (cannot_prepare 0) (cannot_prepare 0) 0 1)
      as Hprepare.
    assert (Hrc : 1 ≠ StatusOk) by differ.
    exact (proj2 (Hprepare eq_refl) Hrc eq_refl
                 (SystemError 1 1 "syntax error") (cannot_prepare 0)
                 [Ev (sqlite3_errcode 5) (RInt 1);
                  Ev (sqlite3_errmsg 5) (RText "syntax error")]
                 eq_refl).
Defined.

Lemma clear_succeeds_witness :
  ∃ r e' t,
    Statement_clear the_statement (failing_reset []) = (Ret r, e', t) ∧ r ≠ None.
Proof.
  pose proof (clear_succeeds_iff_reset_and_clear_bindings_do
                the_statement (failing_reset []) (failing_reset []) (failing_reset []) 1 0)
    as Hclear.
  destruct (Hclear eq_refl eq_refl) as (r & e' & t & Hrun & Hiff & _).
  exists r, e', t. split; [exact Hrun |].
  intros Hnone. apply Hiff in Hnone. destruct Hnone as [Hone _].
  vm_compute in Hone. discriminate Hone.
Defined.

Lemma ExecuteClassic_binds_in_order_witness :
  ∃ stepped rest,
    events (Connection_ExecuteClassic the_connection (sqlite3_Statement the_statement)
                                      [StringValue "a"] (healthy [100])) =
    [Ev (sqlite3_bind_parameter_count 7) (RInt 1);
     Ev (wsq_bind_text 7 1 "a" (-1)) (RInt 0);
     Ev (sqlite3_step 7) stepped] ++ rest.
Proof.
  pose proof (ExecuteClassic_binds_in_order
                the_connection the_statement ["a"] (healthy [100]) (healthy [100])
                (healthy [100]) [Ev (wsq_bind_text 7 1 "a" (-1)) (RInt 0)]) as Hbinds.
  assert (Hfew : Z.of_nat (length ["a"]) < 2 ^ 31) by (cbn; lia).
  exact (Hbinds Hfew eq_refl eq_refl).
Defined.

(** Two parameters, the first of which is refused: the second is never
    bound. *)
Lemma ExecuteClassic_bind_failure_witness :
  Connection_ExecuteClassic the_connection (sqlite3_Statement the_statement)
                            [StringValue "a"; StringValue "b"] refuses_two_parameters =
  (Ret (None, Some (SystemError 25 25 "column index out of range")), refuses_two_parameters,
   [Ev (sqlite3_bind_parameter_count 7) (RInt 2);
    Ev (wsq_bind_text 7 1 "a" (-1)) (RInt 25);
    Ev (sqlite3_errcode 5) (RInt 25);
    Ev (sqlite3_errmsg 5) (RText "column index out of range");
    Ev (sqlite3_reset 7) (RInt 0);
    Ev (sqlite3_clear_bindings 7) (RInt 0)]).
Proof.
  pose proof (ExecuteClassic_bind_failure_clears_and_never_steps
                the_connection the_statement [] "a" [StringValue "b"]
                refuses_two_parameters refuses_two_parameters refuses_two_parameters
                refuses_two_parameters [] 25) as Hfailure.
  assert (Hrc : 25 ≠ StatusOk) by differ.
  destruct (Hfailure eq_refl eq_refl eq_refl Hrc)
    as (extended & message & dropped & e4 & e5 & t5 & Herror & Hclear & Hrun & _).
  vm_compute in Herror. simplify_eq.
  vm_compute in Hclear. simplify_eq.
  exact Hrun.
Defined.

Lemma ExecuteClassic_panics_witness :
  Connection_ExecuteClassic the_connection (sqlite3_Statement the_statement)
                            [StringValue "a"; OtherValue] two_parameters =
  (Panic "interface conversion: not a *reflect.StringValue", two_parameters,
   [Ev (sqlite3_bind_parameter_count 7) (RInt 2);
    Ev (wsq_bind_text 7 1 "a" (-1)) (RInt 0)]).
Proof.
  pose proof (ExecuteClassic_panics_on_non_string_parameter
                the_connection the_statement ["a"] [] two_parameters two_parameters
                two_parameters [Ev (wsq_bind_text 7 1 "a" (-1)) (RInt 0)]) as Hpanic.
  exact (proj1 (Hpanic eq_refl eq_refl)).
Defined.

Lemma ExecuteClassic_step_error_witness :
  ∃ dropped e5 t5,
    Statement_clear the_statement (io_error []) = (Ret dropped, e5, t5) ∧
    clear_calls 7 t5 ∧
    Connection_ExecuteClassic the_connection (sqlite3_Statement the_statement)
                              [StringValue "a"] (io_error [266]) =
    (Ret (None, Some (SystemError 10 266 "disk I/O error")), e5,
     Ev (sqlite3_bind_parameter_count 7) (RInt 1)
        :: [Ev (wsq_bind_text 7 1 "a" (-1)) (RInt 0)]
        ++ Ev (sqlite3_step 7) (RInt 266)
        :: [Ev (sqlite3_errcode 5) (RInt 266);
            Ev (sqlite3_errmsg 5) (RText "disk I/O error")] ++ t5).
Proof.
  pose proof (ExecuteClassic_step_error_clears_and_returns_error
                the_connection the_statement [StringValue "a"]
                (io_error [266]) (io_error [266]) (io_error [266]) (io_error [])
                (io_error []) [Ev (wsq_bind_text 7 1 "a" (-1)) (RInt 0)]
                [Ev (sqlite3_errcode 5) (RInt 266);
                 Ev (sqlite3_errmsg 5) (RText "disk I/O error")]
                266 (SystemError 10 266 "disk I/O error")) as Hstep.
  assert (Hdone : 266 ≠ StatusDone) by differ.
  assert (Hrow : 266 ≠ StatusRow) by differ.
  exact (Hstep eq_refl eq_refl eq_refl Hdone Hrow eq_refl).
Defined.

Lemma FetchOne_delivers_the_columns_witness :
  length ["1"; "gopher"] = Z.to_nat 2 ∧
  Cursor_FetchOne live_cursor (healthy [100]) =
  (Ret (live_cursor, ["1"; "gopher"], None), healthy [],
   [Ev (sqlite3_column_count 7) (RInt 2);
    Ev (wsq_column_text 7 0) (RText "1");
    Ev (wsq_column_text 7 1) (RText "gopher");
    Ev (sqlite3_step 7) (RInt 100)]).
Proof.
  pose proof (FetchOne_delivers_the_columns_read_before_the_step
                live_cursor live_cursor (healthy [100]) (healthy [100]) (healthy []) 2
                ["1"; "gopher"] None
                [Ev (sqlite3_column_count 7) (RInt 2);
                 Ev (wsq_column_text 7 0) (RText "1");
                 Ev (wsq_column_text 7 1) (RText "gopher");
                 Ev (sqlite3_step 7) (RInt 100)]) as Hrow.
  cbv zeta in Hrow.
  assert (Hrun : Cursor_FetchOne live_cursor (healthy [100]) =
                 (Ret (live_cursor, ["1"; "gopher"], None), healthy [],
                  [Ev (sqlite3_column_count 7) (RInt 2);
                   Ev (wsq_column_text 7 0) (RText "1");
                   Ev (wsq_column_text 7 1) (RText "gopher");
                   Ev (sqlite3_step 7) (RInt 100)])) by reflexivity.
  split; [| exact Hrun].
  exact (proj1 (Hrow eq_refl eq_refl ltac:(lia) Hrun)).
Defined.

Lemma FetchOne_after_done_witness :
  ∃ dropped e4 t4,
    Statement_clear the_statement (healthy []) = (Ret dropped, e4, t4) ∧
    clear_calls 7 t4 ∧
    Cursor_FetchOne live_cursor (healthy [101]) =
    (Ret (spent_cursor, ["1"; "gopher"], None), e4,
     (Ev (sqlite3_column_count 7) (RInt 2)
         :: [Ev (wsq_column_text 7 0) (RText "1");
             Ev (wsq_column_text 7 1) (RText "gopher")]
         ++ [Ev (sqlite3_step 7) (RInt 101)]) ++ t4).
Proof.
  pose proof (FetchOne_after_row_and_after_done
                live_cursor (healthy [101]) (healthy [101]) (healthy [101]) (healthy [])
                2 101 ["1"; "gopher"]
                [Ev (wsq_column_text 7 0) (RText "1");
                 Ev (wsq_column_text 7 1) (RText "gopher")]) as Hdone.
  cbv zeta in Hdone.
  assert (Hcodes : StatusRow ≠ StatusDone) by differ.
  exact (proj2 (Hdone Hcodes eq_refl eq_refl ltac:(lia) eq_refl eq_refl) eq_refl).
Defined.

Lemma FetchRow_shared_name_witness :
  ∃ row,
    (Cursor_FetchRow live_cursor same_names).1.1 = Ret (live_cursor, row, None) ∧
    row !! "id" = Some "2" ∧
    (size row ≤ Z.to_nat 2)%nat.
Proof.
  exists (<["id" := "2"]> (<["id" := "1"]> ∅)).
  assert (Hrun : Cursor_FetchRow live_cursor same_names =
                 (Ret (live_cursor, <["id" := "2"]> (<["id" := "1"]> ∅), None),
                  script (5, 0) 0 [] 0 0 "not an error" [("id", "1"); ("id", "2")],
                  [Ev (sqlite3_column_count 7) (RInt 2);
                   Ev (wsq_column_text 7 0) (RText "1");
                   Ev (wsq_column_name 7 0) (RText "id");
                   Ev (wsq_column_text 7 1) (RText "2");
                   Ev (wsq_column_name 7 1) (RText "id");
                   Ev (sqlite3_step 7) (RInt 100)])) by reflexivity.
  split; [rewrite Hrun; reflexivity |]. split; [apply lookup_insert_eq |].
  pose proof (FetchRow_has_at_most_one_entry_per_column
                live_cursor live_cursor same_names same_names) as Hsize.
  exact (Hsize _ 2 _ _ _ eq_refl Hrun).
Defined.

Lemma FetchMany_returns_rows_or_an_error_witness :
  (length [["1"; "gopher"]] ≤ Z.to_nat 5)%nat ∧
  (Cursor_FetchMany live_cursor 5 (healthy [101])).1.1 =
  Ret (spent_cursor, [["1"; "gopher"]], None).
Proof.
  split; [| reflexivity].
  pose proof (FetchMany_returns_rows_or_an_error
                live_cursor spent_cursor 5 (healthy [101])) as Hmany.
  exact (proj1 (Hmany _ [["1"; "gopher"]] None _ ltac:(lia) eq_refl)).
Defined.

Lemma FetchMany_FetchAll_lose_the_row_witness :
  (Cursor_FetchOne live_cursor (io_error [266])).1.1 =
  Ret (live_cursor, ["1"; "gopher"], Some (SystemError 10 266 "disk I/O error")) ∧
  (Cursor_FetchMany live_cursor 3 (io_error [266])).1.1 =
  Ret (live_cursor, [], Some (SystemError 10 266 "disk I/O error")).
Proof.
  pose proof (FetchMany_FetchAll_lose_the_row_of_a_failed_step
                live_cursor (io_error [266]) (io_error [266]) 2) as Hlost.
  cbv zeta in Hlost.
  destruct (Hlost eq_refl eq_refl ltac:(lia)) as (row & e2 & reads & Hreads & _ & Hstep).
  injection Hreads as <- <- <-.
  assert (Hdone : 266 ≠ StatusDone) by differ.
  assert (Hrow : 266 ≠ StatusRow) by differ.
  destruct (Hstep 266 (io_error []) eq_refl Hdone Hrow) as (primary & Hone & Hmany & _).
  assert (Hprimary : primary = SystemError 10 266 "disk I/O error").
  { assert (Hrun : (Cursor_FetchOne live_cursor (io_error [266])).1.1 =
                   Ret (live_cursor, ["1"; "gopher"],
                        Some (SystemError 10 266 "disk I/O error"))) by reflexivity.
    rewrite Hrun in Hone. congruence. }
  subst primary. split; [exact Hone | apply Hmany; lia].
Defined.

Lemma FetchAll_never_returns_witness :
  (Cursor_FetchAll 50 live_cursor tt).1.1 = Ret None.
Proof.
  pose proof (FetchAll_never_returns_on_endless_rows (E := unit) live_cursor) as Hnever.
  assert (Hcodes : StatusRow ≠ StatusDone) by differ.
  refine (Hnever Hcodes _ _ eq_refl 50%nat tt).
  - intros e. cbn. lia.
  - intros e. reflexivity.
Defined.

Lemma iterate_ends_witness :
  iterate 5 live_result_set (healthy [101]) =
  (Ret (Some [{| data := ["1"; "gopher"]; error := None |}]), healthy [],
   [Ev (sqlite3_column_count 7) (RInt 2);
    Ev (wsq_column_text 7 0) (RText "1");
    Ev (wsq_column_text 7 1) (RText "gopher");
    Ev (sqlite3_step 7) (RInt 101);
    Ev (sqlite3_reset 7) (RInt 0);
    Ev (sqlite3_clear_bindings 7) (RInt 0)]) ∧
  cleared_since_last_step 7
    [Ev (sqlite3_column_count 7) (RInt 2);
     Ev (wsq_column_text 7 0) (RText "1");
     Ev (wsq_column_text 7 1) (RText "gopher");
     Ev (sqlite3_step 7) (RInt 101);
     Ev (sqlite3_reset 7) (RInt 0);
     Ev (sqlite3_clear_bindings 7) (RInt 0)].
Proof.
  assert (Hrun : iterate 5 live_result_set (healthy [101]) =
                 (Ret (Some [{| data := ["1"; "gopher"]; error := None |}]), healthy [],
                  [Ev (sqlite3_column_count 7) (RInt 2);
                   Ev (wsq_column_text 7 0) (RText "1");
                   Ev (wsq_column_text 7 1) (RText "gopher");
                   Ev (sqlite3_step 7) (RInt 101);
                   Ev (sqlite3_reset 7) (RInt 0);
                   Ev (sqlite3_clear_bindings 7) (RInt 0)])) by reflexivity.
  split; [exact Hrun |].
  pose proof (iterate_ends_only_after_the_statement_is_cleared
                5 live_result_set (healthy [101])) as Hends.
  exact (proj2 (Hends _ _ _ eq_refl Hrun)).
Defined.

Lemma iterate_never_ends_witness :
  (@iterate unit columnless_engine sqlite_codes 50 live_result_set tt).1.1 = Ret None.
Proof.
  pose proof (@iterate_never_ends_without_columns unit columnless_engine sqlite_codes
                live_result_set) as Hnever.
  refine (Hnever eq_refl _ 50%nat tt).
  intros e. cbn. lia.
Defined.

Lemma parseConnInfo_variants_agree_witness :
  CoreGo.parseConnInfo "nomutex.db" = ("nomutex.db", 32768, "", None).
Proof.
  pose proof (parseConnInfo_variants_agree "nomutex.db" "nomutex.db" 32768 None None)
    as Hagree.
  exact (Hagree eq_refl).
Defined.

Lemma version_witness :
  (@version debian_359).1 !! "sqlite3.sourceid" = None ∧
  (@version later_version).1 !! "sqlite3.sourceid" = Some "2009-11-04".
Proof.
  split.
  - pose proof (proj2 (@version_reports_source_id_only_after_3_5_9 debian_359) "3.5.9" eq_refl)
      as (_ & _ & _ & Hid).
    exact Hid.
  - pose proof (proj2 (@version_reports_source_id_only_after_3_5_9 later_version)
                      "3.6.20" eq_refl) as (_ & _ & _ & Hid).
    exact Hid.
Defined.
